(** * HTML slide -> PDF batch pipeline (pdf_converter.py)

    A shallow embedding of [HTMLToPDFConverter]: the converter object
    ([self.playwright], [self.browser]), the filesystem it reads and writes,
    the browser engine it drives and the logger it reports to are one
    explicit state; every method is a function in a state-and-exception
    monad over it.

    The browser engine, the operating system and the PDF merge library are
    outside the program.  Every call into them is recorded in a trace and
    may either return or raise: an oracle, indexed by the number of calls
    made so far and by the call itself, decides which.  All theorems
    quantify over the oracle unless they say otherwise.  Calls that never
    return, and task cancellation ([asyncio.CancelledError], which is not an
    [Exception]), are outside the model.

    The configuration (config.py, [Config.get] and [Config.set]) is
    embedded as functions on JSON values.  The driver (main.py,
    [find_html_files] and [convert_to_pdf]) is embedded in a second
    state-and-exception monad around the converter's, with its own calls
    ([mkdir], [rmtree]) and its own oracle. *)

From stdpp Require Import base option list gmap strings pretty.
From Stdlib Require Import ZArith Lia.

Open Scope string_scope.

(** ** Data *)

(** Keyword arguments of [page.pdf]; lengths are kept as the strings the
    source passes. *)
Record PdfOptions := mkPdfOptions {
  width : string;
  height : string;
  print_background : bool;
  landscape : bool;
  margin_top : string;
  margin_right : string;
  margin_bottom : string;
  margin_left : string;
  prefer_css_page_size : bool;
  display_header_footer : bool;
  scale : Z
}.

(** The two scripts handed to [page.evaluate]. *)
Inductive Script := WaitImages | FontsReady.

(** Calls that leave the program. *)
Inductive Call :=
| CMakedirs (d : string)
| CPlaywrightStart
| CLaunch (pw : nat) (headless : bool) (args : list string)
| CBrowserClose (b : nat)
| CPlaywrightStop (pw : nat)
| CNewPage (b : nat)
| CSetViewport (p : nat) (w h : Z)
| CGoto (p : nat) (url : string) (wait_until : string) (timeout : Z)
| CSleep (seconds : Z)
| CEvaluate (p : nat) (s : Script)
| CPdf (p : nat) (path : string) (opts : PdfOptions)
| CPageClose (p : nat)
| CMergerAppend (f : string)
| COpenWb (path : string)
| CMergerWrite (path : string)
| CMergerClose.

Inductive Exn :=
| RuntimeError            (* "Playwright not available ..." *)
| ImportError             (* from PyPDF2 import PdfMerger *)
| FileExistsError         (* os.makedirs on a regular file *)
| IsADirectoryError       (* open(dir, 'wb') *)
| PdfReadError (f : string)  (* merger.append on something that is no PDF *)
| AttributeError          (* method call on None *)
| EngineError (c : Call). (* the callee raised *)

Definition is_import_error (e : Exn) : bool :=
  match e with ImportError => true | _ => false end.

(** One printed sheet: what was loaded, the viewport it was laid out in, the
    options it was printed with, and which sheet of the document it is. *)
Record PdfPage := mkPdfPage {
  page_src : option string;
  page_viewport : option (Z * Z);
  page_opts : PdfOptions;
  page_no : nat
}.

Inductive Content :=
| Raw                          (* any file that is not a PDF, e.g. HTML *)
| Pdf (pages : list PdfPage)   (* a complete page document *)
| Truncated.                   (* opened for writing, not (fully) written *)

Inductive Node := Dir | File (c : Content).

(** An open page context of the browser. *)
Record PageCtx := mkPageCtx {
  pg_browser : nat;
  pg_viewport : option (Z * Z);
  pg_url : option string
}.

Inductive LogMsg :=
| StartingBrowser                 (* info    启动Chromium浏览器... *)
| HtmlMissing (path : string)     (* error   HTML文件不存在 *)
| LoadingHtml (url : string)      (* info    加载HTML文件 *)
| PdfGenerated (path : string)    (* info    PDF生成成功 *)
| ConvertFailed (e : Exn)         (* error   HTML到PDF转换失败 *)
| ReadyWarning (e : Exn)          (* warning 页面就绪检查出现警告 *)
| JobFailed (html_file : string)  (* error   转换失败 *)
| BatchFailed (e : Exn)           (* error   批量转换失败 *)
| MergeOk (path : string)         (* info    PDF合并成功 *)
| PyPDF2Missing                   (* warning PyPDF2未安装 *)
| MergeFailed (e : Exn).          (* error   PDF合并失败 *)

(** The converter instance and the world around it.  [log] and [trace] are
    newest first. *)
Record State := mkState {
  self_playwright : option nat;
  self_browser : option nat;
  fs : gmap string Node;
  browsers : gset nat;            (* live browser processes *)
  pages : gmap nat PageCtx;       (* open page contexts *)
  fresh : nat;                    (* next handle *)
  log : list LogMsg;
  trace : list Call
}.

Definition set_self_playwright (v : option nat) (st : State) : State :=
  mkState v (self_browser st) (fs st) (browsers st) (pages st) (fresh st)
          (log st) (trace st).
Definition set_self_browser (v : option nat) (st : State) : State :=
  mkState (self_playwright st) v (fs st) (browsers st) (pages st) (fresh st)
          (log st) (trace st).
Definition set_fs (v : gmap string Node) (st : State) : State :=
  mkState (self_playwright st) (self_browser st) v (browsers st) (pages st)
          (fresh st) (log st) (trace st).
Definition set_browsers (v : gset nat) (st : State) : State :=
  mkState (self_playwright st) (self_browser st) (fs st) v (pages st)
          (fresh st) (log st) (trace st).
Definition set_pages (v : gmap nat PageCtx) (st : State) : State :=
  mkState (self_playwright st) (self_browser st) (fs st) (browsers st) v
          (fresh st) (log st) (trace st).
Definition set_fresh (v : nat) (st : State) : State :=
  mkState (self_playwright st) (self_browser st) (fs st) (browsers st)
          (pages st) v (log st) (trace st).
Definition set_log (v : list LogMsg) (st : State) : State :=
  mkState (self_playwright st) (self_browser st) (fs st) (browsers st)
          (pages st) (fresh st) v (trace st).
Definition set_trace (v : list Call) (st : State) : State :=
  mkState (self_playwright st) (self_browser st) (fs st) (browsers st)
          (pages st) (fresh st) (log st) v.

(** [HTMLToPDFConverter.__init__]: no driver, no browser. *)
Definition init (files : gmap string Node) : State :=
  mkState None None files ∅ ∅ 0 [] [].

(** ** The monad *)

Inductive Res (A : Type) := Ok (a : A) | Raise (e : Exn).
Arguments Ok {A} a.
Arguments Raise {A} e.

Definition M (A : Type) : Type := State → Res A * State.

Definition run {A} (m : M A) (st : State) : Res A * State := m st.

#[global] Instance M_ret : MRet M := λ A a st, (Ok a, st).
#[global] Instance M_bind : MBind M := λ A B f m st,
  match m st with
  | (Ok a, st') => f a st'
  | (Raise e, st') => (Raise e, st')
  end.

Definition raise {A} (e : Exn) : M A := λ st, (Raise e, st).
Definition get : M State := λ st, (Ok st, st).
Definition modify (f : State → State) : M unit := λ st, (Ok tt, f st).

(** [try: m except Exception as e: h e] *)
Definition try_except {A} (m : M A) (h : Exn → M A) : M A := λ st,
  match m st with
  | (Ok a, st') => (Ok a, st')
  | (Raise e, st') => h e st'
  end.

(** [try: m finally: fin]: [fin] always runs; when it raises, its exception
    replaces whatever [m] returned or raised. *)
Definition try_finally {A} (m : M A) (fin : M unit) : M A := λ st,
  match m st with
  | (r, st') =>
      match fin st' with
      | (Ok _, st'') => (r, st'')
      | (Raise e, st'') => (Raise e, st'')
      end
  end.

Definition logger (m : LogMsg) : M unit :=
  modify (λ st, set_log (m :: log st) st).

(** ** Paths *)

Fixpoint endswith_sep (s : string) : bool :=
  match s with
  | EmptyString => false
  | String c EmptyString => Ascii.eqb c (Ascii.ascii_of_nat 47)
  | String _ s' => endswith_sep s'
  end.

Definition startswith_sep (s : string) : bool :=
  match s with
  | String c _ => Ascii.eqb c (Ascii.ascii_of_nat 47)
  | EmptyString => false
  end.

(** [os.path.join a b] (posixpath). *)
Definition os_path_join (a b : string) : string :=
  if startswith_sep b then b
  else if (match a with EmptyString => true | _ => endswith_sep a end)
       then a +:+ b
       else a +:+ "/" +:+ b.

(** [f"slide_{i+1}.pdf"] *)
Definition pdf_filename (i : nat) : string :=
  "slide_" +:+ pretty (i + 1)%nat +:+ ".pdf".

(** Python truthiness of [Optional[str]]. *)
Definition truthy (s : option string) : bool :=
  match s with
  | Some (String _ _) => true
  | _ => false
  end.

(** ** The environment *)

(** What the program cannot decide: whether the optional libraries import,
    what [os.path.abspath] makes of a path (it depends on the working
    directory), how many sheets the engine prints for the document at a
    URL, and which external calls raise. *)
Record Env := mkEnv {
  PLAYWRIGHT_AVAILABLE : bool;
  PYPDF2_INSTALLED : bool;
  abspath : string → string;
  sheets : string → nat;
  oracle : nat → Call → bool
}.

(** The document [page.pdf] produces for a page context. *)
Definition printed (E : Env) (pg_src : option string)
    (viewport : option (Z * Z)) (opts : PdfOptions) : list PdfPage :=
  map (mkPdfPage pg_src viewport opts)
      (seq 1 (match pg_src with Some url => sheets E url | None => 1 end)).

(** [chromium.launch(headless=True, args=[...])] *)
Definition launch_args : list string :=
  [ "--no-sandbox"; "--disable-setuid-sandbox"; "--disable-dev-shm-usage";
    "--disable-gpu"; "--disable-web-security";
    "--allow-running-insecure-content";
    "--disable-features=VizDisplayCompositor" ].

(** The keyword arguments of the one [page.pdf] call in the source. *)
Definition ppt_pdf_options : PdfOptions :=
  {| width := "338.67mm"; height := "190.5mm";
     print_background := true; landscape := false;
     margin_top := "0mm"; margin_right := "0mm";
     margin_bottom := "0mm"; margin_left := "0mm";
     prefer_css_page_size := false; display_header_footer := false;
     scale := 1 |}.

Section Converter.

Variable E : Env.

(** *** External calls *)

(** An external call: recorded, then it returns or raises as the oracle
    says.  Its effect on the world, if any, is applied by the wrappers
    below and only when it returns. *)
Definition call (c : Call) : M unit := λ st,
  let st' := set_trace (c :: trace st) st in
  if oracle E (length (trace st)) c then (Ok tt, st')
  else (Raise (EngineError c), st').

Definition new_handle : M nat := λ st,
  (Ok (fresh st), set_fresh (S (fresh st)) st).

(** [asyncio.sleep]: recorded; it raises no [Exception]. *)
Definition asyncio_sleep (seconds : Z) : M unit :=
  modify (λ st, set_trace (CSleep seconds :: trace st) st).

Definition os_path_exists (p : string) : M bool := λ st,
  (Ok (match fs st !! p with Some _ => true | None => false end), st).

(** [os.makedirs(d, exist_ok=True)]; parent directories are not tracked. *)
Definition os_makedirs (d : string) : M unit :=
  call (CMakedirs d) ;;
  st ← get;
  match fs st !! d with
  | None => modify (λ st, set_fs (<[d := Dir]> (fs st)) st)
  | Some Dir => mret tt
  | Some (File _) => raise FileExistsError
  end.

Definition async_playwright_start : M nat :=
  call CPlaywrightStart ;; new_handle.

Definition chromium_launch (pw : nat) : M nat :=
  call (CLaunch pw true launch_args) ;;
  b ← new_handle;
  modify (λ st, set_browsers ({[b]} ∪ browsers st) st) ;;
  mret b.

(** [browser.close()]: the process and all its page contexts go away; when
    the call raises, the process is taken to be still there. *)
Definition browser_close (b : nat) : M unit :=
  call (CBrowserClose b) ;;
  modify (λ st, set_pages (filter (λ kv, pg_browser kv.2 ≠ b) (pages st))
                  (set_browsers (browsers st ∖ {[b]}) st)).

Definition playwright_stop (pw : nat) : M unit :=
  call (CPlaywrightStop pw).

Definition browser_new_page (ob : option nat) : M nat :=
  match ob with
  | None => raise AttributeError
  | Some b =>
      call (CNewPage b) ;;
      p ← new_handle;
      modify (λ st, set_pages (<[p := mkPageCtx b None None]> (pages st)) st) ;;
      mret p
  end.

Definition page_set_viewport_size (p : nat) (w h : Z) : M unit :=
  call (CSetViewport p w h) ;;
  modify (λ st, set_pages
    (alter (λ pg, mkPageCtx (pg_browser pg) (Some (w, h)) (pg_url pg)) p
           (pages st)) st).

Definition page_goto (p : nat) (url wait_until : string) (timeout : Z)
  : M unit :=
  call (CGoto p url wait_until timeout) ;;
  modify (λ st, set_pages
    (alter (λ pg, mkPageCtx (pg_browser pg) (pg_viewport pg) (Some url)) p
           (pages st)) st).

Definition page_evaluate (p : nat) (s : Script) : M unit :=
  call (CEvaluate p s).

(** [page.pdf(path=..., **opts)]: on return, [path] holds the printed
    document. *)
Definition page_pdf (p : nat) (path : string) (opts : PdfOptions) : M unit :=
  call (CPdf p path opts) ;;
  st ← get;
  match pages st !! p, fs st !! path with
  | None, _ => raise (EngineError (CPdf p path opts))
  | Some _, Some Dir => raise IsADirectoryError
  | Some pg, _ =>
      modify (λ st, set_fs
        (<[path := File (Pdf (printed E (pg_url pg) (pg_viewport pg) opts))]>
           (fs st)) st)
  end.

Definition page_close (p : nat) : M unit :=
  call (CPageClose p) ;;
  modify (λ st, set_pages (delete p (pages st)) st).

(** [from PyPDF2 import PdfMerger] *)
Definition import_PyPDF2 : M unit :=
  if PYPDF2_INSTALLED E then mret tt else raise ImportError.

(** [merger.append(f)]: the pages of [f] are taken as they are now. *)
Definition merger_append (merger : list PdfPage) (f : string)
  : M (list PdfPage) :=
  call (CMergerAppend f) ;;
  st ← get;
  match fs st !! f with
  | Some (File (Pdf ps)) => mret (merger ++ ps)%list
  | _ => raise (PdfReadError f)
  end.

(** [open(path, 'wb')]: creates the file or cuts it to length zero. *)
Definition open_wb (path : string) : M unit :=
  call (COpenWb path) ;;
  st ← get;
  match fs st !! path with
  | Some Dir => raise IsADirectoryError
  | _ => modify (λ st, set_fs (<[path := File Truncated]> (fs st)) st)
  end.

(** [merger.write(output_file)]: when it raises, the file stays as far as
    it got. *)
Definition merger_write (merger : list PdfPage) (path : string) : M unit :=
  call (CMergerWrite path) ;;
  modify (λ st, set_fs (<[path := File (Pdf merger)]> (fs st)) st).

Definition merger_close : M unit := call CMergerClose.

(** *** HTMLToPDFConverter *)

Definition is_available : M bool := mret (PLAYWRIGHT_AVAILABLE E).

Definition start_browser : M unit :=
  avail ← is_available;
  if negb avail then raise RuntimeError
  else
    st ← get;
    match self_browser st with
    | None =>
        logger StartingBrowser ;;
        pw ← async_playwright_start;
        modify (set_self_playwright (Some pw)) ;;
        b ← chromium_launch pw;
        modify (set_self_browser (Some b))
    | Some _ => mret tt
    end.

Definition close_browser : M unit :=
  st ← get;
  match self_browser st with
  | Some b => browser_close b ;; modify (set_self_browser None)
  | None => mret tt
  end ;;
  st ← get;
  match self_playwright st with
  | Some pw => playwright_stop pw ;; modify (set_self_playwright None)
  | None => mret tt
  end.

Definition _wait_for_page_ready (page : nat) : M unit :=
  try_except
    (page_evaluate page WaitImages ;;
     page_evaluate page FontsReady ;;
     asyncio_sleep 1)
    (λ e, logger (ReadyWarning e)).

Definition convert_html_to_pdf (html_file_path pdf_output_path : string)
  : M bool :=
  found ← os_path_exists html_file_path;
  if negb found then
    (logger (HtmlMissing html_file_path) ;; mret false)
  else
    try_except
      (start_browser ;;
       st ← get;
       page ← browser_new_page (self_browser st);
       page_set_viewport_size page 1280 720 ;;
       let file_url := "file://" +:+ abspath E html_file_path in
       logger (LoadingHtml file_url) ;;
       page_goto page file_url "networkidle" 30000 ;;
       asyncio_sleep 2 ;;
       _wait_for_page_ready page ;;
       page_pdf page pdf_output_path ppt_pdf_options ;;
       page_close page ;;
       logger (PdfGenerated pdf_output_path) ;;
       mret true)
      (λ e, logger (ConvertFailed e) ;; mret false).

(** [for pdf_file in pdf_files: if os.path.exists(pdf_file): merger.append] *)
Fixpoint append_all (pdf_files : list string) (merger : list PdfPage)
  : M (list PdfPage) :=
  match pdf_files with
  | [] => mret merger
  | pdf_file :: rest =>
      found ← os_path_exists pdf_file;
      if (found : bool) then
        (merger' ← merger_append merger pdf_file; append_all rest merger')
      else append_all rest merger
  end.

Definition _merge_pdfs (pdf_files : list string) (output_path : string)
  : M unit :=
  try_except
    (import_PyPDF2 ;;
     merger ← append_all pdf_files [];
     open_wb output_path ;;
     merger_write merger output_path ;;
     merger_close ;;
     logger (MergeOk output_path))
    (λ e, if is_import_error e then logger PyPDF2Missing
          else logger (MergeFailed e)).

(** [for i, html_file in enumerate(html_files): ...], started at index [i]
    with the paths collected so far. *)
Fixpoint render_loop (output_dir : string) (i : nat)
    (html_files pdf_files : list string) : M (list string) :=
  match html_files with
  | [] => mret pdf_files
  | html_file :: rest =>
      let pdf_path := os_path_join output_dir (pdf_filename i) in
      success ← convert_html_to_pdf html_file pdf_path;
      if (success : bool) then render_loop output_dir (S i) rest (pdf_files ++ [pdf_path])%list
      else (logger (JobFailed html_file) ;;
            render_loop output_dir (S i) rest pdf_files)
  end.

(** The [try: ... except Exception: ... ] part of the batch method. *)
Definition batch_body (html_files : list string) (output_dir : string)
    (merged_pdf_path : option string) : M (list string) :=
  try_except
    (start_browser ;;
     pdf_files ← render_loop output_dir 0 html_files [];
     match merged_pdf_path with
     | Some merged =>
         if truthy merged_pdf_path && negb (bool_decide (pdf_files = ([] : list string)))
         then _merge_pdfs pdf_files merged ;; mret [merged]
         else mret pdf_files
     | None => mret pdf_files
     end)
    (λ e, logger (BatchFailed e) ;; mret ([] : list string)).

Definition convert_multiple_html_to_pdf (html_files : list string)
    (output_dir : string) (merged_pdf_path : option string)
  : M (list string) :=
  os_makedirs output_dir ;;
  try_finally (batch_body html_files output_dir merged_pdf_path)
              close_browser.

End Converter.

(** ** Vocabulary of the statements *)

Close Scope string_scope.

(** Where job [i] (counted from 0) is written. *)
Definition slide_path (output_dir : string) (i : nat) : string :=
  os_path_join output_dir (pdf_filename i).

Definition slide_paths (output_dir : string) (i n : nat) : list string :=
  map (slide_path output_dir) (seq i n).

(** The document a successful render of [html] captures. *)
Definition doc_of (E : Env) (html : string) : list PdfPage :=
  printed E (Some ("file://" +:+ abspath E html)) (Some (1280, 720)%Z)
          ppt_pdf_options.

(** The elements of [xs] whose flag is set, in order. *)
Fixpoint select {A} (flags : list bool) (xs : list A) : list A :=
  match flags, xs with
  | b :: flags', x :: xs' =>
      if b then x :: select flags' xs' else select flags' xs'
  | _, _ => []
  end.

(** What [convert_html_to_pdf] returns for each job of the loop, in the
    state the loop has reached when it gets to that job.  (The render
    catches every exception, so the last case never arises.) *)
Fixpoint job_outcomes (E : Env) (output_dir : string) (i : nat)
    (html_files : list string) (st : State) : list bool :=
  match html_files with
  | [] => []
  | html_file :: rest =>
      match run (convert_html_to_pdf E html_file (slide_path output_dir i)) st
      with
      | (Ok true, st') => true :: job_outcomes E output_dir (S i) rest st'
      | (Ok false, st') =>
          false :: job_outcomes E output_dir (S i) rest
                     (set_log (JobFailed html_file :: log st') st')
      | (Raise _, _) => []
      end
  end.

(** The pages of the documents among [files], in order; what a merge that
    meets no error collects. *)
Fixpoint pages_of_files (files : gmap string Node) (pdf_files : list string)
  : list PdfPage :=
  match pdf_files with
  | [] => []
  | f :: rest =>
      match files !! f with
      | Some (File (Pdf ps)) => ps ++ pages_of_files files rest
      | _ => pages_of_files files rest
      end
  end.

(** What the message logged by a merge says about the files: [before] and
    [after] are the filesystem around the merge, [merged] the pages it
    collected. *)
Definition merge_outcome (before after : gmap string Node) (out : string)
    (merged : list PdfPage) (m : LogMsg) : Prop :=
  match m with
  | MergeOk p => p = out ∧ after = <[out := File (Pdf merged)]> before
  | PyPDF2Missing => after = before
  | MergeFailed (EngineError (CMergerWrite _)) =>
      after = <[out := File Truncated]> before
  | MergeFailed (EngineError CMergerClose) =>
      after = <[out := File (Pdf merged)]> before
  | MergeFailed _ => after = before
  | _ => False
  end.

Definition is_readiness_call (c : Call) : bool :=
  match c with CEvaluate _ _ => true | _ => false end.

Definition is_teardown_call (c : Call) : bool :=
  match c with CBrowserClose _ | CPlaywrightStop _ => true | _ => false end.

Definition is_merge_call (c : Call) : bool :=
  match c with
  | CMergerAppend _ | COpenWb _ | CMergerWrite _ | CMergerClose => true
  | _ => false
  end.

(** Calls that belong to a render job: anything on a page context. *)
Definition is_job_call (c : Call) : bool :=
  match c with
  | CNewPage _ | CSetViewport _ _ _ | CGoto _ _ _ _ | CEvaluate _ _
  | CPdf _ _ _ | CPageClose _ => true
  | _ => false
  end.

(** The page context a call works on, for the calls a render makes between
    opening its page and closing it. *)
Definition page_of_call (c : Call) : option nat :=
  match c with
  | CSetViewport p _ _ | CGoto p _ _ _ | CEvaluate p _ | CPdf p _ _ => Some p
  | _ => None
  end.

(** Every open page context belongs to one of the browsers [bs]. *)
Definition pages_ok (bs : gset nat) (pgs : gmap nat PageCtx) : Prop :=
  ∀ p pg, pgs !! p = Some pg → pg_browser pg ∈ bs.

(** The live browser processes are exactly the one the converter holds,
    every open page context belongs to a live browser, and a browser is
    only held where the engine is installed. *)
Definition session_inv (E : Env) (st : State) : Prop :=
  browsers st = match self_browser st with Some b => {[b]} | None => ∅ end
  ∧ pages_ok (browsers st) (pages st)
  ∧ (is_Some (self_browser st) → PLAYWRIGHT_AVAILABLE E = true).

(** [st'] has the session of [st]: same handles, same live browsers, same
    open page contexts. *)
Definition same_session (st st' : State) : Prop :=
  self_playwright st' = self_playwright st
  ∧ self_browser st' = self_browser st
  ∧ browsers st' = browsers st
  ∧ pages st' = pages st.

(** States a converter instance can be in: created by [__init__], then any
    sequence of its public methods, with the filesystem free to change
    between calls. *)
Inductive reachable (E : Env) : State → Prop :=
| reach_init files : reachable E (init files)
| reach_fs st files : reachable E st → reachable E (set_fs files st)
| reach_start st :
    reachable E st → reachable E (run (start_browser E) st).2
| reach_close st :
    reachable E st → reachable E (run (close_browser E) st).2
| reach_convert st html pdf :
    reachable E st → reachable E (run (convert_html_to_pdf E html pdf) st).2
| reach_batch st htmls out merged :
    reachable E st →
    reachable E (run (convert_multiple_html_to_pdf E htmls out merged) st).2.

(** ** Scenarios

    Concrete environments and decks used to run the model.  In all of them
    [os.path.abspath] resolves against [/srv/deck] and every slide prints
    on one sheet. *)

(** Everything is installed and no call raises. *)
Definition all_ok_env : Env :=
  mkEnv true true (λ p, "/srv/deck/" +:+ p)%string (λ _, 1) (λ _ _, true).

(** Playwright cannot be imported. *)
Definition no_playwright_env : Env :=
  mkEnv false true (λ p, "/srv/deck/" +:+ p)%string (λ _, 1) (λ _ _, true).

(** PyPDF2 cannot be imported. *)
Definition no_pypdf2_env : Env :=
  mkEnv true false (λ p, "/srv/deck/" +:+ p)%string (λ _, 1) (λ _ _, true).

(** Both [page.evaluate] calls of the readiness check raise. *)
Definition readiness_fails_env : Env :=
  mkEnv true true (λ p, "/srv/deck/" +:+ p)%string (λ _, 1)
        (λ _ c, negb (is_readiness_call c)).

(** [page.pdf] raises. *)
Definition capture_fails_env : Env :=
  mkEnv true true (λ p, "/srv/deck/" +:+ p)%string (λ _, 1)
        (λ _ c, match c with CPdf _ _ _ => false | _ => true end).

(** [merger.write] raises. *)
Definition write_fails_env : Env :=
  mkEnv true true (λ p, "/srv/deck/" +:+ p)%string (λ _, 1)
        (λ _ c, match c with CMergerWrite _ => false | _ => true end).

Definition one_slide : gmap string Node :=
  {[ "slide_1.html"%string := File Raw ]}.

Definition three_slides : list string :=
  [ "slide_1.html"; "slide_2.html"; "slide_3.html" ]%string.

(** A deck whose second slide is missing. *)
Definition deck_2_missing : gmap string Node :=
  <["slide_1.html"%string := File Raw]>
    (<["slide_3.html"%string := File Raw]> ∅).

(** Two rendered slides, and the complete artifact of an earlier run. *)
Definition rendered_deck : gmap string Node :=
  <["out/slide_1.pdf"%string :=
      File (Pdf (doc_of write_fails_env "slide_1.html"))]>
    (<["out/slide_2.pdf"%string :=
         File (Pdf (doc_of write_fails_env "slide_2.html"))]>
       (<["deck.pdf"%string :=
            File (Pdf (doc_of write_fails_env "old_1.html"
                       ++ doc_of write_fails_env "old_2.html"))]> ∅)).

(** The state a merge over [rendered_deck] ends in when the write raises. *)
Definition failed_merge_state : State :=
  (run (_merge_pdfs write_fails_env
          [ "out/slide_1.pdf"; "out/slide_2.pdf" ]%string "deck.pdf")
       (init rendered_deck)).2.

(** The state a single-document render ends in when the capture raises. *)
Definition leaked_page_state : State :=
  (run (convert_html_to_pdf capture_fails_env "slide_1.html"
          "out/slide_1.pdf") (init one_slide)).2.

(** The state after one successful single-document render: the session it
    started is still live. *)
Definition live_session_state : State :=
  (run (convert_html_to_pdf all_ok_env "slide_1.html" "out/slide_1.pdf")
       (init one_slide)).2.

(** ** Further vocabulary and scenarios *)

(** Calls that start or end a browser session. *)
Definition is_session_call (c : Call) : bool :=
  match c with
  | CPlaywrightStart | CLaunch _ _ _ | CBrowserClose _ | CPlaywrightStop _ =>
      true
  | _ => false
  end.

(** [page.close] raises. *)
Definition close_fails_env : Env :=
  mkEnv true true (λ p, "/srv/deck/" +:+ p)%string (λ _, 1)
        (λ _ c, match c with CPageClose _ => false | _ => true end).

(** The state a single-document render ends in when [page.close] raises. *)
Definition close_failed_state : State :=
  (run (convert_html_to_pdf close_fails_env "slide_1.html" "out/slide_1.pdf")
       (init one_slide)).2.

(** [chromium.launch] raises the first time it is tried (it is the second
    external call of a fresh converter) and returns afterwards. *)
Definition first_launch_fails_env : Env :=
  mkEnv true true (λ p, "/srv/deck/" +:+ p)%string (λ _, 1)
        (λ t c, match c with
                | CLaunch _ _ _ => negb (Nat.eqb t 1)
                | _ => true
                end).

(** A deck directory after a batch in which the second slide failed: the
    list of rendered files the batch would hand to the merge still names
    it. *)
Definition deck_with_gap : gmap string Node :=
  <["out/slide_1.pdf"%string :=
      File (Pdf (doc_of all_ok_env "slide_1.html"))]>
    (<["out/slide_3.pdf"%string :=
         File (Pdf (doc_of all_ok_env "slide_3.html"))]> ∅).

(** A deck directory in which the second rendered file was cut short. *)
Definition deck_with_damage : gmap string Node :=
  <["out/slide_2.pdf"%string := File Truncated]> deck_with_gap.

(** A deck directory in which no slide is present. *)
Definition three_missing : gmap string Node := ∅.

(** ** Configuration (config.py) *)

(** A value as [json.load] builds it.  A float is [mantissa * 2^exponent]. *)
#[warnings="-register-all"]
Inductive Json :=
| JNull
| JBool (b : bool)
| JInt (z : Z)
| JFloat (mantissa exponent : Z)
| JStr (s : string)
| JList (l : list Json)
| JDict (d : gmap string Json).

(** Python truthiness of such a value. *)
Definition json_truthy (v : Json) : bool :=
  match v with
  | JNull => false
  | JBool b => b
  | JInt z => negb (Z.eqb z 0)
  | JFloat m _ => negb (Z.eqb m 0)
  | JStr s => match s with EmptyString => false | _ => true end
  | JList l => match l with [] => false | _ => true end
  | JDict d => negb (bool_decide (d = ∅))
  end.

(** [s.split(sep)] for a separator of one character. *)
Fixpoint str_split (sep : Ascii.ascii) (s : string) : list string :=
  match s with
  | EmptyString => [EmptyString]
  | String c s' =>
      if Ascii.eqb c sep then EmptyString :: str_split sep s'
      else match str_split sep s' with
           | piece :: pieces => String c piece :: pieces
           | [] => [String c EmptyString]
           end
  end.

Definition dot : Ascii.ascii := Ascii.ascii_of_nat 46.

Module Config.

(** How a call of [set] ends. *)
Inductive Outcome := Returned | TypeError.

(** [for k in keys: if isinstance(value, dict) and k in value: value =
    value[k] else: return default] and then [return value]. *)
Fixpoint get_loop (keys : list string) (value default : Json) : Json :=
  match keys with
  | [] => value
  | k :: keys' =>
      match value with
      | JDict d =>
          match d !! k with
          | Some v => get_loop keys' v default
          | None => default
          end
      | _ => default
      end
  end.

(** [Config.get(key, default)] on [self.config_data]. *)
Definition get (config_data : Json) (key : string) (default : Json) : Json :=
  get_loop (str_split dot key) config_data default.

(** [for k in keys[:-1]: if k not in config: config[k] = {}; config =
    config[k]] and then [config[keys[-1]] = value], on the object [config]
    refers to; the result is that object after the call (the dict bound
    to [k], changed in place by the rest of the call, is what [k] is bound
    to afterwards).  On anything but a dict, each of [k not in config],
    [config[k] = {}], [config[k]] and the last assignment raises
    [TypeError] (a str or a list answers the membership test, and then
    the subscript raises). *)
Fixpoint set_loop (keys : list string) (last_key : string) (value : Json)
    (config : Json) : Outcome * Json :=
  match keys with
  | [] =>
      match config with
      | JDict d => (Returned, JDict (<[last_key := value]> d))
      | _ => (TypeError, config)
      end
  | k :: keys' =>
      match config with
      | JDict d =>
          let child := match d !! k with
                       | Some c => c
                       | None => JDict ∅
                       end in
          let '(r, child') := set_loop keys' last_key value child in
          (r, JDict (<[k := child']> d))
      | _ => (TypeError, config)
      end
  end.

(** [Config.set(key, value)]: how it ends, and [self.config_data] then. *)
Definition set (config_data : Json) (key : string) (value : Json)
  : Outcome * Json :=
  let keys := str_split dot key in
  set_loop (removelast keys) (List.last keys EmptyString) value config_data.

(** The properties read by the converter. *)
Definition slides_input_dir (config_data : Json) : Json :=
  get config_data "slides.input_directory" (JStr "slides").
Definition output_dir (config_data : Json) : Json :=
  get config_data "slides.output_directory" (JStr "output").
Definition index_file (config_data : Json) : Json :=
  get config_data "slides.index_file" (JStr "index.html").
Definition should_merge_pdfs (config_data : Json) : Json :=
  get config_data "output.merge_pdfs" (JBool true).
Definition should_cleanup_temp_files (config_data : Json) : Json :=
  get config_data "output.cleanup_temp_files" (JBool true).

End Config.

(** The value a key path leads to, if every step of it is a key of a
    dict. *)
Fixpoint json_at (keys : list string) (v : Json) : option Json :=
  match keys with
  | [] => Some v
  | k :: keys' =>
      match v with
      | JDict d =>
          match d !! k with
          | Some c => json_at keys' c
          | None => None
          end
      | _ => None
      end
  end.

Definition is_dict (v : Json) : bool :=
  match v with JDict _ => true | _ => false end.

(** The keys before the last one of a dotted key. *)
Definition parent_keys (key : string) : list string :=
  removelast (str_split dot key).

(** ** The driver (main.py) *)

(** *** pathlib

    A [Path] is kept as its [str()]; POSIX flavour, as [os_path_join]. *)

Definition slash : Ascii.ascii := Ascii.ascii_of_nat 47.

Fixpoint leading_seps (s : string) : nat :=
  match s with
  | String c s' => if Ascii.eqb c slash then S (leading_seps s') else 0
  | EmptyString => 0
  end.

(** The root of a path: [/], or [//] for exactly two leading slashes. *)
Definition path_root (s : string) : string :=
  match leading_seps s with
  | 0 => ""
  | 2 => "//"
  | _ => "/"
  end%string.

(** The components of a path: empty ones and [.] are dropped. *)
Definition path_parts (s : string) : list string :=
  filter (λ p, p ≠ EmptyString ∧ p ≠ "."%string) (str_split slash s).

(** ["/".join(parts)] *)
Fixpoint join_parts (parts : list string) : string :=
  match parts with
  | [] => EmptyString
  | [p] => p
  | p :: rest => p +:+ "/" +:+ join_parts rest
  end.

(** [str(Path(s))] *)
Definition Path (s : string) : string :=
  match path_root s, path_parts s with
  | EmptyString, [] => "."%string
  | root, parts => root +:+ join_parts parts
  end.

(** [str(Path(p) / name)] *)
Definition truediv (p name : string) : string :=
  Path (os_path_join p name).

(** Whether [p] lies in the directory tree under [d]. *)
Definition under (d p : string) : bool :=
  String.prefix (d +:+ "/") p.

(** *** The application *)

(** Calls of the driver that leave the program. *)
Inductive SysCall :=
| CMkdir (p : string)
| CRmtree (p : string).

Inductive AppExn :=
| ConverterError (e : Exn)   (* raised by the PDF converter *)
| PathTypeError              (* Path(x) or p / x for an x that is no str *)
| MkdirFileExists            (* mkdir(exist_ok=True) on a regular file *)
| RmtreeNotADirectory        (* rmtree on a regular file *)
| RmtreeNotFound             (* rmtree on a path that is not there *)
| SysError (c : SysCall).    (* the call raised *)

Inductive AppLog :=
| SlidesDirMissing (d : string)   (* error   slides目录不存在 *)
| FoundSlides (n : nat)           (* info    找到n个幻灯片文件 *)
| FoundIndex (p : string)         (* info    找到索引文件 *)
| FoundHtml (n : nat)             (* info    找到n个HTML文件 *)
| NoHtmlFound                     (* warning 未找到任何HTML文件 *)
| NoHtmlFiles                     (* error   没有找到HTML文件 *)
| MergedPdfDone (p : string)      (* info    PDF合并完成 *)
| ConvertOrMergeFailed            (* error   PDF转换或合并失败 *)
| PdfDone (p : string)            (* info    PDF转换完成 *)
| PdfFailed                       (* error   PDF转换失败 *)
| TempCleaned                     (* info    临时PDF文件已清理 *)
| CleanupFailed (e : AppExn).     (* warning 清理临时文件失败 *)

(** [HTMLToPPTConverter]: the configuration, the PDF converter it shares
    with the rest of the process (which carries the filesystem), its log
    and its calls, newest first.  The PPTX converter takes no part in the
    methods embedded here. *)
Record App := mkApp {
  config_data : Json;
  pdf_converter : State;
  app_log : list AppLog;
  app_trace : list SysCall
}.

Definition set_pdf_converter (v : State) (s : App) : App :=
  mkApp (config_data s) v (app_log s) (app_trace s).
Definition set_app_log (v : list AppLog) (s : App) : App :=
  mkApp (config_data s) (pdf_converter s) v (app_trace s).
Definition set_app_trace (v : list SysCall) (s : App) : App :=
  mkApp (config_data s) (pdf_converter s) (app_log s) v.

(** What the driver cannot decide: the converter's environment, the clock
    ([datetime.now().strftime("%Y%m%d_%H%M%S")], by the number of calls
    made so far), the [*.html] names a directory lists, and which of the
    driver's calls raise. *)
Record AppEnv := mkAppEnv {
  pdf_env : Env;
  strftime_now : nat → string;
  glob_html : string → list string;
  sys_oracle : nat → SysCall → bool
}.

Inductive AppRes (A : Type) := Done (a : A) | Failed (e : AppExn).
Arguments Done {A} a.
Arguments Failed {A} e.

Definition MApp (A : Type) : Type := App → AppRes A * App.

Definition run_app {A} (m : MApp A) (s : App) : AppRes A * App := m s.

#[global] Instance MApp_ret : MRet MApp := λ A a s, (Done a, s).
#[global] Instance MApp_bind : MBind MApp := λ A B f m s,
  match m s with
  | (Done a, s') => f a s'
  | (Failed e, s') => (Failed e, s')
  end.

Definition app_raise {A} (e : AppExn) : MApp A := λ s, (Failed e, s).
Definition app_get : MApp App := λ s, (Done s, s).
Definition app_modify (f : App → App) : MApp unit := λ s, (Done tt, f s).

Definition app_try_except {A} (m : MApp A) (h : AppExn → MApp A) : MApp A :=
  λ s, match m s with
       | (Done a, s') => (Done a, s')
       | (Failed e, s') => h e s'
       end.

Definition app_try_finally {A} (m : MApp A) (fin : MApp unit) : MApp A :=
  λ s, match m s with
       | (r, s') =>
           match fin s' with
           | (Done _, s'') => (r, s'')
           | (Failed e, s'') => (Failed e, s'')
           end
       end.

Definition app_logger (m : AppLog) : MApp unit :=
  app_modify (λ s, set_app_log (m :: app_log s) s).

(** A method of the PDF converter, run on the shared instance. *)
Definition on_pdf_converter {A} (m : M A) : MApp A := λ s,
  match m (pdf_converter s) with
  | (Ok a, st') => (Done a, set_pdf_converter st' s)
  | (Raise e, st') => (Failed (ConverterError e), set_pdf_converter st' s)
  end.

(** [Path(x)] for a configuration value. *)
Definition Path_of (x : Json) : MApp string :=
  match x with
  | JStr s => mret (Path s)
  | _ => app_raise PathTypeError
  end.

(** [p / x] for a configuration value: defined for a str only. *)
Definition truediv_operand (x : Json) : MApp string :=
  match x with
  | JStr s => mret s
  | _ => app_raise PathTypeError
  end.

Section Application.

Variable AE : AppEnv.

Definition sys_call (c : SysCall) : MApp unit := λ s,
  let s' := set_app_trace (c :: app_trace s) s in
  if sys_oracle AE (length (app_trace s)) c then (Done tt, s')
  else (Failed (SysError c), s').

Definition set_files (v : gmap string Node) (s : App) : App :=
  set_pdf_converter (set_fs v (pdf_converter s)) s.

(** [p.exists()] *)
Definition path_exists (p : string) : MApp bool := λ s,
  (Done (match fs (pdf_converter s) !! p with
         | Some _ => true
         | None => false
         end), s).

(** [p.mkdir(exist_ok=True)]; parent directories are not tracked. *)
Definition path_mkdir (p : string) : MApp unit :=
  sys_call (CMkdir p) ;;
  s ← app_get;
  match fs (pdf_converter s) !! p with
  | None =>
      app_modify (λ s, set_files (<[p := Dir]> (fs (pdf_converter s))) s)
  | Some Dir => mret tt
  | Some (File _) => app_raise MkdirFileExists
  end.

(** [shutil.rmtree(d)]: the directory and all below it go away; when the
    call raises, the tree is taken to be still there. *)
Definition shutil_rmtree (d : string) : MApp unit :=
  sys_call (CRmtree d) ;;
  s ← app_get;
  match fs (pdf_converter s) !! d with
  | Some Dir =>
      app_modify (λ s, set_files
        (filter (λ kv, kv.1 ≠ d ∧ under d kv.1 = false)
                (fs (pdf_converter s))) s)
  | Some (File _) => app_raise RmtreeNotADirectory
  | None => app_raise RmtreeNotFound
  end.

Definition datetime_now_strftime : MApp string := λ s,
  (Done (strftime_now AE (length (app_trace s))), s).

(** [for i in range(i, i + n): ... else: break], with the files collected
    so far. *)
Fixpoint scan_slides (slides_dir : string) (i n : nat)
    (slide_files : list string) : MApp (list string) :=
  match n with
  | 0 => mret slide_files
  | S n' =>
      let slide_file :=
        truediv slides_dir ("slide_" +:+ pretty i +:+ ".html") in
      found ← path_exists slide_file;
      if (found : bool)
      then scan_slides slides_dir (S i) n' (slide_files ++ [slide_file])
      else mret slide_files
  end.

(** [sorted] on the names of one directory. *)
Fixpoint insert_sorted (x : string) (l : list string) : list string :=
  match l with
  | [] => [x]
  | y :: l' =>
      if String.leb x y then x :: l else y :: insert_sorted x l'
  end.

Definition sorted (l : list string) : list string :=
  foldr insert_sorted [] l.

Definition find_html_files : MApp (list string) :=
  s ← app_get;
  slides_dir ← Path_of (Config.slides_input_dir (config_data s));
  found ← path_exists slides_dir;
  if negb found then
    (app_logger (SlidesDirMissing slides_dir) ;; mret ([] : list string))
  else
    slide_files ← scan_slides slides_dir 1 999 [];
    if negb (bool_decide (slide_files = [])) then
      (app_logger (FoundSlides (length slide_files)) ;; mret slide_files)
    else
      index_name ← truediv_operand (Config.index_file (config_data s));
      let index_file := truediv slides_dir index_name in
      found ← path_exists index_file;
      if (found : bool) then
        (app_logger (FoundIndex index_file) ;; mret [index_file])
      else
        let all_html := glob_html AE slides_dir in
        let html_files :=
          map (truediv slides_dir)
              (filter (λ name, name ≠ index_name) (sorted all_html)) in
        (if negb (bool_decide (html_files = []))
         then app_logger (FoundHtml (length html_files))
         else app_logger NoHtmlFound) ;;
        mret html_files.

(** The [try] part of [convert_to_pdf]. *)
Definition render_deck (html_files : list string) (first : string)
    (output_dir temp_pdf_dir : string) : MApp (option string) :=
  timestamp ← datetime_now_strftime;
  let out_name := "presentation_" +:+ timestamp +:+ ".pdf" in
  s ← app_get;
  if json_truthy (Config.should_merge_pdfs (config_data s))
     && bool_decide (1 < length html_files)
  then
    let merged_pdf_path := truediv output_dir out_name in
    pdf_files ← on_pdf_converter
      (convert_multiple_html_to_pdf (pdf_env AE) html_files
         temp_pdf_dir (Some merged_pdf_path));
    found ← path_exists merged_pdf_path;
    if negb (bool_decide (pdf_files = [])) && found then
      (app_logger (MergedPdfDone merged_pdf_path) ;;
       mret (Some merged_pdf_path))
    else
      (app_logger ConvertOrMergeFailed ;; mret None)
  else
    let pdf_path := truediv output_dir out_name in
    success ← on_pdf_converter
      (convert_html_to_pdf (pdf_env AE) first pdf_path);
    if (success : bool) then
      (app_logger (PdfDone pdf_path) ;; mret (Some pdf_path))
    else
      (app_logger PdfFailed ;; mret None).

(** The [finally] part of [convert_to_pdf]. *)
Definition cleanup_temp_files (temp_pdf_dir : string) : MApp unit :=
  s ← app_get;
  found ← path_exists temp_pdf_dir;
  if json_truthy (Config.should_cleanup_temp_files (config_data s)) && found
  then
    app_try_except
      (shutil_rmtree temp_pdf_dir ;; app_logger TempCleaned)
      (λ e, app_logger (CleanupFailed e))
  else mret tt.

Definition convert_to_pdf (html_files : list string)
  : MApp (option string) :=
  match html_files with
  | [] => app_logger NoHtmlFiles ;; mret None
  | first :: _ =>
      s ← app_get;
      output_dir ← Path_of (Config.output_dir (config_data s));
      path_mkdir output_dir ;;
      let temp_pdf_dir := truediv output_dir "temp_pdfs" in
      path_mkdir temp_pdf_dir ;;
      app_try_finally
        (render_deck html_files first output_dir temp_pdf_dir)
        (cleanup_temp_files temp_pdf_dir)
  end.

End Application.

(** *** Vocabulary of the statements about the driver *)

(** The components of a path, each followed by a slash. *)
Definition slashed (parts : list string) : string :=
  foldr (λ p acc, p +:+ "/" +:+ acc)%string EmptyString parts.

(** What [p / name] puts before the components of a relative [name]. *)
Definition dir_prefix (p : string) : string :=
  (path_root p +:+ slashed (path_parts p))%string.

(** The directory the slides of a run are rendered into, and the document
    the run leaves, for the configured output directory [od] and the
    timestamp [ts]. *)
Definition temp_dir_of (od : string) : string :=
  truediv (Path od) "temp_pdfs".

Definition out_path_of (od ts : string) : string :=
  truediv (Path od) ("presentation_" +:+ ts +:+ ".pdf").

(** The [i]-th numbered slide of a directory. *)
Definition slide_html (slides_dir : string) (i : nat) : string :=
  truediv slides_dir ("slide_" +:+ pretty i +:+ ".html").

(** *** Scenarios of the driver *)

(** The configuration [create_default_config] writes and loads. *)
Definition default_config : Json :=
  JDict (list_to_map
    [ ("apryse_sdk"%string, JDict (list_to_map
         [ ("license_key"%string, JStr "");
           ("note"%string, JStr "请在此处填入您的Apryse SDK许可证密钥") ]));
      ("pdf_options"%string, JDict (list_to_map
         [ ("width"%string, JStr "338.67mm");
           ("height"%string, JStr "190.5mm");
           ("print_background"%string, JBool true);
           ("landscape"%string, JBool false);
           ("margin"%string, JDict (list_to_map
              [ ("top"%string, JStr "0mm"); ("right"%string, JStr "0mm");
                ("bottom"%string, JStr "0mm");
                ("left"%string, JStr "0mm") ])) ]));
      ("browser_options"%string, JDict (list_to_map
         [ ("headless"%string, JBool true);
           ("timeout"%string, JInt 30000);
           ("wait_for_images"%string, JBool true);
           ("wait_for_fonts"%string, JBool true);
           ("extra_wait_time"%string, JInt 2) ]));
      ("output"%string, JDict (list_to_map
         [ ("pdf_quality"%string, JStr "high");
           ("merge_pdfs"%string, JBool true);
           ("cleanup_temp_files"%string, JBool true) ]));
      ("slides"%string, JDict (list_to_map
         [ ("input_directory"%string, JStr "slides");
           ("output_directory"%string, JStr "output");
           ("index_file"%string, JStr "index.html") ])) ]).

(** The default configuration with merging switched off. *)
Definition unmerged_config : Json :=
  (Config.set default_config "output.merge_pdfs" (JBool false)).2.

(** A slides directory with three numbered slides, a fourth one after a
    gap, and an index file. *)
Definition slides_deck : gmap string Node :=
  list_to_map
    [ ("slides"%string, Dir);
      ("slides/index.html"%string, File Raw);
      ("slides/slide_1.html"%string, File Raw);
      ("slides/slide_2.html"%string, File Raw);
      ("slides/slide_3.html"%string, File Raw);
      ("slides/slide_5.html"%string, File Raw) ].

Definition deck_files : list string :=
  [ "slides/slide_1.html"; "slides/slide_2.html";
    "slides/slide_3.html" ]%string.

(** A driver around the converter environment [E]: the clock stands at
    2024-01-01 12:00:00, and no call of the driver raises. *)
Definition app_env (E : Env) : AppEnv :=
  mkAppEnv E (λ _, "20240101_120000"%string) (λ _, []) (λ _ _, true).

(** [HTMLToPPTConverter.__init__] with the configuration and the files
    given. *)
Definition app_init (config : Json) (files : gmap string Node) : App :=
  mkApp config (init files) [] [].

(** The state a deck run ends in with merging switched off. *)
Definition unmerged_run_state : App :=
  (run_app (convert_to_pdf (app_env all_ok_env) deck_files)
           (app_init unmerged_config slides_deck)).2.

(** The slides, and a regular file where the output directory should
    be. *)
Definition output_is_a_file : gmap string Node :=
  <["output"%string := File Raw]> slides_deck.

(** The state a deck run ends in when it cannot make its output
    directory. *)
Definition blocked_run_state : App :=
  (run_app (convert_to_pdf (app_env all_ok_env) deck_files)
           (app_init default_config output_is_a_file)).2.

(** ** Symbolic execution *)

Ltac unfold_model :=
  unfold run, convert_multiple_html_to_pdf, batch_body, _merge_pdfs,
    convert_html_to_pdf, _wait_for_page_ready, close_browser, start_browser,
    is_available, merger_close, merger_write, open_wb, merger_append,
    import_PyPDF2, page_close, page_pdf, page_evaluate, page_goto,
    page_set_viewport_size, browser_new_page, playwright_stop, browser_close,
    chromium_launch, async_playwright_start, os_makedirs, os_path_exists,
    asyncio_sleep, new_handle, call, logger, try_finally, try_except,
    modify, get, raise, mbind, mret, M_bind, M_ret in *.

(** One step: split on the next thing the environment decides. *)
Ltac exec_step :=
  match goal with
  | |- context [oracle ?E ?n ?c] => destruct (oracle E n c) eqn:?
  | |- context [PLAYWRIGHT_AVAILABLE ?E] =>
      destruct (PLAYWRIGHT_AVAILABLE E) eqn:?
  | |- context [PYPDF2_INSTALLED ?E] => destruct (PYPDF2_INSTALLED E) eqn:?
  | |- context [match self_browser ?st with _ => _ end] =>
      destruct (self_browser st) eqn:?
  | |- context [match self_playwright ?st with _ => _ end] =>
      destruct (self_playwright st) eqn:?
  | |- context [alter _ ?k _ !! ?k] => rewrite lookup_alter_eq
  | |- context [<[?k := _]> _ !! ?k] => rewrite lookup_insert_eq
  | |- context [match fs ?st !! ?p with _ => _ end] =>
      destruct (fs st !! p) as [[|?]|] eqn:?
  end; simpl.

Ltac exec := unfold_model; simpl; repeat exec_step.

(** Run with an oracle known to let some calls through: use that knowledge
    where it applies, split otherwise. *)
Ltac exec_with Hor :=
  unfold_model; simpl;
  repeat first [ rewrite Hor by reflexivity; simpl | exec_step ].

(** ** Page contexts and the session invariant *)

Lemma pages_ok_insert bs pgs p b v u :
  pages_ok bs pgs → b ∈ bs → pages_ok bs (<[p := mkPageCtx b v u]> pgs).
Proof.
  intros Hok Hb q pg. rewrite lookup_insert. case_decide.
  - intros [= <-]. done.
  - apply Hok.
Qed.

Lemma pages_ok_alter bs pgs p f :
  (∀ pg, pg_browser (f pg) = pg_browser pg) →
  pages_ok bs pgs → pages_ok bs (alter f p pgs).
Proof.
  intros Hf Hok q pg. rewrite lookup_alter. case_decide.
  - subst. destruct (pgs !! q) as [pg0|] eqn:Hq; simpl; [|intros; discriminate].
    intros [= <-]. rewrite Hf. eapply Hok; eauto.
  - apply Hok.
Qed.

Lemma pages_ok_delete bs pgs p : pages_ok bs pgs → pages_ok bs (delete p pgs).
Proof.
  intros Hok q pg. rewrite lookup_delete. case_decide; [done|apply Hok].
Qed.

Lemma pages_ok_mono bs bs' pgs : bs ⊆ bs' → pages_ok bs pgs → pages_ok bs' pgs.
Proof. intros Hs Hok q pg Hq. apply Hs. eapply Hok; eauto. Qed.

Lemma pages_ok_closed b (pgs : gmap nat PageCtx) :
  pages_ok {[b]} pgs → filter (λ kv, pg_browser kv.2 ≠ b) pgs = ∅.
Proof.
  intros Hok. apply map_eq. intros q. rewrite lookup_empty.
  apply map_lookup_filter_None. right. intros pg Hq. simpl.
  apply Hok in Hq. set_solver.
Qed.
Ltac solve_elem :=
  try match goal with
  | H : browsers ?s = _ |- context [browsers ?s] => rewrite H
  end;
  first [ by apply elem_of_singleton_2
        | by apply elem_of_union_l, elem_of_singleton_2
        | set_solver ].

Ltac solve_pages :=
  repeat first
    [ assumption
    | apply pages_ok_delete
    | apply pages_ok_alter; [done|]
    | apply pages_ok_insert; [|solve_elem]
    | eapply pages_ok_mono; [apply union_subseteq_r|eassumption] ].

Ltac solve_session_inv :=
  unfold session_inv; simpl;
  try match goal with
  | H : self_browser ?s = _ |- _ => rewrite H
  end;
  intros (? & ? & ?);
  split;
  [ first [ assumption
          | by (match goal with
                | H : browsers _ = _ |- _ => rewrite H
                end; rewrite ?union_empty_r_L, ?difference_diag_L)
          | set_solver ]
  | split; [ solve_pages | first [ assumption | done | by intros [? ?] ] ] ].

(** Everything the later proofs need to know about one render: it never
    raises, writes at most its own output path, leaves exactly the captured
    page there when it reports success, only adds to the log and keeps the
    session invariant. *)
Lemma convert_spec E html pdf st :
  ∃ b st', run (convert_html_to_pdf E html pdf) st = (Ok b, st')
    ∧ (∀ p, p ≠ pdf → fs st' !! p = fs st !! p)
    ∧ (b = true → fs st' !! pdf = Some (File (Pdf (doc_of E html))))
    ∧ log st `suffix_of` log st'
    ∧ (session_inv E st → session_inv E st').
Proof.
  unfold_model. simpl. destruct (fs st !! html) eqn:Hsrc; simpl.
  2:{ eexists _, _; split; [reflexivity|]; simpl.
      split; [done|]. split; [done|]. split; [by apply suffix_cons_r|]. done. }
  repeat exec_step.
  all: eexists _, _; split; [reflexivity|]; simpl.
  all: split; [intros p Hp; try done; try (by rewrite lookup_insert_ne)|].
  all: split; [intros Hb; try discriminate; try (by rewrite lookup_insert_eq)|].
  all: split; [repeat apply suffix_cons_r; done|].
  all: solve_session_inv.
Qed.

(** ** Merging *)

Lemma append_all_spec E files : ∀ merger st,
  ∃ r tr, run (append_all E files merger) st = (r, set_trace tr st)
    ∧ (∀ ps, r = Ok ps → ps = merger ++ pages_of_files (fs st) files)
    ∧ (∀ e, r = Raise e →
         ∃ f, e = PdfReadError f ∨ e = EngineError (CMergerAppend f)).
Proof.
  induction files as [|f rest IH]; intros merger st; simpl.
  - exists (Ok merger), (trace st). split; [by destruct st|].
    split; [|by intros e [=]]. intros ps [= <-]. by rewrite app_nil_r.
  - unfold_model. simpl. destruct (fs st !! f) as [[|[|ps|]]|] eqn:Hf; simpl.
    all: try exec_step.
    all: try rewrite Hf.
    all: try (eexists (Raise _), _; split; [reflexivity|];
              split; [by intros ? [=]|]; intros ? [= <-]; eauto; fail).
    + destruct (IH (merger ++ ps) (set_trace (CMergerAppend f :: trace st) st))
        as (r & tr & Hrun & Hps & He).
      unfold run in Hrun. rewrite Hrun. exists r, tr. split; [done|].
      split; [|done].
      intros ps' ->. rewrite (Hps _ eq_refl). simpl. by rewrite app_assoc.
    + apply IH.
Qed.

(** The merge never raises, leaves the session alone, and logs exactly one
    message; the message tells what became of the files. *)
Lemma merge_spec E files out st :
  ∃ st' m, run (_merge_pdfs E files out) st = (Ok tt, st')
    ∧ same_session st st'
    ∧ log st' = m :: log st
    ∧ merge_outcome (fs st) (fs st') out (pages_of_files (fs st) files) m
    ∧ (PYPDF2_INSTALLED E = false → m = PyPDF2Missing).
Proof.
  destruct (append_all_spec E files [] st) as (r & tr & Hrun & Hps & He).
  unfold_model. simpl. exec_step.
  2:{ eexists _, _; split; [reflexivity|]. simpl. by repeat split. }
  rewrite Hrun. destruct r as [ps|e]; simpl.
  2:{ destruct (He e eq_refl) as [f [-> | ->]]; simpl;
        (eexists _, _; split; [reflexivity|]); by repeat split. }
  rewrite (Hps _ eq_refl). simpl.
  repeat exec_step.
  all: eexists _, _; split; [reflexivity|]; simpl.
  all: rewrite ?insert_insert_eq; by repeat split.
Qed.

Lemma append_all_ok E files : ∀ merger st,
  (∀ t c, is_merge_call c = true → oracle E t c = true) →
  Forall (λ f, ∃ ps, fs st !! f = Some (File (Pdf ps))) files →
  ∃ tr, run (append_all E files merger) st
        = (Ok (merger ++ pages_of_files (fs st) files), set_trace tr st).
Proof.
  induction files as [|f rest IH]; intros merger st Hor Hall; simpl.
  - exists (trace st). rewrite app_nil_r. by destruct st.
  - apply Forall_cons in Hall as [[ps Hf] Hall].
    unfold_model. simpl. rewrite Hf. simpl.
    rewrite Hor by done. simpl. rewrite Hf.
    destruct (IH (merger ++ ps) (set_trace (CMergerAppend f :: trace st) st))
      as [tr Hrun]; [done|done|].
    unfold run in Hrun; simpl in Hrun. rewrite Hrun, <- app_assoc. by exists tr.
Qed.

(** With the merge library present and willing, and every collected file a
    page document, the merge writes their pages, in order, to [out]. *)
Lemma merge_ok E files out st :
  PYPDF2_INSTALLED E = true →
  (∀ t c, is_merge_call c = true → oracle E t c = true) →
  Forall (λ f, ∃ ps, fs st !! f = Some (File (Pdf ps))) files →
  fs st !! out ≠ Some Dir →
  ∃ st', run (_merge_pdfs E files out) st = (Ok tt, st')
    ∧ same_session st st'
    ∧ fs st' = <[out := File (Pdf (pages_of_files (fs st) files))]> (fs st)
    ∧ log st' = MergeOk out :: log st.
Proof.
  intros Hpy Hor Hall Hdir.
  destruct (append_all_ok E files [] st Hor Hall) as [tr Hrun].
  unfold_model. simpl. rewrite Hpy. rewrite Hrun. simpl.
  rewrite !Hor by done. simpl.
  destruct (fs st !! out) as [[|c]|] eqn:Ho; [done| |]; simpl.
  all: rewrite !Hor by done; simpl.
  all: eexists; split; [reflexivity|]; simpl.
  all: split; [done|]; split; [|done].
  all: by rewrite insert_insert_eq.
Qed.

(** ** The session *)

Lemma pages_ok_empty (pgs : gmap nat PageCtx) : pages_ok ∅ pgs → pgs = ∅.
Proof.
  intros Hok. apply map_eq. intros q. rewrite lookup_empty.
  destruct (pgs !! q) as [pg|] eqn:Hq; [|done].
  apply Hok in Hq. set_solver.
Qed.

Lemma pages_ok_nil bs : pages_ok bs ∅.
Proof. intros q pg. by rewrite lookup_empty. Qed.


Lemma start_browser_spec E st :
  ∃ r st', run (start_browser E) st = (r, st')
    ∧ fs st' = fs st ∧ pages st' = pages st
    ∧ log st `suffix_of` log st'
    ∧ (∃ new, trace st' = new ++ trace st
              ∧ Forall (λ c, is_job_call c = false) new)
    ∧ (session_inv E st → session_inv E st')
    ∧ (r = Ok tt → is_Some (self_browser st')).
Proof.
  exec.
  all: eexists _, _; split; [reflexivity|]; simpl.
  all: split; [done|]; split; [done|].
  all: split; [repeat apply suffix_cons_r; done|].
  all: split;
    [ first [ by exists []
            | by eexists [_]; split; [|repeat constructor]
            | by eexists [_; _]; split; [|repeat constructor] ] |].
  all: split; [solve_session_inv|].
  all: try (intros [=]; fail).
  all: intros _; try match goal with
                     | H : self_browser _ = _ |- _ => rewrite H
                     end; eauto.
Qed.

Lemma close_browser_spec E st :
  ∃ r st', run (close_browser E) st = (r, st')
    ∧ fs st' = fs st ∧ log st' = log st
    ∧ (∃ new, trace st' = new ++ trace st
              ∧ Forall (λ c, is_teardown_call c = true) new)
    ∧ (session_inv E st → session_inv E st')
    ∧ (session_inv E st → r = Ok tt →
         self_browser st' = None ∧ self_playwright st' = None
         ∧ browsers st' = ∅ ∧ pages st' = ∅)
    ∧ (∀ e, r = Raise e →
         ∃ c, e = EngineError c ∧ is_teardown_call c = true
              ∧ head (trace st') = Some c)
    ∧ ((∀ t c, is_teardown_call c = true → oracle E t c = true) → r = Ok tt).
Proof.
  exec.
  all: eexists _, _; split; [reflexivity|]; simpl.
  all: split; [done|]; split; [done|].
  all: split;
    [ first [ by exists []
            | by eexists [_]; split; [|repeat constructor]
            | by eexists [_; _]; split; [|repeat constructor] ] |].
  all: split;
    [ solve_session_inv;
      match goal with
      | H : browsers _ = {[_]} |- _ =>
          rewrite pages_ok_closed by (by rewrite <- H); apply pages_ok_nil
      end |].
  all: split;
    [ unfold session_inv;
      try match goal with H : self_browser ?s = _ |- _ => rewrite H end;
      intros (Hbs & Hpg & _) Hr; try discriminate; rewrite Hbs in Hpg |- *;
      repeat split; try done;
      first [ by apply pages_ok_closed | by apply pages_ok_empty
            | by apply difference_diag_L | set_solver ]
    |].
  all: split;
    [ intros e He; try discriminate; injection He as <-; by eexists |].
  all: intros Hor; try done.
  all: match goal with
       | H : oracle _ _ _ = false |- _ => by rewrite Hor in H
       end.
Qed.

(** ** Output paths *)

Lemma string_app_length (s t : string) :
  String.length (s +:+ t) = String.length s + String.length t.
Proof. induction s as [|c s IH]; simpl; [done|]. by rewrite IH. Qed.

Lemma string_app_inj_r (t s1 s2 : string) : s1 +:+ t = s2 +:+ t → s1 = s2.
Proof.
  revert s2. induction s1 as [|c s1 IH]; intros [|c' s2] H; simpl in H.
  - done.
  - apply (f_equal String.length) in H.
    rewrite !string_app_length in H. simpl in H. lia.
  - apply (f_equal String.length) in H.
    rewrite !string_app_length in H. simpl in H. lia.
  - injection H as -> H. f_equal. by apply IH.
Qed.

Lemma pdf_filename_inj i j : pdf_filename i = pdf_filename j → i = j.
Proof.
  unfold pdf_filename. intros H.
  apply (inj (String.append "slide_")) in H.
  apply string_app_inj_r in H. apply (inj pretty) in H. lia.
Qed.

Lemma slide_path_inj out i j : slide_path out i = slide_path out j → i = j.
Proof.
  unfold slide_path, os_path_join, pdf_filename. simpl.
  destruct (match out with EmptyString => true | _ => endswith_sep out end);
    intros H; apply (inj (String.append out)) in H.
  - by apply pdf_filename_inj.
  - apply (inj (String.append "/")) in H. by apply pdf_filename_inj.
Qed.

Lemma slide_paths_length out i n : length (slide_paths out i n) = n.
Proof. unfold slide_paths. by rewrite length_map, length_seq. Qed.

Lemma slide_path_fresh out i j n : i < j → slide_path out i ∉ slide_paths out j n.
Proof.
  intros Hlt Hin. unfold slide_paths in Hin.
  apply list_elem_of_fmap in Hin as (k & Heq & Hk).
  apply slide_path_inj in Heq. subst k.
  apply elem_of_seq in Hk. lia.
Qed.

(** ** The render loop *)

Lemma os_makedirs_spec E d st :
  ∃ r st', run (os_makedirs E d) st = (r, st')
    ∧ same_session st st' ∧ log st' = log st
    ∧ trace st' = CMakedirs d :: trace st
    ∧ (∀ p, p ≠ d → fs st' !! p = fs st !! p)
    ∧ (fs st !! d ≠ None → fs st' = fs st)
    ∧ (r = Ok tt → fs st' !! d = Some Dir)
    ∧ (∀ e, r = Raise e →
         fs st' = fs st
         ∧ (e = FileExistsError ∨ e = EngineError (CMakedirs d))).
Proof.
  exec.
  all: eexists _, _; split; [reflexivity|]; simpl.
  all: split; [done|]; split; [done|]; split; [done|].
  all: split; [intros p Hp; rewrite ?lookup_insert_ne by done; done|].
  all: split; [congruence|].
  all: split; [intros Hr; try discriminate; by rewrite ?lookup_insert_eq|].
  all: intros e [=]; subst; auto.
Qed.

Lemma render_loop_spec E out htmls : ∀ i acc st,
  ∃ st', run (render_loop E out i htmls acc) st
         = (Ok (acc ++ select (job_outcomes E out i htmls st)
                              (slide_paths out i (length htmls))), st')
    ∧ length (job_outcomes E out i htmls st) = length htmls
    ∧ (∀ p, p ∉ slide_paths out i (length htmls) → fs st' !! p = fs st !! p)
    ∧ log st `suffix_of` log st'
    ∧ (session_inv E st → session_inv E st')
    ∧ (∀ k h, htmls !! k = Some h →
         job_outcomes E out i htmls st !! k = Some true →
         fs st' !! slide_path out (i + k) = Some (File (Pdf (doc_of E h))))
    ∧ (∀ k h, htmls !! k = Some h →
         job_outcomes E out i htmls st !! k = Some false →
         JobFailed h ∈ log st').
Proof.
  induction htmls as [|h rest IH]; intros i acc st.
  - exists st. simpl. rewrite app_nil_r. unfold run, mret, M_ret.
    do 5 (split; [done|]). split; intros k h Hk; by rewrite lookup_nil in Hk.
  - destruct (convert_spec E h (slide_path out i) st)
      as (b & st1 & Hrun & Hfs & Hfile & Hlog & Hinv).
    cbn [render_loop job_outcomes length]. rewrite Hrun.
    unfold run, mbind, M_bind in *. fold (slide_path out i). rewrite Hrun.
    change (slide_paths out i (S (length rest)))
      with (slide_path out i :: slide_paths out (S i) (length rest)).
    destruct b.
    + destruct (IH (S i) (acc ++ [slide_path out i]) st1)
        as (st' & Hloop & Hlen & Hfs' & Hlog' & Hinv' & Hok & Hfail).
      exists st'. rewrite Hloop. cbn [select]. rewrite <- app_assoc.
      split; [done|]. split; [simpl; by rewrite Hlen|].
      split.
      { intros p Hp. apply not_elem_of_cons in Hp as [Hne Hp].
        rewrite Hfs' by done. by apply Hfs. }
      split; [by etrans|]. split; [by auto|].
      split.
      * intros [|k] h' Hh Hflag; simpl in Hh, Hflag.
        -- injection Hh as <-. rewrite Nat.add_0_r.
           rewrite Hfs' by (apply slide_path_fresh; lia). by apply Hfile.
        -- replace (i + S k) with (S i + k) by lia. by apply Hok.
      * intros [|k] h' Hh Hflag; simpl in Hh, Hflag; [done|].
        by eapply Hfail.
    + unfold logger, modify.
      destruct (IH (S i) acc (set_log (JobFailed h :: log st1) st1))
        as (st' & Hloop & Hlen & Hfs' & Hlog' & Hinv' & Hok & Hfail).
      exists st'. rewrite Hloop. cbn [select].
      split; [done|]. split; [simpl; by rewrite Hlen|].
      split.
      { intros p Hp. apply not_elem_of_cons in Hp as [Hne Hp].
        rewrite Hfs' by done. simpl. by apply Hfs. }
      split.
      { etrans; [exact Hlog|]. etrans; [|exact Hlog']. by apply suffix_cons_r. }
      split.
      { intros Hi. apply Hinv'. apply Hinv in Hi. exact Hi. }
      split.
      * intros [|k] h' Hh Hflag; simpl in Hh, Hflag; [done|].
        replace (i + S k) with (S i + k) by lia. by apply Hok.
      * intros [|k] h' Hh Hflag; simpl in Hh, Hflag.
        -- injection Hh as <-. destruct Hlog' as [l ->].
           apply elem_of_app. right. simpl. apply list_elem_of_here.
        -- by eapply Hfail.
Qed.

(** * Single-document render *)

(** C4: a job whose source path does not exist is reported as a
    source-not-found failure (the render returns [False] after logging
    [HtmlMissing]); nothing is written, at the output path or anywhere
    else, and the browser is not touched. *)
Theorem missing_source_writes_nothing E html pdf st :
  fs st !! html = None →
  ∃ st', run (convert_html_to_pdf E html pdf) st = (Ok false, st')
    ∧ log st' = HtmlMissing html :: log st
    ∧ fs st' = fs st
    ∧ trace st' = trace st
    ∧ same_session st st'.
Proof.
  intros Hsrc. unfold_model. simpl. rewrite Hsrc. simpl.
  eexists. split; [reflexivity|]. simpl. by repeat split.
Qed.

Lemma missing_source_writes_nothing_witness :
  fs (init deck_2_missing) !! "slide_2.html"%string = None
  ∧ ∃ st', run (convert_html_to_pdf all_ok_env "slide_2.html" "out/slide_2.pdf")
               (init deck_2_missing) = (Ok false, st')
      ∧ log st' = HtmlMissing "slide_2.html" :: log (init deck_2_missing)
      ∧ fs st' = fs (init deck_2_missing)
      ∧ trace st' = trace (init deck_2_missing)
      ∧ same_session (init deck_2_missing) st'.
Proof.
  assert (H : fs (init deck_2_missing) !! "slide_2.html"%string = None)
    by (vm_compute; reflexivity).
  split; [exact H|].
  exact (missing_source_writes_nothing all_ok_env "slide_2.html"
           "out/slide_2.pdf" (init deck_2_missing) H).
Defined.

(** C6: the readiness waiter never raises, whatever the image wait, the
    font wait or the settle delay do, and touches neither files nor
    session; and a render in which everything but the readiness checks
    goes well succeeds whatever the readiness checks do. *)
Theorem readiness_failures_are_absorbed E page html pdf st :
  (∃ st', run (_wait_for_page_ready E page) st = (Ok tt, st')
     ∧ fs st' = fs st ∧ same_session st st')
  ∧ (PLAYWRIGHT_AVAILABLE E = true →
     is_Some (fs st !! html) →
     fs st !! pdf ≠ Some Dir →
     (∀ t c, is_readiness_call c = false → oracle E t c = true) →
     ∃ st', run (convert_html_to_pdf E html pdf) st = (Ok true, st')).
Proof.
  split.
  - exec.
    all: eexists; split; [reflexivity|]; by repeat split.
  - intros Hav [n Hsrc] Hdir Hor.
    unfold_model. simpl. rewrite Hsrc, Hav. simpl. exec_with Hor.
    all: try done.
    all: by eexists.
Qed.

Lemma readiness_failures_are_absorbed_witness :
  PLAYWRIGHT_AVAILABLE readiness_fails_env = true
  ∧ is_Some (fs (init one_slide) !! "slide_1.html"%string)
  ∧ fs (init one_slide) !! "out/slide_1.pdf"%string ≠ Some Dir
  ∧ (∀ t c, is_readiness_call c = false → oracle readiness_fails_env t c = true)
  ∧ ∃ st', run (convert_html_to_pdf readiness_fails_env
                  "slide_1.html" "out/slide_1.pdf") (init one_slide)
           = (Ok true, st').
Proof.
  assert (H1 : is_Some (fs (init one_slide) !! "slide_1.html"%string))
    by (vm_compute; eauto).
  assert (H2 : fs (init one_slide) !! "out/slide_1.pdf"%string ≠ Some Dir)
    by (vm_compute; discriminate).
  assert (H3 : ∀ t c, is_readiness_call c = false →
                      oracle readiness_fails_env t c = true)
    by (intros t c Hc; simpl; by rewrite Hc).
  repeat split; try assumption.
  exact (proj2 (readiness_failures_are_absorbed readiness_fails_env 0
                  "slide_1.html" "out/slide_1.pdf" (init one_slide))
               eq_refl H1 H2 H3).
Defined.

(** C8: a render that reports success has laid the page out in a 1280x720
    viewport and printed it, on that same page context, at
    338.67mm x 190.5mm with backgrounds, zero margins, no header or footer
    and scale 1; the output path holds the document so printed, every
    sheet of it laid out and printed that way. *)
Theorem capture_geometry E html pdf st st' :
  run (convert_html_to_pdf E html pdf) st = (Ok true, st') →
  ∃ p opts pgs,
    CSetViewport p 1280 720 ∈ trace st'
    ∧ CPdf p pdf opts ∈ trace st'
    ∧ fs st' !! pdf = Some (File (Pdf pgs))
    ∧ Forall (λ pg, page_viewport pg = Some (1280, 720)%Z
                    ∧ page_opts pg = opts) pgs
    ∧ width opts = "338.67mm"%string
    ∧ height opts = "190.5mm"%string
    ∧ print_background opts = true
    ∧ (margin_top opts = "0mm" ∧ margin_right opts = "0mm"
       ∧ margin_bottom opts = "0mm" ∧ margin_left opts = "0mm")%string
    ∧ display_header_footer opts = false
    ∧ scale opts = 1%Z.
Proof.
  intros Hrun. revert Hrun. exec.
  all: try (intros [=]; fail).
  all: intros [= <-]; simpl.
  all: eexists _, _, _.
  all: split; [repeat first [ apply list_elem_of_here
                            | apply list_elem_of_further ]|].
  all: split; [repeat first [ apply list_elem_of_here
                            | apply list_elem_of_further ]|].
  all: rewrite lookup_insert_eq; split; [reflexivity|].
  all: split; [by apply Forall_fmap, Forall_true|].
  all: by repeat split.
Qed.

Lemma capture_geometry_witness :
  run (convert_html_to_pdf all_ok_env "slide_1.html" "out/slide_1.pdf")
      (init one_slide)
  = (Ok true, live_session_state)
  ∧ ∃ p opts pgs,
    CSetViewport p 1280 720 ∈ trace live_session_state
    ∧ CPdf p "out/slide_1.pdf" opts ∈ trace live_session_state
    ∧ fs live_session_state !! "out/slide_1.pdf"%string
      = Some (File (Pdf pgs))
    ∧ Forall (λ pg, page_viewport pg = Some (1280, 720)%Z
                    ∧ page_opts pg = opts) pgs
    ∧ width opts = "338.67mm"%string
    ∧ height opts = "190.5mm"%string
    ∧ print_background opts = true
    ∧ (margin_top opts = "0mm" ∧ margin_right opts = "0mm"
       ∧ margin_bottom opts = "0mm" ∧ margin_left opts = "0mm")%string
    ∧ display_header_footer opts = false
    ∧ scale opts = 1%Z.
Proof.
  assert (H : run (convert_html_to_pdf all_ok_env "slide_1.html"
                     "out/slide_1.pdf") (init one_slide)
              = (Ok true, live_session_state))
    by (vm_compute; reflexivity).
  split; [exact H|].
  exact (capture_geometry all_ok_env "slide_1.html" "out/slide_1.pdf"
           (init one_slide) _ H).
Defined.

Lemma new_calls_nil (tr : list Call) p :
  ∃ new, tr = new ++ tr ∧ CPageClose p ∉ new.
Proof. exists []. split; [done|]. apply not_elem_of_nil. Qed.

Lemma new_calls_cons c (l tr : list Call) p :
  c ≠ CPageClose p →
  (∃ new, l = new ++ tr ∧ CPageClose p ∉ new) →
  ∃ new, c :: l = new ++ tr ∧ CPageClose p ∉ new.
Proof.
  intros Hc (new & -> & Hnew). exists (c :: new). split; [done|].
  apply not_elem_of_cons. by split.
Qed.

(** C3 (the code leaks the page): when a call on the page context raises
    (the viewport, the navigation, the capture), the render returns
    [False] with that page context still open, and it has not tried to
    close it; [page.close()] is reached on the success path only. *)
Theorem page_left_open_on_failure E html pdf st st' c p :
  run (convert_html_to_pdf E html pdf) st = (Ok false, st') →
  head (log st') = Some (ConvertFailed (EngineError c)) →
  page_of_call c = Some p →
  is_Some (pages st' !! p)
  ∧ ∃ new, trace st' = new ++ trace st ∧ CPageClose p ∉ new.
Proof.
  intros Hrun. revert Hrun. exec.
  all: try (intros [=]; fail).
  all: intros [= <-]; simpl.
  all: try (intros [=]; fail).
  all: intros [= <-]; simpl.
  all: try (intros [=]; fail).
  all: intros [= <-].
  all: split; [rewrite ?lookup_alter_eq, ?lookup_insert_eq; by eexists|].
  all: repeat (apply new_calls_cons; [discriminate|]); apply new_calls_nil.
Qed.

Lemma page_left_open_on_failure_witness :
  (run (convert_html_to_pdf capture_fails_env "slide_1.html"
          "out/slide_1.pdf") (init one_slide)).1 = Ok false
  ∧ head (log leaked_page_state)
    = Some (ConvertFailed
              (EngineError (CPdf 2 "out/slide_1.pdf" ppt_pdf_options)))
  ∧ map_to_list (pages leaked_page_state)
    = [(2, mkPageCtx 1 (Some (1280, 720)%Z)
                     (Some "file:///srv/deck/slide_1.html"%string))]
  ∧ is_Some (pages leaked_page_state !! 2)
  ∧ ∃ new, trace leaked_page_state = new ++ trace (init one_slide)
           ∧ CPageClose 2 ∉ new.
Proof.
  assert (Hrun : run (convert_html_to_pdf capture_fails_env "slide_1.html"
                        "out/slide_1.pdf") (init one_slide)
                 = (Ok false, leaked_page_state))
    by (vm_compute; reflexivity).
  assert (Hlog : head (log leaked_page_state)
                 = Some (ConvertFailed
                           (EngineError (CPdf 2 "out/slide_1.pdf"
                                              ppt_pdf_options))))
    by (vm_compute; reflexivity).
  split; [by rewrite Hrun|]. split; [exact Hlog|].
  split; [vm_compute; reflexivity|].
  exact (page_left_open_on_failure capture_fails_env "slide_1.html"
           "out/slide_1.pdf" (init one_slide) leaked_page_state _ 2
           Hrun Hlog eq_refl).
Defined.

(** * The batch *)

Lemma batch_body_startup_failure E htmls out merged st e st' :
  run (start_browser E) st = (Raise e, st') →
  run (batch_body E htmls out merged) st
  = (Ok [], set_log (BatchFailed e :: log st') st').
Proof.
  unfold run, batch_body, try_except, mbind, M_bind. intros ->. reflexivity.
Qed.

Lemma batch_body_no_merge E htmls out merged st st1 files st2 :
  run (start_browser E) st = (Ok tt, st1) →
  run (render_loop E out 0 htmls []) st1 = (Ok files, st2) →
  truthy merged && negb (bool_decide (files = [])) = false →
  run (batch_body E htmls out merged) st = (Ok files, st2).
Proof.
  unfold run, batch_body, try_except, mbind, M_bind. intros -> -> Hno.
  destruct merged as [m|]; [|done]. by rewrite Hno.
Qed.

Lemma batch_body_merge E htmls out m st st1 files st2 :
  run (start_browser E) st = (Ok tt, st1) →
  run (render_loop E out 0 htmls []) st1 = (Ok files, st2) →
  m ≠ ""%string → files ≠ [] →
  run (batch_body E htmls out (Some m)) st
  = (Ok [m], (run (_merge_pdfs E files m) st2).2).
Proof.
  unfold run, batch_body, try_except, mbind, M_bind. intros -> -> Hm Hf.
  destruct (merge_spec E files m st2) as (st3 & msg & Hrun & _).
  unfold run in Hrun. rewrite Hrun.
  destruct m; [done|]. simpl. rewrite bool_decide_eq_false_2 by done.
  simpl. by rewrite Hrun.
Qed.

Lemma batch_unfold E htmls out merged st st1 :
  run (os_makedirs E out) st = (Ok tt, st1) →
  run (convert_multiple_html_to_pdf E htmls out merged) st
  = run (try_finally (batch_body E htmls out merged) (close_browser E)) st1.
Proof.
  unfold run, convert_multiple_html_to_pdf, mbind, M_bind. by intros ->.
Qed.

Lemma finally_ok {A} (m : M A) fin st r st1 st2 :
  run m st = (r, st1) → run fin st1 = (Ok tt, st2) →
  run (try_finally m fin) st = (r, st2).
Proof. unfold run, try_finally. by intros -> ->. Qed.

Lemma finally_raise {A} (m : M A) fin st r st1 e st2 :
  run m st = (r, st1) → run fin st1 = (Raise e, st2) →
  run (try_finally m fin) st = (Raise e, st2).
Proof. unfold run, try_finally. by intros -> ->. Qed.

Lemma select_sublist {A} (flags : list bool) : ∀ xs : list A,
  select flags xs `sublist_of` xs.
Proof.
  induction flags as [|b flags IH]; intros [|x xs]; simpl;
    try apply sublist_nil_l.
  destruct b; [by apply sublist_skip|by apply sublist_cons].
Qed.

Lemma select_length_le {A} (flags : list bool) : ∀ xs : list A,
  length (select flags xs) ≤ length xs.
Proof.
  induction flags as [|b flags IH]; intros [|x xs]; simpl; try lia.
  specialize (IH xs). destruct b; simpl; lia.
Qed.

Lemma select_length_full {A} (flags : list bool) : ∀ xs : list A,
  length flags = length xs →
  length (select flags xs) = length xs ↔ Forall (λ b, b = true) flags.
Proof.
  induction flags as [|b flags IH]; intros [|x xs] Hlen; simpl in *;
    try discriminate.
  - split; [constructor|done].
  - pose proof (select_length_le flags xs) as Hle.
    destruct b; simpl.
    + rewrite Forall_cons. specialize (IH xs). split.
      * intros Hl. split; [done|]. apply IH; lia.
      * intros [_ Hall]. f_equal. apply IH; [lia|done].
    + split; [lia|]. intros Hall. by apply Forall_cons in Hall as [? _].
Qed.

(** C1, as the code has it: when the output directory can be created, the
    session starts, no merged path is asked for and teardown does not raise,
    the batch attempts every job and returns the output paths of exactly the
    jobs that rendered successfully, in job order.  A failed job has no
    entry in the result; it is reported in the log.  So there is one result
    per job exactly when every job succeeds. *)
Theorem batch_returns_successful_paths E htmls out st st1 st2 :
  run (os_makedirs E out) st = (Ok tt, st1) →
  run (start_browser E) st1 = (Ok tt, st2) →
  (∀ t c, is_teardown_call c = true → oracle E t c = true) →
  ∃ st',
    run (convert_multiple_html_to_pdf E htmls out None) st
    = (Ok (select (job_outcomes E out 0 htmls st2)
                  (slide_paths out 0 (length htmls))), st')
    ∧ length (job_outcomes E out 0 htmls st2) = length htmls
    ∧ select (job_outcomes E out 0 htmls st2)
             (slide_paths out 0 (length htmls))
      `sublist_of` slide_paths out 0 (length htmls)
    ∧ (length (select (job_outcomes E out 0 htmls st2)
                      (slide_paths out 0 (length htmls)))
       = length htmls
       ↔ Forall (λ b, b = true) (job_outcomes E out 0 htmls st2))
    ∧ (∀ k h, htmls !! k = Some h →
         job_outcomes E out 0 htmls st2 !! k = Some false →
         JobFailed h ∈ log st').
Proof.
  intros Hmk Hstart Hor.
  destruct (render_loop_spec E out htmls 0 [] st2)
    as (st3 & Hloop & Hlen & _ & _ & _ & _ & Hfail).
  destruct (close_browser_spec E st3)
    as (r & st4 & Hclose & _ & Hlog & _ & _ & _ & _ & Hok).
  rewrite (Hok Hor) in Hclose.
  exists st4.
  split; [|split; [done|split; [apply select_sublist|split]]].
  - rewrite (batch_unfold _ _ _ _ _ _ Hmk).
    eapply finally_ok; [|exact Hclose].
    eapply batch_body_no_merge; [exact Hstart|exact Hloop|done].
  - rewrite <- (slide_paths_length out 0 (length htmls)) at 2.
    apply select_length_full. by rewrite slide_paths_length.
  - intros k h Hk Hflag. rewrite Hlog. by eapply Hfail.
Qed.

Lemma batch_returns_successful_paths_witness :
  ∃ st',
    run (convert_multiple_html_to_pdf all_ok_env three_slides "out" None)
        (init deck_2_missing)
    = (Ok [ "out/slide_1.pdf"; "out/slide_3.pdf" ]%string, st')
    ∧ JobFailed "slide_2.html" ∈ log st'.
Proof.
  pose (st1 := (run (os_makedirs all_ok_env "out") (init deck_2_missing)).2).
  pose (st2 := (run (start_browser all_ok_env) st1).2).
  destruct (batch_returns_successful_paths all_ok_env three_slides "out"
              (init deck_2_missing) st1 st2)
    as (st' & Hrun & _ & _ & _ & Hfail).
  - vm_compute; reflexivity.
  - vm_compute; reflexivity.
  - intros t c _; reflexivity.
  - exists st'. split.
    + etrans; [exact Hrun|]. vm_compute. reflexivity.
    + apply (Hfail 1); vm_compute; reflexivity.
Defined.

(** C1 as stated fails: with the second of three sources missing the batch
    returns two results for three jobs, and the second result belongs to
    the third job. *)
Lemma batch_result_is_not_one_per_job :
  (run (convert_multiple_html_to_pdf all_ok_env three_slides "out" None)
       (init deck_2_missing)).1
  = Ok [ "out/slide_1.pdf"; "out/slide_3.pdf" ]%string
  ∧ length [ "out/slide_1.pdf"; "out/slide_3.pdf" ]%string
    ≠ length three_slides
  ∧ [ "out/slide_1.pdf"; "out/slide_3.pdf" ]%string !! 1
    ≠ Some (slide_path "out" 1).
Proof.
  split; [vm_compute; reflexivity|]. split; [simpl; lia|].
  vm_compute. discriminate.
Qed.

(** C10: with a merged path given and at least one job rendered, the batch
    returns the one-element list holding the merged path, whatever the
    merge does: the merge reports its failure in the log and the batch goes
    on.  When the merge library is missing the merge writes nothing, so the
    path returned need not exist.  Only the teardown in the [finally] block
    can still get in the way: if it raises, its exception replaces the
    return value. *)
Theorem merged_path_returned_whatever_the_merge_does
    E htmls out m st st1 st2 pdf_files st3 :
  m ≠ ""%string →
  run (os_makedirs E out) st = (Ok tt, st1) →
  run (start_browser E) st1 = (Ok tt, st2) →
  run (render_loop E out 0 htmls []) st2 = (Ok pdf_files, st3) →
  pdf_files ≠ [] →
  ∃ r st' msg,
    run (convert_multiple_html_to_pdf E htmls out (Some m)) st = (r, st')
    ∧ (r = Ok [m]
       ∨ ∃ c, r = Raise (EngineError c) ∧ is_teardown_call c = true)
    ∧ ((∀ t c, is_teardown_call c = true → oracle E t c = true) → r = Ok [m])
    ∧ log st' = msg :: log st3
    ∧ merge_outcome (fs st3) (fs st') m (pages_of_files (fs st3) pdf_files) msg
    ∧ (PYPDF2_INSTALLED E = false → msg = PyPDF2Missing).
Proof.
  intros Hm Hmk Hstart Hloop Hne.
  destruct (merge_spec E pdf_files m st3)
    as (st4 & msg & Hmerge & _ & Hlog & Hmsg & Hpy).
  destruct (close_browser_spec E st4)
    as (r & st5 & Hclose & Hfs & Hlog' & _ & _ & _ & Hraise & Hok).
  assert (Hbody : run (batch_body E htmls out (Some m)) st1 = (Ok [m], st4)).
  { rewrite (batch_body_merge _ _ _ _ _ _ _ _ Hstart Hloop Hm Hne).
    by rewrite Hmerge. }
  rewrite (batch_unfold _ _ _ _ _ _ Hmk).
  destruct r as [[]|e].
  - exists (Ok [m]), st5, msg. split; [by eapply finally_ok|].
    split; [by left|]. rewrite Hfs, Hlog'. by repeat split.
  - destruct (Hraise e eq_refl) as (c & -> & Hc & _).
    exists (Raise (EngineError c)), st5, msg.
    split; [by eapply finally_raise|]. split; [right; by exists c|].
    split; [intros Hor; by specialize (Hok Hor)|].
    rewrite Hfs, Hlog'. by repeat split.
Qed.

Lemma merged_path_returned_whatever_the_merge_does_witness :
  ∃ st',
    run (convert_multiple_html_to_pdf no_pypdf2_env three_slides "out"
           (Some "deck.pdf"%string)) (init deck_2_missing)
    = (Ok [ "deck.pdf"%string ], st')
    ∧ fs st' !! "deck.pdf"%string = None.
Proof.
  pose (st1 := (run (os_makedirs no_pypdf2_env "out") (init deck_2_missing)).2).
  pose (st2 := (run (start_browser no_pypdf2_env) st1).2).
  pose (loop := run (render_loop no_pypdf2_env "out" 0 three_slides []) st2).
  destruct (merged_path_returned_whatever_the_merge_does no_pypdf2_env
              three_slides "out" "deck.pdf" (init deck_2_missing) st1 st2
              [ "out/slide_1.pdf"; "out/slide_3.pdf" ]%string loop.2)
    as (r & st' & msg & Hrun & _ & Hok & _ & Hout & Hmissing).
  - discriminate.
  - vm_compute; reflexivity.
  - vm_compute; reflexivity.
  - vm_compute; reflexivity.
  - discriminate.
  - exists st'. rewrite Hok in Hrun by (intros t c _; reflexivity).
    split; [exact Hrun|].
    rewrite (Hmissing eq_refl) in Hout. simpl in Hout. rewrite Hout.
    vm_compute. reflexivity.
Defined.

Lemma teardown_call_is_no_job_call c :
  is_teardown_call c = true → is_job_call c = false.
Proof. by destruct c. Qed.

(** C5: when session startup fails (the engine is not installed, or the
    driver or the browser does not come up), the batch reports the startup
    error and returns the empty list: no job is attempted (no call on any
    page context is made) and nothing is written.  Teardown still runs; if
    it raises, that exception is what the caller sees, with no results
    either. *)
Theorem startup_failure_aborts_batch E htmls out merged st st1 e st2 :
  run (os_makedirs E out) st = (Ok tt, st1) →
  run (start_browser E) st1 = (Raise e, st2) →
  ∃ r st',
    run (convert_multiple_html_to_pdf E htmls out merged) st = (r, st')
    ∧ (r = Ok [] ∨ ∃ c, r = Raise (EngineError c) ∧ is_teardown_call c = true)
    ∧ ((∀ t c, is_teardown_call c = true → oracle E t c = true) → r = Ok [])
    ∧ log st' = BatchFailed e :: log st2
    ∧ fs st' = fs st1
    ∧ ∃ new, trace st' = new ++ trace st
             ∧ Forall (λ c, is_job_call c = false) new.
Proof.
  intros Hmk Hstart.
  pose proof (batch_body_startup_failure E htmls out merged _ _ _ Hstart)
    as Hbody.
  destruct (os_makedirs_spec E out st)
    as (r0 & st1' & Hmk' & _ & _ & Htr0 & _).
  rewrite Hmk in Hmk'. injection Hmk' as <- <-.
  destruct (start_browser_spec E st1)
    as (r1 & st2' & Hstart' & Hfs1 & _ & _ & (new1 & Htr1 & Hnew1) & _).
  rewrite Hstart in Hstart'. injection Hstart' as <- <-.
  destruct (close_browser_spec E (set_log (BatchFailed e :: log st2) st2))
    as (r & st3 & Hclose & Hfs & Hlog & (new2 & Htr2 & Hnew2) & _ & _
        & Hraise & Hok).
  assert (Htrace : ∃ new, trace st3 = new ++ trace st
                          ∧ Forall (λ c, is_job_call c = false) new).
  { exists (new2 ++ new1 ++ [CMakedirs out]). split.
    - rewrite Htr2. simpl. rewrite Htr1, Htr0.
      rewrite <- !app_assoc. reflexivity.
    - apply Forall_app. split.
      + eapply Forall_impl; [exact Hnew2|]. apply teardown_call_is_no_job_call.
      + apply Forall_app. split; [done|]. by repeat constructor. }
  rewrite (batch_unfold _ _ _ _ _ _ Hmk).
  destruct r as [[]|e'].
  - exists (Ok []), st3. split; [by eapply finally_ok|].
    split; [by left|]. split; [done|]. by rewrite Hfs, Hlog.
  - destruct (Hraise e' eq_refl) as (c & -> & Hc & _).
    exists (Raise (EngineError c)), st3. split; [by eapply finally_raise|].
    split; [right; by exists c|].
    split; [intros Hor; by specialize (Hok Hor)|].
    by rewrite Hfs, Hlog.
Qed.

Lemma startup_failure_aborts_batch_witness :
  ∃ st',
    run (convert_multiple_html_to_pdf no_playwright_env three_slides "out"
           (Some "deck.pdf"%string)) (init deck_2_missing)
    = (Ok [], st')
    ∧ log st' = [BatchFailed RuntimeError].
Proof.
  pose (st1 := (run (os_makedirs no_playwright_env "out")
                    (init deck_2_missing)).2).
  destruct (startup_failure_aborts_batch no_playwright_env three_slides "out"
              (Some "deck.pdf"%string) (init deck_2_missing) st1
              RuntimeError st1)
    as (r & st' & Hrun & _ & Hok & Hlog & _).
  - vm_compute; reflexivity.
  - vm_compute; reflexivity.
  - exists st'. rewrite Hrun, Hlog. split; [|reflexivity].
    by rewrite Hok by (intros t c _; reflexivity).
Defined.

Lemma select_nonempty {A} (flags : list bool) : ∀ xs : list A,
  true ∈ flags → length flags = length xs → select flags xs ≠ [].
Proof.
  induction flags as [|b flags IH]; intros [|x xs] Hin Hlen; simpl in *;
    try (by apply elem_of_nil in Hin); try discriminate.
  destruct b; [done|].
  apply elem_of_cons in Hin as [|Hin]; [done|]. apply IH; [done|lia].
Qed.

(** If every selected path holds the document made from the source at the
    same position, the selected files are page documents and their pages,
    in order, are the pages of the selected sources. *)
Lemma pages_of_selected (files : gmap string Node)
    (f : string → list PdfPage) (flags : list bool) : ∀ paths htmls,
  length paths = length htmls →
  (∀ k p h, flags !! k = Some true → paths !! k = Some p →
            htmls !! k = Some h → files !! p = Some (File (Pdf (f h)))) →
  pages_of_files files (select flags paths)
  = concat (select flags (map f htmls))
  ∧ Forall (λ p, ∃ ps, files !! p = Some (File (Pdf ps))) (select flags paths).
Proof.
  induction flags as [|b flags IH]; intros [|p paths] [|h htmls] Hlen Hk;
    simpl in *; try discriminate; try (split; [done|constructor]).
  destruct (IH paths htmls) as [Hpages Hall]; [lia| |].
  { intros k p' h' Hf Hp Hh. by apply (Hk (S k)). }
  destruct b; [|done].
  pose proof (Hk 0 p h eq_refl eq_refl eq_refl) as Hp.
  simpl. rewrite Hp. simpl. split; [by rewrite Hpages|].
  constructor; [by eexists|done].
Qed.

Lemma slide_paths_lookup out n k p :
  slide_paths out 0 n !! k = Some p → p = slide_path out k.
Proof.
  unfold slide_paths. rewrite list_lookup_fmap. intros H.
  destruct (seq 0 n !! k) as [j|] eqn:Hj; [|done].
  apply lookup_seq in Hj as [-> _]. by injection H as <-.
Qed.

(** C7: under the partial-success policy (the only one the code has), with
    the merge library present and willing, the merged artifact holds
    exactly the pages of the jobs that rendered successfully, in job order,
    and every job that failed is reported. *)
Theorem merge_uses_successful_pages_in_order E htmls out m st st1 st2 :
  run (os_makedirs E out) st = (Ok tt, st1) →
  run (start_browser E) st1 = (Ok tt, st2) →
  m ≠ ""%string → m ≠ out → fs st !! m ≠ Some Dir →
  m ∉ slide_paths out 0 (length htmls) →
  PYPDF2_INSTALLED E = true →
  (∀ t c, is_merge_call c = true → oracle E t c = true) →
  true ∈ job_outcomes E out 0 htmls st2 →
  ∃ r st',
    run (convert_multiple_html_to_pdf E htmls out (Some m)) st = (r, st')
    ∧ fs st' !! m
      = Some (File (Pdf (concat (select (job_outcomes E out 0 htmls st2)
                                        (map (doc_of E) htmls)))))
    ∧ (∀ k h, htmls !! k = Some h →
         job_outcomes E out 0 htmls st2 !! k = Some false →
         JobFailed h ∈ log st')
    ∧ ((∀ t c, is_teardown_call c = true → oracle E t c = true) →
       r = Ok [m]).
Proof.
  intros Hmk Hstart Hm Hmo Hdir Hms Hpy Hor Hsome.
  destruct (render_loop_spec E out htmls 0 [] st2)
    as (st3 & Hloop & Hlen & Hfs3 & _ & _ & Hok & Hfail).
  simpl in Hloop.
  destruct (pages_of_selected (fs st3) (doc_of E)
              (job_outcomes E out 0 htmls st2)
              (slide_paths out 0 (length htmls)) htmls) as [Hpages Hall].
  { apply slide_paths_length. }
  { intros k p h Hf Hp Hh. apply slide_paths_lookup in Hp as ->.
    by apply (Hok k h). }
  assert (Hdir3 : fs st3 !! m ≠ Some Dir).
  { rewrite Hfs3 by done.
    destruct (start_browser_spec E st1) as (r1 & st2' & Hs & Hfs2 & _).
    destruct (os_makedirs_spec E out st)
      as (r0 & st1' & Hmk' & _ & _ & _ & Hfs1 & _).
    rewrite Hmk in Hmk'. injection Hmk' as <- <-.
    rewrite Hstart in Hs. injection Hs as <- <-. by rewrite Hfs2, Hfs1. }
  destruct (merge_ok E _ m st3 Hpy Hor Hall Hdir3)
    as (st4 & Hmerge & _ & Hfs4 & Hlog4).
  destruct (close_browser_spec E st4)
    as (r & st5 & Hclose & Hfs5 & Hlog5 & _ & _ & _ & _ & Hok5).
  assert (Hbody : run (batch_body E htmls out (Some m)) st1 = (Ok [m], st4)).
  { rewrite (batch_body_merge _ _ _ _ _ _ _ _ Hstart Hloop Hm).
    - by rewrite Hmerge.
    - apply select_nonempty; [done|]. by rewrite slide_paths_length. }
  exists (match r with Ok _ => Ok [m] | Raise e => Raise e end), st5.
  split; [|split; [|split]].
  - rewrite (batch_unfold _ _ _ _ _ _ Hmk).
    destruct r as [[]|e]; [by eapply finally_ok|by eapply finally_raise].
  - by rewrite Hfs5, Hfs4, lookup_insert_eq, Hpages.
  - intros k h Hk Hflag. rewrite Hlog5, Hlog4.
    apply list_elem_of_further. by eapply Hfail.
  - intros Hort. by rewrite (Hok5 Hort).
Qed.

Lemma merge_uses_successful_pages_in_order_witness :
  job_outcomes all_ok_env "out" 0 three_slides
    (run (start_browser all_ok_env)
         (run (os_makedirs all_ok_env "out") (init deck_2_missing)).2).2
  = [true; false; true]
  ∧ ∃ st',
      run (convert_multiple_html_to_pdf all_ok_env three_slides "out"
             (Some "deck.pdf"%string)) (init deck_2_missing)
      = (Ok [ "deck.pdf"%string ], st')
      ∧ fs st' !! "deck.pdf"%string
        = Some (File (Pdf
            [ mkPdfPage (Some "file:///srv/deck/slide_1.html"%string)
                        (Some (1280, 720)%Z) ppt_pdf_options 1;
              mkPdfPage (Some "file:///srv/deck/slide_3.html"%string)
                        (Some (1280, 720)%Z) ppt_pdf_options 1 ]))
      ∧ fs st' !! "out/slide_2.pdf"%string = None
      ∧ JobFailed "slide_2.html" ∈ log st'.
Proof.
  pose (st1 := (run (os_makedirs all_ok_env "out") (init deck_2_missing)).2).
  pose (st2 := (run (start_browser all_ok_env) st1).2).
  assert (Hflags : job_outcomes all_ok_env "out" 0 three_slides st2
                   = [true; false; true]) by (vm_compute; reflexivity).
  split; [exact Hflags|].
  destruct (merge_uses_successful_pages_in_order all_ok_env three_slides "out"
              "deck.pdf" (init deck_2_missing) st1 st2)
    as (r & st' & Hrun & Hfs & Hfail & Hok).
  - vm_compute; reflexivity.
  - vm_compute; reflexivity.
  - discriminate.
  - discriminate.
  - vm_compute; discriminate.
  - assert (Hp : slide_paths "out" 0 (length three_slides)
                 = [ "out/slide_1.pdf"; "out/slide_2.pdf";
                     "out/slide_3.pdf" ]%string) by (vm_compute; reflexivity).
    rewrite Hp. intros Hin.
    repeat (apply elem_of_cons in Hin as [Hin|Hin]; [discriminate|]).
    by apply elem_of_nil in Hin.
  - reflexivity.
  - intros t c _; reflexivity.
  - rewrite Hflags. apply list_elem_of_here.
  - exists st'. rewrite Hok in Hrun by (intros t c _; reflexivity).
    split; [exact Hrun|]. split; [by rewrite Hfs, Hflags|]. split.
    + apply (f_equal (λ x, fs x.2 !! "out/slide_2.pdf"%string)) in Hrun.
      simpl in Hrun. rewrite <- Hrun. vm_compute. reflexivity.
    + apply (Hfail 1); [reflexivity|]. by rewrite Hflags.
Defined.

(** * Merge *)

(** C2, as the code has it: the merge writes the combined artifact in
    place.  It opens the output path itself for writing and writes into it;
    there is no temporary path and no rename, and no other path is touched.
    The output path is as it was when the merge stops before opening it
    (library missing, an input that cannot be appended, the open refused);
    it holds a truncated file when the write raises. *)
Theorem merge_writes_output_in_place E pdf_files output_path st :
  ∃ st' msg,
    run (_merge_pdfs E pdf_files output_path) st = (Ok tt, st')
    ∧ log st' = msg :: log st
    ∧ merge_outcome (fs st) (fs st') output_path
                    (pages_of_files (fs st) pdf_files) msg.
Proof.
  destruct (merge_spec E pdf_files output_path st)
    as (st' & msg & Hrun & _ & Hlog & Hout & _).
  by exists st', msg.
Qed.

(** C2 as stated fails: when the write raises, the merge reports the
    failure and a truncated file is left at the output path, in place of
    the complete document that was there. *)
Lemma failed_merge_leaves_truncated_output :
  fs (init rendered_deck) !! "deck.pdf"%string
  = Some (File (Pdf (doc_of write_fails_env "old_1.html"
                     ++ doc_of write_fails_env "old_2.html")))
  ∧ log failed_merge_state
    = [MergeFailed (EngineError (CMergerWrite "deck.pdf"))]
  ∧ fs failed_merge_state !! "deck.pdf"%string = Some (File Truncated).
Proof. vm_compute. by repeat split. Qed.

(** * Session lifecycle *)

Lemma session_inv_same E st st' :
  same_session st st' → session_inv E st → session_inv E st'.
Proof.
  intros (_ & Hb & Hbs & Hpg) Hinv. unfold session_inv.
  by rewrite Hb, Hbs, Hpg.
Qed.

Lemma batch_body_spec E htmls out merged st :
  ∃ files st', run (batch_body E htmls out merged) st = (Ok files, st')
    ∧ (session_inv E st → session_inv E st').
Proof.
  destruct (start_browser_spec E st)
    as (r1 & st1 & Hstart & _ & _ & _ & _ & Hinv1 & _).
  destruct r1 as [[]|e].
  - destruct (render_loop_spec E out htmls 0 [] st1)
      as (st2 & Hloop & _ & _ & _ & Hinv2 & _).
    simpl in Hloop.
    set (files := select (job_outcomes E out 0 htmls st1)
                         (slide_paths out 0 (length htmls))) in *.
    destruct (truthy merged && negb (bool_decide (files = []))) eqn:Hm.
    + destruct merged as [m|]; [|done].
      apply andb_true_iff in Hm as [Hm Hf].
      apply negb_true_iff, bool_decide_eq_false in Hf.
      assert (m ≠ ""%string) by (by destruct m).
      destruct (merge_spec E files m st2) as (st3 & msg & Hmerge & Hsame & _).
      exists [m], st3. split.
      * rewrite (batch_body_merge _ _ _ _ _ _ _ _ Hstart Hloop) by done.
        by rewrite Hmerge.
      * intros Hinv. eapply session_inv_same; [exact Hsame|]. auto.
    + exists files, st2. split; [by eapply batch_body_no_merge|auto].
  - exists [], (set_log (BatchFailed e :: log st1) st1).
    split; [by apply batch_body_startup_failure|].
    intros Hinv. by apply Hinv1 in Hinv.
Qed.

(** What a batch leaves of the session: nothing when it returns; when it
    raises, either teardown itself raised, or the output directory could
    not be made and the batch stopped before touching the session. *)
Lemma batch_session E htmls out merged st :
  session_inv E st →
  ∃ r st',
    run (convert_multiple_html_to_pdf E htmls out merged) st = (r, st')
    ∧ session_inv E st'
    ∧ match r with
      | Ok _ =>
          self_browser st' = None ∧ self_playwright st' = None
          ∧ browsers st' = ∅ ∧ pages st' = ∅
      | Raise e =>
          (∃ c, e = EngineError c ∧ is_teardown_call c = true
                ∧ head (trace st') = Some c)
          ∨ ((e = FileExistsError ∨ e = EngineError (CMakedirs out))
             ∧ trace st' = CMakedirs out :: trace st
             ∧ same_session st st')
      end.
Proof.
  intros Hinv.
  destruct (os_makedirs_spec E out st)
    as (r0 & st1 & Hmk & Hsame & _ & Htr & _ & _ & _ & Hraise).
  pose proof (session_inv_same _ _ _ Hsame Hinv) as Hinv1.
  destruct r0 as [[]|e].
  - destruct (batch_body_spec E htmls out merged st1)
      as (files & st2 & Hbody & Hinv2).
    destruct (close_browser_spec E st2)
      as (r & st3 & Hclose & _ & _ & _ & Hinv3 & Hdone & Hfail & _).
    rewrite (batch_unfold _ _ _ _ _ _ Hmk).
    destruct r as [[]|e].
    + exists (Ok files), st3. split; [by eapply finally_ok|].
      split; [auto|]. apply Hdone; auto.
    + exists (Raise e), st3. split; [by eapply finally_raise|].
      split; [auto|]. left. by apply Hfail.
  - exists (Raise e), st1. split.
    + unfold run, convert_multiple_html_to_pdf, mbind, M_bind in *.
      by rewrite Hmk.
    + split; [done|]. right. destruct (Hraise e eq_refl) as [_ He]. done.
Qed.

Lemma reachable_session_inv E st : reachable E st → session_inv E st.
Proof.
  induction 1 as [files|st files _ IH|st _ IH|st _ IH|st html pdf _ IH
                  |st htmls out merged _ IH].
  - repeat split; [apply pages_ok_nil|]. by intros [? ?].
  - exact IH.
  - destruct (start_browser_spec E st)
      as (r & st' & -> & _ & _ & _ & _ & Hinv & _). by apply Hinv.
  - destruct (close_browser_spec E st)
      as (r & st' & -> & _ & _ & _ & Hinv & _). by apply Hinv.
  - destruct (convert_spec E html pdf st)
      as (b & st' & -> & _ & _ & _ & Hinv). by apply Hinv.
  - destruct (batch_session E htmls out merged st IH)
      as (r & st' & -> & Hinv & _). exact Hinv.
Qed.




(** * Further properties of the converter *)

Lemma new_calls_all_nil (P : Call → Prop) (tr : list Call) :
  ∃ new, tr = new ++ tr ∧ Forall P new.
Proof. by exists []. Qed.

Lemma new_calls_all_cons (P : Call → Prop) c (l tr : list Call) :
  P c →
  (∃ new, l = new ++ tr ∧ Forall P new) →
  ∃ new, c :: l = new ++ tr ∧ Forall P new.
Proof.
  intros Hc (new & -> & Hnew). exists (c :: new). split; [done|].
  by constructor.
Qed.

Ltac solve_new_calls :=
  repeat (apply new_calls_all_cons; [reflexivity|]); apply new_calls_all_nil.

(** ** Output names *)

(** X1: the per-slide output paths of one batch are pairwise distinct,
    whatever the output directory: no job overwrites the file of
    another. *)
Theorem batch_output_paths_distinct out i n : NoDup (slide_paths out i n).
Proof.
  unfold slide_paths. apply NoDup_fmap_2; [|apply NoDup_seq].
  intros a b. apply slide_path_inj.
Qed.

(** ** The readiness check *)

(** X2: the three steps of the readiness check sit in one [try]: when the
    image wait raises, neither the font wait nor the settle delay takes
    place; when the font wait raises, the settle delay is skipped.  In
    both cases one warning is logged; when both waits return nothing is
    logged.  Nothing else is done. *)
Theorem readiness_check_stops_at_first_failure E page st :
  ∃ st', run (_wait_for_page_ready E page) st = (Ok tt, st')
    ∧ fs st' = fs st ∧ same_session st st'
    ∧ ((trace st' = CEvaluate page WaitImages :: trace st
        ∧ log st' = ReadyWarning (EngineError (CEvaluate page WaitImages))
                    :: log st)
       ∨ (trace st' = CEvaluate page FontsReady
                      :: CEvaluate page WaitImages :: trace st
          ∧ log st' = ReadyWarning (EngineError (CEvaluate page FontsReady))
                      :: log st)
       ∨ (trace st' = CSleep 1 :: CEvaluate page FontsReady
                      :: CEvaluate page WaitImages :: trace st
          ∧ log st' = log st)).
Proof.
  exec.
  all: eexists; split; [reflexivity|]; simpl.
  all: split; [done|]; split; [done|].
  - right. right. done.
  - right. left. done.
  - left. done.
Qed.

(** ** What a failed render leaves behind *)

(** X3: when the capture went through and it is [page.close()] that raises,
    the render reports failure (it returns [False]) although the output
    file has been written. *)
Theorem close_failure_fails_a_captured_render E html pdf st r st' p :
  run (convert_html_to_pdf E html pdf) st = (r, st') →
  head (log st') = Some (ConvertFailed (EngineError (CPageClose p))) →
  r = Ok false
  ∧ fs st' !! pdf = Some (File (Pdf (doc_of E html)))
  ∧ CPdf p pdf ppt_pdf_options ∈ trace st'.
Proof.
  intros Hrun. revert Hrun. exec.
  all: intros [= <- <-]; simpl.
  all: try (intros [=]; fail).
  all: intros [= <-].
  all: split; [done|]. 
  all: rewrite lookup_insert_eq; split; [done|].
  all: repeat first [ apply list_elem_of_here | apply list_elem_of_further ].
Qed.

Lemma close_failure_fails_a_captured_render_witness :
  run (convert_html_to_pdf close_fails_env "slide_1.html" "out/slide_1.pdf")
      (init one_slide)
  = (Ok false, close_failed_state)
  ∧ head (log close_failed_state)
    = Some (ConvertFailed (EngineError (CPageClose 2)))
  ∧ fs close_failed_state !! "out/slide_1.pdf"%string
    = Some (File (Pdf (doc_of close_fails_env "slide_1.html"))).
Proof.
  assert (H : run (convert_html_to_pdf close_fails_env "slide_1.html"
                     "out/slide_1.pdf") (init one_slide)
              = (Ok false, close_failed_state))
    by (vm_compute; reflexivity).
  assert (Hlog : head (log close_failed_state)
                 = Some (ConvertFailed (EngineError (CPageClose 2))))
    by (vm_compute; reflexivity).
  split; [exact H|]. split; [exact Hlog|].
  exact (proj1 (proj2 (close_failure_fails_a_captured_render close_fails_env
           "slide_1.html" "out/slide_1.pdf" (init one_slide) _ _ 2 H Hlog))).
Defined.

(** ** The session across renders *)

(** X4: a single-document render never ends the session: it makes no
    [browser.close()] and no [playwright.stop()] call, and after a render
    that succeeded the converter still holds a live browser. *)
Theorem render_leaves_the_browser_running E html pdf st :
  reachable E st →
  ∃ b st', run (convert_html_to_pdf E html pdf) st = (Ok b, st')
    ∧ (∃ new, trace st' = new ++ trace st
              ∧ Forall (λ c, is_teardown_call c = false) new)
    ∧ (b = true → ∃ br, self_browser st' = Some br ∧ browsers st' = {[br]}).
Proof.
  intros Hinv%reachable_session_inv.
  destruct (convert_spec E html pdf st) as (b & st' & Hrun & _ & _ & _ & Hi).
  specialize (Hi Hinv). exists b, st'. split; [done|].
  revert Hrun Hi. clear Hinv. exec.
  all: intros [= <- <-]; simpl.
  all: intros (Hbs & _ & _); simpl in Hbs.
  all: split; [solve_new_calls|].
  all: try (intros [=]; fail).
  all: intros _; eexists; split; [try reflexivity; eassumption|];
       try match goal with H : self_browser _ = _ |- _ => rewrite H in Hbs end;
       done.
Qed.

Lemma render_leaves_the_browser_running_witness :
  reachable all_ok_env (init one_slide)
  ∧ run (convert_html_to_pdf all_ok_env "slide_1.html" "out/slide_1.pdf")
        (init one_slide) = (Ok true, live_session_state)
  ∧ self_browser live_session_state = Some 1
  ∧ browsers live_session_state = {[1]}.
Proof.
  assert (Hr : reachable all_ok_env (init one_slide)) by apply reach_init.
  assert (Hrun : run (convert_html_to_pdf all_ok_env "slide_1.html"
                        "out/slide_1.pdf") (init one_slide)
                 = (Ok true, live_session_state))
    by (vm_compute; reflexivity).
  assert (Hb : self_browser live_session_state = Some 1)
    by (vm_compute; reflexivity).
  split; [exact Hr|]. split; [exact Hrun|]. split; [exact Hb|].
  destruct (render_leaves_the_browser_running all_ok_env "slide_1.html"
              "out/slide_1.pdf" (init one_slide) Hr)
    as (b & st' & Hrun' & _ & Hlive).
  rewrite Hrun in Hrun'. injection Hrun' as <- <-.
  destruct (Hlive eq_refl) as (br & Hbr & Hbs).
  rewrite Hb in Hbr. injection Hbr as <-. exact Hbs.
Defined.

(** X5: with a session live, a render uses it: it makes no call that
    starts or ends a session, and the converter holds the same driver and
    the same browser afterwards, whether the render succeeds or not. *)
Theorem render_reuses_the_live_session E html pdf st b :
  reachable E st →
  self_browser st = Some b →
  ∃ r st', run (convert_html_to_pdf E html pdf) st = (Ok r, st')
    ∧ self_browser st' = Some b
    ∧ self_playwright st' = self_playwright st
    ∧ browsers st' = {[b]}
    ∧ ∃ new, trace st' = new ++ trace st
             ∧ Forall (λ c, is_session_call c = false) new.
Proof.
  intros (Hbs & _ & Hav)%reachable_session_inv Hb.
  rewrite Hb in Hbs. specialize (Hav (ltac:(by rewrite Hb))).
  exec.
  all: try congruence.
  all: eexists _, _; split; [reflexivity|]; simpl.
  all: split; [congruence|]; split; [done|]; split; [done|].
  all: solve_new_calls.
Qed.

Lemma render_reuses_the_live_session_witness :
  reachable all_ok_env live_session_state
  ∧ self_browser live_session_state = Some 1
  ∧ ∃ st', run (convert_html_to_pdf all_ok_env "slide_1.html"
                  "out/again.pdf") live_session_state = (Ok true, st')
      ∧ self_browser st' = Some 1
      ∧ browsers st' = {[1]}.
Proof.
  assert (Hr : reachable all_ok_env live_session_state)
    by apply reach_convert, reach_init.
  assert (Hb : self_browser live_session_state = Some 1)
    by (vm_compute; reflexivity).
  split; [exact Hr|]. split; [exact Hb|].
  destruct (render_reuses_the_live_session all_ok_env "slide_1.html"
              "out/again.pdf" live_session_state 1 Hr Hb)
    as (r & st' & Hrun & Hb' & _ & Hbs & _).
  exists st'. split; [|by split].
  assert (Hok : (run (convert_html_to_pdf all_ok_env "slide_1.html"
                        "out/again.pdf") live_session_state).1 = Ok true)
    by (vm_compute; reflexivity).
  rewrite Hrun in Hok |- *. simpl in Hok. by rewrite Hok.
Defined.

(** X6: [close_browser] that returned has forgotten both handles, and
    closing again does nothing at all: no call is made and nothing
    changes. *)
Theorem close_browser_twice E st st' :
  run (close_browser E) st = (Ok tt, st') →
  self_browser st' = None ∧ self_playwright st' = None
  ∧ run (close_browser E) st' = (Ok tt, st').
Proof.
  intros Hrun.
  assert (Hnone : self_browser st' = None ∧ self_playwright st' = None).
  { revert Hrun. exec.
    all: try (intros [=]; fail).
    all: by intros [= <-]. }
  destruct Hnone as [Hb Hp]. split; [done|]. split; [done|].
  unfold run, close_browser, mbind, M_bind, get, mret, M_ret.
  by rewrite Hb, Hp.
Qed.

Lemma close_browser_twice_witness :
  run (close_browser all_ok_env) live_session_state
  = (Ok tt, (run (close_browser all_ok_env) live_session_state).2)
  ∧ run (close_browser all_ok_env)
        (run (close_browser all_ok_env) live_session_state).2
    = (Ok tt, (run (close_browser all_ok_env) live_session_state).2).
Proof.
  assert (H : run (close_browser all_ok_env) live_session_state
              = (Ok tt, (run (close_browser all_ok_env)
                             live_session_state).2))
    by (vm_compute; reflexivity).
  split; [exact H|].
  exact (proj2 (proj2 (close_browser_twice all_ok_env _ _ H))).
Defined.

(** X7: when [chromium.launch] raises, [start_browser] has already stored
    the handle of the driver it started and does not stop it; the next
    [start_browser] starts a second driver and overwrites the handle.  Two
    drivers have then been started and none stopped. *)
Theorem failed_launch_leaves_its_driver_running E st pw st1 st2 :
  run (start_browser E) st
  = (Raise (EngineError (CLaunch pw true launch_args)), st1) →
  run (start_browser E) st1 = (Ok tt, st2) →
  self_playwright st1 = Some pw ∧ self_browser st1 = None
  ∧ self_playwright st2 = Some (S pw)
  ∧ trace st2 = CLaunch (S pw) true launch_args :: CPlaywrightStart
                :: CLaunch pw true launch_args :: CPlaywrightStart
                :: trace st.
Proof.
  intros H1 H2.
  assert (Hst1 : self_browser st = None
                 ∧ st1 = set_trace (CLaunch pw true launch_args
                                    :: CPlaywrightStart :: trace st)
                           (set_self_playwright (Some pw)
                              (set_fresh (S pw)
                                 (set_log (StartingBrowser :: log st) st)))).
  { revert H1. clear H2. exec.
    all: try (intros [=]; fail).
    intros [= <- <-]. split; [done|]. by destruct st. }
  destruct Hst1 as [Hb ->]. clear H1.
  split; [done|]. split; [done|].
  revert H2. exec.
  all: try (intros [=]; fail).
  all: try congruence.
  by intros [= <-].
Qed.

Lemma failed_launch_leaves_its_driver_running_witness :
  run (start_browser first_launch_fails_env) (init ∅)
  = (Raise (EngineError (CLaunch 0 true launch_args)),
     (run (start_browser first_launch_fails_env) (init ∅)).2)
  ∧ self_playwright
      (run (start_browser first_launch_fails_env)
           (run (start_browser first_launch_fails_env) (init ∅)).2).2
    = Some 1
  ∧ trace
      (run (start_browser first_launch_fails_env)
           (run (start_browser first_launch_fails_env) (init ∅)).2).2
    = [ CLaunch 1 true launch_args; CPlaywrightStart;
        CLaunch 0 true launch_args; CPlaywrightStart ].
Proof.
  assert (H1 : run (start_browser first_launch_fails_env) (init ∅)
               = (Raise (EngineError (CLaunch 0 true launch_args)),
                  (run (start_browser first_launch_fails_env) (init ∅)).2))
    by (vm_compute; reflexivity).
  assert (H2 : run (start_browser first_launch_fails_env)
                   (run (start_browser first_launch_fails_env) (init ∅)).2
               = (Ok tt,
                  (run (start_browser first_launch_fails_env)
                     (run (start_browser first_launch_fails_env)
                          (init ∅)).2).2))
    by (vm_compute; reflexivity).
  split; [exact H1|].
  destruct (failed_launch_leaves_its_driver_running first_launch_fails_env
              _ _ _ _ H1 H2) as (_ & _ & Hpw & Htr).
  split; [exact Hpw|exact Htr].
Defined.

(** ** Merging: missing and damaged inputs *)

Lemma append_all_present E files : ∀ merger st,
  (∀ t c, is_merge_call c = true → oracle E t c = true) →
  Forall (λ f, fs st !! f = None
               ∨ ∃ ps, fs st !! f = Some (File (Pdf ps))) files →
  ∃ new, run (append_all E files merger) st
         = (Ok (merger ++ pages_of_files (fs st) files),
            set_trace (new ++ trace st) st)
    ∧ Forall (λ c, ∃ f, c = CMergerAppend f ∧ is_Some (fs st !! f)) new.
Proof.
  induction files as [|f rest IH]; intros merger st Hor Hall; simpl.
  - exists []. rewrite app_nil_r. split; [by destruct st|done].
  - apply Forall_cons in Hall as [Hf Hall].
    unfold_model. simpl. destruct Hf as [Hf|[ps Hf]]; rewrite Hf; simpl.
    + apply IH; done.
    + rewrite Hor by done. simpl. rewrite Hf.
      destruct (IH (merger ++ ps) (set_trace (CMergerAppend f :: trace st) st))
        as (new & Hrun & Hnew); [done|done|].
      unfold run in Hrun; simpl in Hrun. rewrite Hrun, <- app_assoc.
      exists (new ++ [CMergerAppend f]). rewrite <- app_assoc. split; [done|].
      apply Forall_app. split; [done|]. constructor; [|done].
      exists f. by rewrite Hf.
Qed.

Lemma merge_present E files out st :
  PYPDF2_INSTALLED E = true →
  (∀ t c, is_merge_call c = true → oracle E t c = true) →
  Forall (λ f, fs st !! f = None
               ∨ ∃ ps, fs st !! f = Some (File (Pdf ps))) files →
  fs st !! out ≠ Some Dir →
  ∃ st' new, run (_merge_pdfs E files out) st = (Ok tt, st')
    ∧ fs st' = <[out := File (Pdf (pages_of_files (fs st) files))]> (fs st)
    ∧ log st' = MergeOk out :: log st
    ∧ trace st' = CMergerClose :: CMergerWrite out :: COpenWb out
                  :: new ++ trace st
    ∧ Forall (λ c, ∃ f, c = CMergerAppend f ∧ is_Some (fs st !! f)) new.
Proof.
  intros Hpy Hor Hall Hdir.
  destruct (append_all_present E files [] st Hor Hall) as (new & Hrun & Hnew).
  unfold_model. simpl. rewrite Hpy. rewrite Hrun. simpl.
  rewrite !Hor by done. simpl.
  destruct (fs st !! out) as [[|c]|] eqn:Ho; [done| |]; simpl.
  all: rewrite !Hor by done; simpl.
  all: eexists _, new; split; [reflexivity|]; simpl.
  all: by rewrite insert_insert_eq.
Qed.

Lemma pages_of_present files (pdf_files : list string) :
  pages_of_files files (filter (λ f, is_Some (files !! f)) pdf_files)
  = pages_of_files files pdf_files.
Proof.
  induction pdf_files as [|f rest IH]; [done|].
  rewrite filter_cons. destruct (files !! f) as [n|] eqn:Hf.
  - rewrite decide_True by eauto. simpl. rewrite Hf.
    destruct n as [|[]]; by rewrite IH.
  - rewrite decide_False by (by intros [? ?]). simpl. by rewrite Hf.
Qed.

(** X8: the merge skips every listed file that does not exist (any more):
    it is not handed to the merge library, and the artifact written is
    made of the pages of the files that are there, in list order. *)
Theorem merge_skips_missing_inputs E pdf_files output_path st :
  PYPDF2_INSTALLED E = true →
  (∀ t c, is_merge_call c = true → oracle E t c = true) →
  Forall (λ f, fs st !! f = None
               ∨ ∃ ps, fs st !! f = Some (File (Pdf ps))) pdf_files →
  fs st !! output_path ≠ Some Dir →
  ∃ st' new,
    run (_merge_pdfs E pdf_files output_path) st = (Ok tt, st')
    ∧ fs st' !! output_path
      = Some (File (Pdf (pages_of_files (fs st)
                           (filter (λ f, is_Some (fs st !! f)) pdf_files))))
    ∧ log st' = MergeOk output_path :: log st
    ∧ trace st' = new ++ trace st
    ∧ ∀ f, fs st !! f = None → CMergerAppend f ∉ new.
Proof.
  intros Hpy Hor Hall Hdir.
  destruct (merge_present E pdf_files output_path st Hpy Hor Hall Hdir)
    as (st' & new & Hrun & Hfs & Hlog & Htr & Hnew).
  exists st', (CMergerClose :: CMergerWrite output_path
               :: COpenWb output_path :: new).
  split; [done|]. split; [by rewrite Hfs, lookup_insert_eq, pages_of_present|].
  split; [done|]. split; [done|].
  intros f Hf Hin.
  repeat (apply elem_of_cons in Hin as [Hin|Hin]; [discriminate|]).
  rewrite Forall_forall in Hnew. destruct (Hnew _ Hin) as (f' & [= <-] & Hs).
  rewrite Hf in Hs. by destruct Hs.
Qed.

Lemma merge_skips_missing_inputs_witness :
  ∃ st',
    run (_merge_pdfs all_ok_env
           [ "out/slide_1.pdf"; "out/slide_2.pdf"; "out/slide_3.pdf" ]%string
           "deck.pdf") (init deck_with_gap) = (Ok tt, st')
    ∧ fs st' !! "deck.pdf"%string
      = Some (File (Pdf (doc_of all_ok_env "slide_1.html"
                         ++ doc_of all_ok_env "slide_3.html")))
    ∧ CMergerAppend "out/slide_2.pdf" ∉ trace st'.
Proof.
  destruct (merge_skips_missing_inputs all_ok_env
              [ "out/slide_1.pdf"; "out/slide_2.pdf"; "out/slide_3.pdf" ]%string
              "deck.pdf" (init deck_with_gap))
    as (st' & new & Hrun & Hfs & _ & Htr & Hskip).
  - reflexivity.
  - intros t c _; reflexivity.
  - apply Forall_cons_2; [right; eexists; vm_compute; reflexivity|].
    apply Forall_cons_2; [left; vm_compute; reflexivity|].
    apply Forall_cons_2; [right; eexists; vm_compute; reflexivity|].
    apply Forall_nil_2.
  - vm_compute. discriminate.
  - exists st'. split; [exact Hrun|]. split.
    + rewrite Hfs. vm_compute. reflexivity.
    + rewrite Htr. simpl. rewrite app_nil_r. apply Hskip.
      vm_compute. reflexivity.
Defined.

(** X9: the merge has no check for an empty input: when none of the listed
    files exists (in particular when the list is empty) it still opens
    the output, writes a document without pages and reports success. *)
Theorem merge_of_nothing_writes_an_empty_document E pdf_files output_path st :
  PYPDF2_INSTALLED E = true →
  (∀ t c, is_merge_call c = true → oracle E t c = true) →
  Forall (λ f, fs st !! f = None) pdf_files →
  fs st !! output_path ≠ Some Dir →
  ∃ st',
    run (_merge_pdfs E pdf_files output_path) st = (Ok tt, st')
    ∧ fs st' = <[output_path := File (Pdf [])]> (fs st)
    ∧ log st' = MergeOk output_path :: log st.
Proof.
  intros Hpy Hor Hall Hdir.
  destruct (merge_present E pdf_files output_path st Hpy Hor) as
    (st' & new & Hrun & Hfs & Hlog & _); [|done|].
  { eapply Forall_impl; [exact Hall|]. intros f Hf. by left. }
  exists st'. split; [done|]. split; [|done]. rewrite Hfs. do 3 f_equal.
  clear -Hall. induction Hall as [|f rest Hf _ IH]; [done|].
  simpl. by rewrite Hf.
Qed.

Lemma merge_of_nothing_writes_an_empty_document_witness :
  ∃ st',
    run (_merge_pdfs all_ok_env [] "deck.pdf") (init ∅) = (Ok tt, st')
    ∧ fs st' !! "deck.pdf"%string = Some (File (Pdf []))
    ∧ log st' = [MergeOk "deck.pdf"].
Proof.
  destruct (merge_of_nothing_writes_an_empty_document all_ok_env []
              "deck.pdf" (init ∅)) as (st' & Hrun & Hfs & Hlog).
  - reflexivity.
  - intros t c _; reflexivity.
  - constructor.
  - vm_compute. discriminate.
  - exists st'. split; [exact Hrun|]. split; [|exact Hlog].
    rewrite Hfs. apply lookup_insert_eq.
Defined.

Lemma append_all_damaged E files : ∀ merger st f n,
  f ∈ files → fs st !! f = Some n → (∀ ps, n ≠ File (Pdf ps)) →
  ∃ e tr, run (append_all E files merger) st = (Raise e, set_trace tr st).
Proof.
  induction files as [|f0 rest IH]; intros merger st f n Hin Hf Hn.
  - by apply elem_of_nil in Hin.
  - simpl. unfold_model. simpl.
    destruct (fs st !! f0) as [n0|] eqn:Hf0; simpl.
    + exec_step; [|by eexists _, _].
      rewrite Hf0. destruct n0 as [|[|ps|]]; try (by eexists _, _).
      apply elem_of_cons in Hin as [->|Hin].
      { rewrite Hf0 in Hf. injection Hf as <-. by destruct (Hn ps). }
      destruct (IH (merger ++ ps)
                  (set_trace (CMergerAppend f0 :: trace st) st) f n Hin Hf Hn)
        as (e & tr & Hrun).
      unfold run in Hrun. rewrite Hrun. by exists e, tr.
    + apply elem_of_cons in Hin as [->|Hin]; [congruence|].
      by eapply IH.
Qed.

(** X10: a listed file that exists but is no page document (a directory, a
    file cut short, anything else) makes the merge give up before it opens
    the output: the failure is logged, the merge returns normally and no
    file is touched. *)
Theorem merge_gives_up_on_a_damaged_input E pdf_files output_path st f n :
  PYPDF2_INSTALLED E = true →
  f ∈ pdf_files → fs st !! f = Some n → (∀ ps, n ≠ File (Pdf ps)) →
  ∃ st' e,
    run (_merge_pdfs E pdf_files output_path) st = (Ok tt, st')
    ∧ fs st' = fs st
    ∧ log st' = MergeFailed e :: log st.
Proof.
  intros Hpy Hin Hf Hn.
  destruct (append_all_damaged E pdf_files [] st f n Hin Hf Hn)
    as (e & tr & Hrun).
  destruct (append_all_spec E pdf_files [] st) as (r & tr' & Hrun' & _ & He).
  rewrite Hrun in Hrun'. injection Hrun' as <- _.
  unfold run in Hrun.
  unfold run, _merge_pdfs, try_except, import_PyPDF2, mbind, M_bind.
  rewrite Hpy. simpl. unfold mret, M_ret. rewrite Hrun.
  destruct (He e eq_refl) as [f' [-> | ->]]; simpl; by eexists _, _.
Qed.

Lemma merge_gives_up_on_a_damaged_input_witness :
  ∃ st' e,
    run (_merge_pdfs all_ok_env
           [ "out/slide_1.pdf"; "out/slide_2.pdf"; "out/slide_3.pdf" ]%string
           "deck.pdf") (init deck_with_damage) = (Ok tt, st')
    ∧ fs st' = fs (init deck_with_damage)
    ∧ log st' = MergeFailed e :: log (init deck_with_damage).
Proof.
  apply (merge_gives_up_on_a_damaged_input all_ok_env _ "deck.pdf"
           (init deck_with_damage) "out/slide_2.pdf" (File Truncated)).
  - reflexivity.
  - apply list_elem_of_further, list_elem_of_here.
  - vm_compute. reflexivity.
  - intros ps. discriminate.
Defined.

(** ** The batch: nothing to merge, and what stays on disk *)

Lemma convert_makes_no_merge_call E html pdf st :
  ∃ new, trace (run (convert_html_to_pdf E html pdf) st).2 = new ++ trace st
         ∧ Forall (λ c, is_merge_call c = false) new.
Proof. exec; simpl; solve_new_calls. Qed.

Lemma render_loop_makes_no_merge_call E out htmls : ∀ i acc st,
  ∃ new, trace (run (render_loop E out i htmls acc) st).2 = new ++ trace st
         ∧ Forall (λ c, is_merge_call c = false) new.
Proof.
  induction htmls as [|h rest IH]; intros i acc st.
  - by exists [].
  - destruct (convert_makes_no_merge_call E h (slide_path out i) st)
      as (new1 & Htr1 & Hnew1).
    destruct (convert_spec E h (slide_path out i) st)
      as (b & st1 & Hrun & _).
    rewrite Hrun in Htr1. simpl in Htr1.
    cbn [render_loop]. unfold run, mbind, M_bind in *.
    fold (slide_path out i). rewrite Hrun.
    destruct b.
    + destruct (IH (S i) (acc ++ [slide_path out i]) st1)
        as (new2 & Htr2 & Hnew2).
      exists (new2 ++ new1). rewrite Htr2, Htr1, app_assoc.
      split; [done|]. by apply Forall_app.
    + unfold logger, modify.
      destruct (IH (S i) acc (set_log (JobFailed h :: log st1) st1))
        as (new2 & Htr2 & Hnew2).
      exists (new2 ++ new1). rewrite Htr2. simpl. rewrite Htr1, app_assoc.
      split; [done|]. by apply Forall_app.
Qed.

Lemma select_none {A} (flags : list bool) : ∀ xs : list A,
  Forall (λ b, b = false) flags → select flags xs = [].
Proof.
  induction flags as [|b flags IH]; intros [|x xs] Hall; simpl; try done.
  apply Forall_cons in Hall as [-> Hall]. by apply IH.
Qed.

(** X11: when no job renders successfully (in particular when the list of
    HTML files is empty) the batch returns the empty list also when a
    merged path is given: the merge library is not called and the merged
    path is not opened.  Only the teardown can still raise; its exception
    is then what the caller sees. *)
Theorem batch_without_success_merges_nothing E htmls out merged st st1 st2 :
  run (os_makedirs E out) st = (Ok tt, st1) →
  run (start_browser E) st1 = (Ok tt, st2) →
  Forall (λ b, b = false) (job_outcomes E out 0 htmls st2) →
  ∃ r st',
    run (convert_multiple_html_to_pdf E htmls out merged) st = (r, st')
    ∧ (r = Ok [] ∨ ∃ c, r = Raise (EngineError c) ∧ is_teardown_call c = true)
    ∧ ((∀ t c, is_teardown_call c = true → oracle E t c = true) → r = Ok [])
    ∧ ∃ new, trace st' = new ++ trace st2
             ∧ Forall (λ c, is_merge_call c = false) new.
Proof.
  intros Hmk Hstart Hnone.
  destruct (render_loop_spec E out htmls 0 [] st2) as (st3 & Hloop & _).
  simpl in Hloop. rewrite (select_none _ _ Hnone) in Hloop.
  destruct (render_loop_makes_no_merge_call E out htmls 0 [] st2)
    as (new1 & Htr1 & Hnew1).
  rewrite Hloop in Htr1. simpl in Htr1.
  destruct (close_browser_spec E st3)
    as (r & st4 & Hclose & _ & _ & (new2 & Htr2 & Hnew2) & _ & _
        & Hraise & Hok).
  assert (Hbody : run (batch_body E htmls out merged) st1 = (Ok [], st3)).
  { eapply batch_body_no_merge; [exact Hstart|exact Hloop|].
    by rewrite andb_false_r. }
  assert (Htr : ∃ new, trace st4 = new ++ trace st2
                       ∧ Forall (λ c, is_merge_call c = false) new).
  { exists (new2 ++ new1). rewrite Htr2, Htr1, app_assoc. split; [done|].
    apply Forall_app. split; [|done].
    eapply Forall_impl; [exact Hnew2|]. intros c Hc. by destruct c. }
  rewrite (batch_unfold _ _ _ _ _ _ Hmk).
  destruct r as [[]|e].
  - exists (Ok []), st4. split; [by eapply finally_ok|].
    split; [by left|]. by split.
  - destruct (Hraise e eq_refl) as (c & -> & Hc & _).
    exists (Raise (EngineError c)), st4. split; [by eapply finally_raise|].
    split; [right; by exists c|].
    split; [intros Hor; by specialize (Hok Hor)|done].
Qed.

Lemma batch_without_success_merges_nothing_witness :
  ∃ st',
    run (convert_multiple_html_to_pdf all_ok_env three_slides "out"
           (Some "deck.pdf"%string)) (init three_missing) = (Ok [], st')
    ∧ ∃ new, trace st' = new ++ [CLaunch 0 true launch_args; CPlaywrightStart;
                                 CMakedirs "out"]
             ∧ Forall (λ c, is_merge_call c = false) new.
Proof.
  pose (st1 := (run (os_makedirs all_ok_env "out") (init three_missing)).2).
  pose (st2 := (run (start_browser all_ok_env) st1).2).
  destruct (batch_without_success_merges_nothing all_ok_env three_slides "out"
              (Some "deck.pdf"%string) (init three_missing) st1 st2)
    as (r & st' & Hrun & _ & Hok & Htr).
  - vm_compute; reflexivity.
  - vm_compute; reflexivity.
  - assert (Hflags : job_outcomes all_ok_env "out" 0 three_slides st2
                     = [false; false; false]) by (vm_compute; reflexivity).
    rewrite Hflags. by repeat constructor.
  - exists st'. rewrite Hok in Hrun by (intros t c _; reflexivity).
    split; [exact Hrun|]. exact Htr.
Defined.




(** * The configuration *)

(** ** Configuration keys *)

Lemma str_split_nonempty sep s : str_split sep s ≠ [].
Proof.
  destruct s as [|c s]; simpl; [done|].
  destruct (Ascii.eqb c sep); [done|]. by destruct (str_split sep s).
Qed.

Lemma split_keys key :
  str_split dot key
  = parent_keys key ++ [List.last (str_split dot key) EmptyString].
Proof.
  unfold parent_keys. apply app_removelast_last, str_split_nonempty.
Qed.

Lemma set_loop_empty keys last_key value :
  (Config.set_loop keys last_key value (JDict ∅)).1 = Config.Returned.
Proof.
  induction keys as [|k keys IH]; simpl; [done|].
  rewrite lookup_empty.
  destruct (Config.set_loop keys last_key value (JDict ∅)) as [r0 c0].
  simpl in *. done.
Qed.

Lemma set_loop_failed keys last_key value : ∀ config,
  (Config.set_loop keys last_key value config).1 = Config.TypeError →
  (Config.set_loop keys last_key value config).2 = config.
Proof.
  induction keys as [|k keys IH]; intros config; simpl.
  - by destruct config.
  - destruct config; try done.
    destruct (d !! k) as [child|] eqn:Hk.
    + specialize (IH child).
      destruct (Config.set_loop keys last_key value child) as [r child'].
      simpl in *. intros Hr. rewrite (IH Hr). by rewrite insert_id.
    + pose proof (set_loop_empty keys last_key value) as He.
      destruct (Config.set_loop keys last_key value (JDict ∅)) as [r0 c0];
        simpl in *.
      congruence.
Qed.

Lemma set_loop_blocked keys last_key value : ∀ config,
  (Config.set_loop keys last_key value config).1 = Config.TypeError
  ↔ ∃ p j, p `prefix_of` keys ∧ json_at p config = Some j ∧ is_dict j = false.
Proof.
  induction keys as [|k keys IH]; intros config; simpl.
  - split.
    + intros Hr. exists [], config. split; [done|]. split; [done|].
      by destruct config.
    + intros (p & j & Hp & Hj & Hd). apply prefix_nil_inv in Hp as ->.
      simpl in Hj. injection Hj as <-. by destruct config.
  - destruct config as [| | | | | |d].
    1-6: simpl; split; [|done]; intros _; eexists [], _;
      (split; [apply prefix_nil|]); split; reflexivity.
    destruct (d !! k) as [child|] eqn:Hk.
    + specialize (IH child).
      destruct (Config.set_loop keys last_key value child) as [r child'].
      simpl in *. rewrite IH. split.
      * intros (p & j & Hp & Hj & Hd). exists (k :: p), j.
        split; [by apply prefix_cons|]. simpl. by rewrite Hk.
      * intros (p & j & Hp & Hj & Hd).
        destruct p as [|k' p]; [simpl in Hj; by injection Hj as <-|].
        apply prefix_cons_inv_1 in Hp as Hkk. subst k'.
        apply prefix_cons_inv_2 in Hp. simpl in Hj. rewrite Hk in Hj.
        eexists p, _. split; [exact Hp|]. split; [exact Hj|exact Hd].
    + pose proof (set_loop_empty keys last_key value) as He.
      destruct (Config.set_loop keys last_key value (JDict ∅)) as [r0 c0];
        simpl in *.
      split; [congruence|].
      intros (p & j & Hp & Hj & Hd).
      destruct p as [|k' p]; [simpl in Hj; by injection Hj as <-|].
      apply prefix_cons_inv_1 in Hp as Hkk. subst k'.
      simpl in Hj. by rewrite Hk in Hj.
Qed.

Lemma get_after_set_loop keys last_key value default : ∀ config config',
  Config.set_loop keys last_key value config = (Config.Returned, config') →
  Config.get_loop (keys ++ [last_key]) config' default = value.
Proof.
  induction keys as [|k keys IH]; intros config config'; simpl.
  - destruct config; try done. intros [= <-]. by rewrite lookup_insert_eq.
  - destruct config as [| | | | | |d]; try done.
    destruct (d !! k) as [child|] eqn:Hk.
    + destruct (Config.set_loop keys last_key value child) as [r child'] eqn:Hs.
      intros [= -> <-]. rewrite lookup_insert_eq. by eapply IH.
    + destruct (Config.set_loop keys last_key value (JDict ∅))
        as [r child'] eqn:Hs.
      intros [= -> <-]. rewrite lookup_insert_eq. by eapply IH.
Qed.

Lemma get_loop_empty keys default :
  keys ≠ [] → Config.get_loop keys (JDict ∅) default = default.
Proof. destruct keys; [done|]. intros _. simpl. by rewrite lookup_empty. Qed.

(** A successful [set] along [p ++ k1 :: r1] changes nothing that is read
    along [p ++ k2 :: r2]. *)
Lemma get_other_after_set_loop value default k1 k2 r2 (p : list string) :
  ∀ keys last_key config config' r1,
  keys ++ [last_key] = p ++ k1 :: r1 → k1 ≠ k2 →
  Config.set_loop keys last_key value config = (Config.Returned, config') →
  Config.get_loop (p ++ k2 :: r2) config' default
  = Config.get_loop (p ++ k2 :: r2) config default.
Proof.
  induction p as [|k0 p IH]; intros keys last_key config config' r1 Hkeys Hne.
  - simpl in *. destruct keys as [|k keys]; simpl in *.
    + injection Hkeys as -> <-.
      destruct config; try done. intros [= <-]. by rewrite lookup_insert_ne.
    + injection Hkeys as -> Hr.
      destruct config as [| | | | | |d]; try done.
      destruct (d !! k1) as [child|] eqn:Hk.
      * destruct (Config.set_loop keys last_key value child) as [r child'].
        intros [= -> <-]. by rewrite lookup_insert_ne.
      * destruct (Config.set_loop keys last_key value (JDict ∅))
          as [r child'].
        intros [= -> <-]. by rewrite lookup_insert_ne.
  - destruct keys as [|k keys]; simpl in Hkeys.
    { injection Hkeys as _ Hp. by destruct p. }
    injection Hkeys as -> Hkeys. simpl.
    destruct config as [| | | | | |d]; try done.
    destruct (d !! k0) as [child|] eqn:Hk.
    + destruct (Config.set_loop keys last_key value child) as [r child'] eqn:Hs.
      intros [= -> <-]. rewrite lookup_insert_eq. by eapply IH.
    + destruct (Config.set_loop keys last_key value (JDict ∅))
        as [r child'] eqn:Hs.
      intros [= -> <-]. rewrite lookup_insert_eq.
      erewrite IH by done. apply get_loop_empty. by destruct p.
Qed.

(** X13: a value stored with [Config.set] under a dotted key is what
    [Config.get] returns for that key afterwards, whatever the default
    asked for, also when the value is null and when the dicts on the way
    had to be created. *)
Theorem set_then_get config_data key value config_data' default :
  Config.set config_data key value = (Config.Returned, config_data') →
  Config.get config_data' key default = value.
Proof.
  unfold Config.set, Config.get. intros Hset.
  rewrite split_keys. by eapply get_after_set_loop.
Qed.

Lemma set_then_get_witness :
  Config.set default_config "output.merge_pdfs" (JBool false)
  = (Config.Returned, unmerged_config)
  ∧ Config.get unmerged_config "output.merge_pdfs" (JBool true) = JBool false.
Proof.
  assert (H : Config.set default_config "output.merge_pdfs" (JBool false)
              = (Config.Returned, unmerged_config))
    by (vm_compute; reflexivity).
  split; [exact H|].
  exact (set_then_get default_config "output.merge_pdfs" (JBool false)
           unmerged_config (JBool true) H).
Defined.

(** X14: [Config.set] raises (a [TypeError]) exactly when the keys before
    the last one lead, at some point, to a value that is there and is no
    dict (or the configuration itself is no dict): it creates what is
    missing but never replaces a value on the way.  When it raises, the
    configuration is what it was. *)
Theorem set_fails_only_across_a_non_dict config_data key value :
  ((Config.set config_data key value).1 = Config.TypeError
   ↔ ∃ p j, p `prefix_of` parent_keys key
            ∧ json_at p config_data = Some j ∧ is_dict j = false)
  ∧ ((Config.set config_data key value).1 = Config.TypeError →
     (Config.set config_data key value).2 = config_data).
Proof.
  unfold Config.set. split.
  - apply set_loop_blocked.
  - apply set_loop_failed.
Qed.

(** X15: a [Config.set] that returned has changed nothing that is read
    under a key which leaves the path of the key set at some point. *)
Theorem set_leaves_other_keys config_data key value config_data' key' default
    p k1 r1 k2 r2 :
  Config.set config_data key value = (Config.Returned, config_data') →
  str_split dot key = p ++ k1 :: r1 →
  str_split dot key' = p ++ k2 :: r2 →
  k1 ≠ k2 →
  Config.get config_data' key' default = Config.get config_data key' default.
Proof.
  unfold Config.set, Config.get. intros Hset Hk Hk' Hne. rewrite Hk'.
  eapply get_other_after_set_loop; [|exact Hne|exact Hset].
  rewrite <- Hk. symmetry. apply split_keys.
Qed.

Lemma set_leaves_other_keys_witness :
  Config.set default_config "output.merge_pdfs" (JBool false)
  = (Config.Returned, unmerged_config)
  ∧ str_split dot "output.merge_pdfs" = ["output"] ++ "merge_pdfs" :: []
  ∧ str_split dot "output.cleanup_temp_files"
    = ["output"] ++ "cleanup_temp_files" :: []
  ∧ "merge_pdfs" ≠ "cleanup_temp_files"
  ∧ Config.get unmerged_config "output.cleanup_temp_files" JNull
    = Config.get default_config "output.cleanup_temp_files" JNull.
Proof.
  assert (H : Config.set default_config "output.merge_pdfs" (JBool false)
              = (Config.Returned, unmerged_config))
    by (vm_compute; reflexivity).
  assert (H1 : str_split dot "output.merge_pdfs"
               = ["output"] ++ "merge_pdfs" :: [])
    by (vm_compute; reflexivity).
  assert (H2 : str_split dot "output.cleanup_temp_files"
               = ["output"] ++ "cleanup_temp_files" :: [])
    by (vm_compute; reflexivity).
  assert (H3 : "merge_pdfs" ≠ "cleanup_temp_files") by discriminate.
  split; [exact H|]. split; [exact H1|]. split; [exact H2|].
  split; [exact H3|].
  exact (set_leaves_other_keys default_config "output.merge_pdfs"
           (JBool false) unmerged_config "output.cleanup_temp_files" JNull
           ["output"] "merge_pdfs" [] "cleanup_temp_files" [] H H1 H2 H3).
Defined.

(** * The driver *)

(** ** Paths of the driver *)

Lemma string_app_cons c (a b : string) :
  (String c a +:+ b = String c (a +:+ b))%string.
Proof. reflexivity. Qed.

Lemma string_app_nil (b : string) : (EmptyString +:+ b = b)%string.
Proof. reflexivity. Qed.

Lemma string_app_assoc (a b c : string) :
  (a +:+ (b +:+ c) = (a +:+ b) +:+ c)%string.
Proof.
  induction a as [|x a IH]; [done|]. rewrite !string_app_cons. by f_equal.
Qed.

Lemma str_split_app sep (a b : string) :
  str_split sep (a +:+ String sep b) = str_split sep a ++ str_split sep b.
Proof.
  induction a as [|c a IH]; rewrite ?string_app_cons, ?string_app_nil; simpl.
  - by rewrite Ascii.eqb_refl.
  - destruct (Ascii.eqb c sep); [by rewrite IH|].
    rewrite IH. pose proof (str_split_nonempty sep a).
    by destruct (str_split sep a).
Qed.

Lemma path_parts_app (a b : string) :
  path_parts (a +:+ "/" +:+ b) = path_parts a ++ path_parts b.
Proof.
  unfold path_parts. rewrite <- filter_app. f_equal.
  exact (str_split_app slash a b).
Qed.

Lemma path_parts_empty : path_parts EmptyString = [].
Proof. reflexivity. Qed.

Lemma endswith_sep_inv (p : string) :
  endswith_sep p = true → ∃ p', p = (p' +:+ "/")%string.
Proof.
  induction p as [|c p IH]; [done|]. simpl. destruct p as [|c' p].
  - intros Hc. apply Ascii.eqb_eq in Hc as ->. by exists EmptyString.
  - intros Hp. destruct (IH Hp) as [p' ->]. by exists (String c p').
Qed.

Lemma leading_seps_app_l (a b : string) :
  startswith_sep b = false → leading_seps (a +:+ b) = leading_seps a.
Proof.
  intros Hb. induction a as [|c a IH];
    rewrite ?string_app_cons, ?string_app_nil; simpl.
  - destruct b as [|c b]; [done|]. simpl in *. unfold slash. by rewrite Hb.
  - by rewrite IH.
Qed.

Lemma leading_seps_app_r (a b : string) :
  a ≠ EmptyString → endswith_sep a = false →
  leading_seps (a +:+ b) = leading_seps a.
Proof.
  induction a as [|c a IH]; [done|]. intros _.
  rewrite string_app_cons. simpl. destruct a as [|c' a].
  - unfold slash. by intros ->.
  - intros Ha. by rewrite IH.
Qed.

Lemma parts_of_join (p name : string) :
  startswith_sep name = false →
  path_parts (os_path_join p name) = path_parts p ++ path_parts name
  ∧ path_root (os_path_join p name) = path_root p.
Proof.
  intros Hn. unfold os_path_join, path_root. rewrite Hn.
  destruct p as [|c p].
  { simpl. split; [done|].
    by rewrite (leading_seps_app_l EmptyString name Hn). }
  destruct (endswith_sep (String c p)) eqn:He.
  - destruct (endswith_sep_inv _ He) as [p' Hp]. rewrite Hp. split.
    + rewrite <- string_app_assoc.
      change (p' +:+ "/")%string with (p' +:+ "/" +:+ "")%string.
      rewrite !path_parts_app, path_parts_empty, app_nil_r. done.
    + by rewrite leading_seps_app_l.
  - split.
    + by rewrite path_parts_app.
    + rewrite leading_seps_app_r; done.
Qed.

Lemma join_parts_app (a b : list string) :
  b ≠ [] → join_parts (a ++ b) = (slashed a +:+ join_parts b)%string.
Proof.
  intros Hb. induction a as [|x a IH]; [done|].
  cbn [app]. destruct (a ++ b) as [|y l] eqn:Hab.
  { by apply app_eq_nil in Hab as [_ ?]. }
  change (join_parts (x :: y :: l))
    with (x +:+ "/" +:+ join_parts (y :: l))%string.
  rewrite IH. cbn [slashed foldr]. by rewrite <- !string_app_assoc.
Qed.

Lemma truediv_relative (p name : string) :
  startswith_sep name = false → path_parts name ≠ [] →
  truediv p name = (dir_prefix p +:+ join_parts (path_parts name))%string.
Proof.
  intros Hn Hparts. unfold truediv, Path, dir_prefix.
  destruct (parts_of_join p name Hn) as [-> ->].
  rewrite <- string_app_assoc, <- join_parts_app by done.
  remember (path_parts p ++ path_parts name) as l eqn:Hl.
  destruct l as [|y l].
  { symmetry in Hl. by apply app_eq_nil in Hl as [_ ?]. }
  by destruct (path_root p).
Qed.

Lemma prefix_app_same (a b c : string) :
  String.prefix (a +:+ b) (a +:+ c) = String.prefix b c.
Proof.
  induction a as [|x a IH]; [done|]. rewrite !string_app_cons. simpl.
  by destruct (Ascii.ascii_dec x x).
Qed.

Lemma endswith_sep_app (a : string) c b :
  endswith_sep (a +:+ String c b) = endswith_sep (String c b).
Proof.
  induction a as [|x a IH]; [done|]. rewrite string_app_cons.
  change (endswith_sep (String x (a +:+ String c b)))
    with (match (a +:+ String c b)%string with
          | EmptyString => Ascii.eqb x (Ascii.ascii_of_nat 47)
          | String _ _ => endswith_sep (a +:+ String c b)
          end).
  rewrite IH. destruct a; by rewrite ?string_app_cons, ?string_app_nil.
Qed.

Lemma str_split_head sep c (s : string) :
  Ascii.eqb c sep = false →
  ∃ h t, str_split sep (String c s) = String c h :: t.
Proof.
  intros Hc. simpl. rewrite Hc. pose proof (str_split_nonempty sep s).
  destruct (str_split sep s) as [|h t]; [done|]. by exists h, t.
Qed.

Lemma join_parts_head c h (t : list string) :
  ∃ y, join_parts (String c h :: t) = String c y.
Proof. destruct t; simpl; eauto. Qed.

(** The temporary directory and the output document of a run with output
    directory [od] and timestamp [ts]. *)
Lemma temp_pdf_dir_eq (od : string) :
  truediv od "temp_pdfs" = (dir_prefix od +:+ "temp_pdfs")%string.
Proof. by rewrite truediv_relative. Qed.

Lemma out_path_eq (od ts : string) :
  ∃ y, truediv od ("presentation_" +:+ ts +:+ ".pdf")
       = (dir_prefix od +:+ "p" +:+ y)%string.
Proof.
  destruct (str_split_head slash (Ascii.ascii_of_nat 112)
              ("resentation_" +:+ ts +:+ ".pdf"))
    as (h & t & Hs); [done|].
  assert (Hparts : ∃ t', path_parts ("presentation_" +:+ ts +:+ ".pdf")
                         = String (Ascii.ascii_of_nat 112) h :: t').
  { unfold path_parts.
    change ("presentation_" +:+ ts +:+ ".pdf")%string
      with (String (Ascii.ascii_of_nat 112)
                   ("resentation_" +:+ ts +:+ ".pdf")).
    rewrite Hs. rewrite filter_cons_True by (split; by destruct h).
    by eexists. }
  destruct Hparts as [t' Hparts].
  destruct (join_parts_head (Ascii.ascii_of_nat 112) h t') as [y Hy].
  exists y. rewrite truediv_relative; [|done|by rewrite Hparts].
  by rewrite Hparts, Hy.
Qed.

Lemma slide_path_in_temp (od : string) i :
  slide_path (truediv od "temp_pdfs") i
  = (truediv od "temp_pdfs" +:+ "/" +:+ pdf_filename i)%string.
Proof.
  rewrite temp_pdf_dir_eq. unfold slide_path, os_path_join.
  change (startswith_sep (pdf_filename i)) with false. cbv iota.
  change (dir_prefix od +:+ "temp_pdfs")%string
    with (dir_prefix od +:+ String (Ascii.ascii_of_nat 116) "emp_pdfs")%string.
  rewrite endswith_sep_app.
  by destruct (dir_prefix od).
Qed.

Lemma slide_under_temp (od : string) i :
  under (truediv od "temp_pdfs") (slide_path (truediv od "temp_pdfs") i)
  = true.
Proof.
  rewrite slide_path_in_temp. unfold under.
  rewrite string_app_assoc.
  generalize (truediv od "temp_pdfs" +:+ "/")%string. intros a.
  induction a as [|x a IH]; [done|]. rewrite string_app_cons. simpl.
  by destruct (Ascii.ascii_dec x x).
Qed.

Lemma out_not_under_temp (od ts : string) :
  under (truediv od "temp_pdfs")
        (truediv od ("presentation_" +:+ ts +:+ ".pdf")) = false
  ∧ truediv od ("presentation_" +:+ ts +:+ ".pdf") ≠ truediv od "temp_pdfs"
  ∧ (∀ n, truediv od ("presentation_" +:+ ts +:+ ".pdf")
          ∉ slide_paths (truediv od "temp_pdfs") 0 n)
  ∧ truediv od ("presentation_" +:+ ts +:+ ".pdf") ≠ EmptyString.
Proof.
  destruct (out_path_eq od ts) as [y Hy]. rewrite Hy.
  split; [|split; [|split]].
  - unfold under. rewrite temp_pdf_dir_eq, <- string_app_assoc.
    by rewrite prefix_app_same.
  - rewrite temp_pdf_dir_eq. intros H. by apply String.app_inj in H.
  - intros n Hin. unfold slide_paths in Hin.
    apply list_elem_of_fmap in Hin as (i & Hi & _).
    rewrite slide_path_in_temp, temp_pdf_dir_eq, <- string_app_assoc in Hi.
    by apply String.app_inj in Hi.
  - destruct (dir_prefix od); by rewrite ?string_app_cons, ?string_app_nil.
Qed.

(** *** A path that was parsed once *)

Lemma str_split_pieces sep (s : string) :
  Forall (λ p, str_split sep p = [p]) (str_split sep s).
Proof.
  induction s as [|c s IH]; simpl; [by repeat constructor|].
  destruct (Ascii.eqb c sep) eqn:Hc; [by constructor|].
  pose proof (str_split_nonempty sep s).
  destruct (str_split sep s) as [|h t]; [done|].
  apply Forall_cons in IH as [Hh Ht]. constructor; [|done].
  simpl. by rewrite Hc, Hh.
Qed.

Lemma path_parts_pieces (s : string) :
  Forall (λ p, str_split slash p = [p] ∧ p ≠ EmptyString ∧ p ≠ "."%string)
         (path_parts s).
Proof.
  unfold path_parts. apply Forall_forall. intros p Hp.
  apply list_elem_of_filter in Hp as [[? ?] Hp]. split; [|done].
  pose proof (str_split_pieces slash s) as Hall.
  rewrite Forall_forall in Hall. by apply Hall.
Qed.

Lemma piece_no_sep (p : string) :
  str_split slash p = [p] → p ≠ EmptyString → startswith_sep p = false.
Proof.
  destruct p as [|c p]; [done|]. intros Hs _. simpl in *. unfold slash in Hs.
  by destruct (Ascii.eqb c (Ascii.ascii_of_nat 47)).
Qed.

Lemma str_split_join (ps : list string) :
  Forall (λ p, str_split slash p = [p]) ps → ps ≠ [] →
  str_split slash (join_parts ps) = ps.
Proof.
  induction ps as [|p ps IH]; [done|]. intros [Hp Hps]%Forall_cons _.
  destruct ps as [|q ps]; [done|].
  change (join_parts (p :: q :: ps))
    with (p +:+ String slash (join_parts (q :: ps)))%string.
  rewrite str_split_app, Hp, IH; done.
Qed.

Lemma filter_parts_id (ps : list string) :
  Forall (λ p, str_split slash p = [p] ∧ p ≠ EmptyString ∧ p ≠ "."%string) ps →
  filter (λ p, p ≠ EmptyString ∧ p ≠ "."%string) ps = ps.
Proof.
  induction 1 as [|p ps (_ & ? & ?) _ IH]; [done|].
  by rewrite filter_cons_True, IH.
Qed.

Lemma join_parts_relative (ps : list string) :
  Forall (λ p, str_split slash p = [p] ∧ p ≠ EmptyString ∧ p ≠ "."%string) ps →
  startswith_sep (join_parts ps) = false.
Proof.
  destruct 1 as [|p ps (Hp & Hne & _) _]; [done|].
  pose proof (piece_no_sep p Hp Hne) as Hs.
  destruct ps; [done|]. destruct p; [done|]. done.
Qed.

Lemma path_root_cases (s : string) :
  path_root s = EmptyString ∨ path_root s = "/"%string
  ∨ path_root s = "//"%string.
Proof.
  unfold path_root. destruct (leading_seps s) as [|[|[|n]]]; auto.
Qed.

(** Parsing [str(Path(s))] gives the root and the components of [s]. *)
Lemma Path_parsed (s : string) :
  path_root (Path s) = path_root s ∧ path_parts (Path s) = path_parts s.
Proof.
  pose proof (path_parts_pieces s) as Hps.
  unfold Path.
  assert (Hgen : path_root (path_root s +:+ join_parts (path_parts s))
                 = path_root s
                 ∧ (path_parts s ≠ [] ∨ path_root s ≠ EmptyString →
                    path_parts (path_root s +:+ join_parts (path_parts s))
                    = path_parts s)).
  { split.
    - unfold path_root at 1.
      rewrite leading_seps_app_l by by apply join_parts_relative.
      destruct (path_root_cases s) as [->|[-> | ->]]; done.
    - intros Hne. destruct (path_parts s) as [|p ps] eqn:Hparts.
      + destruct Hne as [|Hne]; [done|].
        destruct (path_root_cases s) as [->|[-> | ->]]; done.
      + assert (Hsplit : str_split slash (join_parts (p :: ps)) = p :: ps).
        { apply str_split_join; [|done].
          eapply Forall_impl; [exact Hps|]. by intros ? [? _]. }
        unfold path_parts at 1.
        destruct (path_root_cases s) as [->|[-> | ->]].
        * rewrite string_app_nil, Hsplit. by apply filter_parts_id.
        * change ("/" +:+ join_parts (p :: ps))%string
            with (EmptyString +:+ String slash (join_parts (p :: ps)))%string.
          rewrite str_split_app, Hsplit. simpl.
          rewrite filter_cons_False by (by intros [? _]).
          by apply filter_parts_id.
        * change ("//" +:+ join_parts (p :: ps))%string
            with (EmptyString +:+ String slash
                    (EmptyString
                     +:+ String slash (join_parts (p :: ps))))%string.
          rewrite !str_split_app, Hsplit. simpl.
          rewrite !filter_cons_False by (by intros [? _]).
          by apply filter_parts_id. }
  destruct Hgen as [Hroot Hparts].
  destruct (path_root s) eqn:Hr.
  - destruct (path_parts s) eqn:Hp; [done|].
    split; [exact Hroot|]. apply Hparts. by left.
  - split; [exact Hroot|]. apply Hparts. by right.
Qed.

Lemma slashed_length (ps : list string) :
  ps ≠ [] →
  String.length (slashed ps) = S (String.length (join_parts ps)).
Proof.
  induction ps as [|p ps IH]; [done|]. intros _.
  destruct ps as [|q ps].
  - simpl. rewrite !string_app_length. simpl. lia.
  - change (join_parts (p :: q :: ps))
      with (p +:+ "/" +:+ join_parts (q :: ps))%string.
    change (slashed (p :: q :: ps))
      with (p +:+ "/" +:+ slashed (q :: ps))%string.
    rewrite !string_app_length, IH by done. done.
Qed.

(** Nothing put below a directory is the directory itself. *)
Lemma below_is_not_the_directory (s w : string) :
  w ≠ EmptyString → w ≠ "."%string →
  (dir_prefix (Path s) +:+ w)%string ≠ Path s.
Proof.
  intros Hw Hdot. unfold dir_prefix.
  destruct (Path_parsed s) as [-> ->]. unfold Path.
  destruct (path_parts s) as [|p ps] eqn:Hparts.
  - simpl. destruct (path_root s) eqn:Hr; simpl.
    + by rewrite string_app_nil.
    + intros H. apply (f_equal String.length) in H.
      rewrite !string_app_length in H. simpl in H.
      destruct w; [done|]. simpl in H. lia.
  - intros H.
    assert (Hlen : String.length
                     ((path_root s +:+ slashed (p :: ps)) +:+ w)
                   > String.length (path_root s +:+ join_parts (p :: ps))).
    { rewrite !string_app_length, slashed_length by done. lia. }
    destruct (path_root s); rewrite H in Hlen; lia.
Qed.

(** ** Steps of the driver *)

Ltac unfold_app :=
  unfold run_app, cleanup_temp_files, shutil_rmtree, path_mkdir, path_exists,
    datetime_now_strftime, sys_call, Path_of, truediv_operand,
    on_pdf_converter, app_logger, app_try_finally, app_try_except,
    app_modify, app_get, app_raise, mbind, mret, MApp_bind, MApp_ret in *.

Lemma app_bind_done {A B} (m : MApp A) (f : A → MApp B) s b s' :
  run_app (m ≫= f) s = (Done b, s') →
  ∃ a s1, run_app m s = (Done a, s1) ∧ run_app (f a) s1 = (Done b, s').
Proof.
  unfold run_app, mbind, MApp_bind.
  destruct (m s) as [[a|e] s1] eqn:Hm; [|done].
  intros H. by exists a, s1.
Qed.

Lemma app_finally_done {A} (m : MApp A) fin s b s' :
  run_app (app_try_finally m fin) s = (Done b, s') →
  ∃ s1, run_app m s = (Done b, s1) ∧ run_app fin s1 = (Done tt, s').
Proof.
  unfold run_app, app_try_finally. destruct (m s) as [r s1].
  destruct (fin s1) as [[[]|e] s2] eqn:Hfin; [|done].
  intros [= -> <-]. by exists s1.
Qed.

Lemma app_bind_run {A B} (m : MApp A) (f : A → MApp B) s a s1 :
  run_app m s = (Done a, s1) → run_app (m ≫= f) s = run_app (f a) s1.
Proof. unfold run_app, mbind, MApp_bind. by intros ->. Qed.

Lemma app_finally_run {A} (m : MApp A) fin s r s1 s2 :
  run_app m s = (r, s1) → run_app fin s1 = (Done tt, s2) →
  run_app (app_try_finally m fin) s = (r, s2).
Proof. unfold run_app, app_try_finally. by intros -> ->. Qed.

(** [mkdir] touches one path, and nothing but the files. *)
Lemma path_mkdir_spec AE p s :
  ∃ r s', run_app (path_mkdir AE p) s = (r, s')
    ∧ config_data s' = config_data s
    ∧ app_log s' = app_log s
    ∧ pdf_converter s' = set_fs (fs (pdf_converter s')) (pdf_converter s)
    ∧ (∀ q, q ≠ p → fs (pdf_converter s') !! q = fs (pdf_converter s) !! q)
    ∧ (r = Done tt → fs (pdf_converter s') !! p = Some Dir)
    ∧ ((∀ t c, sys_oracle AE t c = true) →
       (∀ c, fs (pdf_converter s) !! p ≠ Some (File c)) → r = Done tt).
Proof.
  unfold_app. simpl.
  destruct (sys_oracle AE (length (app_trace s)) (CMkdir p)) eqn:Hor; simpl.
  - destruct (fs (pdf_converter s) !! p) as [[|c]|] eqn:Hp; simpl.
    all: eexists _, _; split; [reflexivity|]; simpl.
    all: split; [done|]; split; [done|].
    all: split; [by destruct (pdf_converter s)|].
    all: split; [intros q Hq; by rewrite ?lookup_insert_ne|].
    all: split; [intros Hr; try done; by rewrite ?lookup_insert_eq|].
    all: intros _ Hf; try done. by destruct (Hf c).
  - eexists _, _; split; [reflexivity|]; simpl.
    split; [done|]. split; [done|]. split; [by destruct (pdf_converter s)|].
    split; [done|]. split; [done|]. intros Hall. by rewrite Hall in Hor.
Qed.

(** The cleanup never raises, touches nothing outside the temporary
    directory, and nothing but the files. *)
Lemma cleanup_spec AE temp s :
  ∃ s', run_app (cleanup_temp_files AE temp) s = (Done tt, s')
    ∧ config_data s' = config_data s
    ∧ pdf_converter s' = set_fs (fs (pdf_converter s')) (pdf_converter s)
    ∧ (∀ q, q ≠ temp → under temp q = false →
         fs (pdf_converter s') !! q = fs (pdf_converter s) !! q)
    ∧ (json_truthy (Config.should_cleanup_temp_files (config_data s)) = true →
       (∀ t c, sys_oracle AE t c = true) →
       fs (pdf_converter s) !! temp = Some Dir →
       fs (pdf_converter s') !! temp = None
       ∧ ∀ q, under temp q = true → fs (pdf_converter s') !! q = None).
Proof.
  unfold_app. simpl.
  destruct (json_truthy (Config.should_cleanup_temp_files (config_data s)))
    eqn:Hclean; simpl.
  2:{ exists s. split; [done|]. split; [done|].
      split; [by destruct (pdf_converter s)|]. split; [done|]. done. }
  destruct (fs (pdf_converter s) !! temp) as [n|] eqn:Htemp; simpl.
  2:{ exists s. split; [done|]. split; [done|].
      split; [by destruct (pdf_converter s)|]. split; [done|]. done. }
  destruct (sys_oracle AE (length (app_trace s)) (CRmtree temp)) eqn:Hor; simpl.
  - rewrite Htemp. destruct n as [|c]; simpl.
    + eexists; split; [reflexivity|]; simpl.
      split; [done|]. split; [by destruct (pdf_converter s)|].
      split.
      { intros q Hq Hu. destruct (fs (pdf_converter s) !! q) as [n|] eqn:Hfq.
        - by apply map_lookup_filter_Some.
        - apply map_lookup_filter_None. by left. }
      intros _ _ _. split.
      * apply map_lookup_filter_None. right. intros n _ [Hne _]. done.
      * intros q Hq. apply map_lookup_filter_None. right.
        intros n _ [_ Hu]. simpl in Hu. congruence.
    + eexists; split; [reflexivity|]; simpl.
      split; [done|]. split; [by destruct (pdf_converter s)|].
      split; [done|]. done.
  - eexists; split; [reflexivity|]; simpl.
    split; [done|]. split; [by destruct (pdf_converter s)|].
    split; [done|]. intros _ Hall. by rewrite Hall in Hor.
Qed.

(** ** Finding the slides *)

Lemma scan_slides_spec dir : ∀ n i acc s,
  ∃ k, k ≤ n
    ∧ run_app (scan_slides dir i n acc) s
      = (Done (acc ++ map (slide_html dir) (seq i k)), s)
    ∧ (∀ j, i ≤ j < i + k →
         is_Some (fs (pdf_converter s) !! slide_html dir j))
    ∧ (k < n → fs (pdf_converter s) !! slide_html dir (i + k) = None).
Proof.
  induction n as [|n IH]; intros i acc s.
  - exists 0. split; [done|]. simpl. rewrite app_nil_r.
    split; [done|]. split; intros; lia.
  - simpl. unfold_app. fold (slide_html dir i).
    destruct (fs (pdf_converter s) !! slide_html dir i) as [nd|] eqn:Hi; simpl.
    + destruct (IH (S i) (acc ++ [slide_html dir i]) s)
        as (k & Hk & Hrun & Hex & Hgap).
      exists (S k). split; [lia|]. unfold run_app in Hrun. rewrite Hrun.
      split; [by rewrite <- app_assoc|]. split.
      * intros j Hj. destruct (decide (j = i)) as [->|Hne]; [by eexists|].
        apply Hex. lia.
      * intros Hlt. replace (i + S k) with (S i + k) by lia. apply Hgap. lia.
    + exists 0. simpl. rewrite app_nil_r, Nat.add_0_r.
      split; [lia|]. split; [done|]. split; [intros; lia|done].
Qed.

(** X16: when the slides directory holds [slide_1.html],
    [find_html_files] returns the numbered slides [slide_1.html] ..
    [slide_n.html], in this order, up to the first number that is missing
    (or up to 999): numbered slides after a gap, the index file and every
    other HTML file are left out.  It changes no file. *)
Theorem numbered_slides_stop_at_the_first_gap AE s d :
  Config.slides_input_dir (config_data s) = JStr d →
  is_Some (fs (pdf_converter s) !! Path d) →
  is_Some (fs (pdf_converter s) !! slide_html (Path d) 1) →
  ∃ n s',
    1 ≤ n ≤ 999
    ∧ run_app (find_html_files AE) s
      = (Done (map (slide_html (Path d)) (seq 1 n)), s')
    ∧ fs (pdf_converter s') = fs (pdf_converter s)
    ∧ (∀ i, 1 ≤ i ≤ n →
         is_Some (fs (pdf_converter s) !! slide_html (Path d) i))
    ∧ (n < 999 → fs (pdf_converter s) !! slide_html (Path d) (S n) = None).
Proof.
  intros Hd [nd Hdir] [n1 Hone].
  destruct (scan_slides_spec (Path d) 999 1 [] s)
    as (k & Hk & Hscan & Hex & Hgap).
  assert (Hk1 : 1 ≤ k).
  { destruct k; [|lia]. specialize (Hgap ltac:(lia)). simpl in Hgap.
    congruence. }
  exists k. eexists. split; [lia|]. split.
  - unfold find_html_files.
    rewrite (app_bind_run _ _ s s s) by done. rewrite Hd.
    rewrite (app_bind_run _ _ s (Path d) s) by done.
    rewrite (app_bind_run _ _ s true s)
      by (unfold run_app, path_exists; by rewrite Hdir).
    cbn [negb]. rewrite (app_bind_run _ _ _ _ _ Hscan). simpl.
    rewrite bool_decide_eq_false_2.
    2:{ destruct k; [lia|done]. }
    simpl. unfold_app. reflexivity.
  - simpl. split; [done|]. split.
    + intros i Hi. apply Hex. lia.
    + intros Hlt. by apply Hgap.
Qed.

Lemma numbered_slides_stop_at_the_first_gap_witness :
  Config.slides_input_dir (config_data (app_init default_config slides_deck))
  = JStr "slides"
  ∧ is_Some (fs (pdf_converter (app_init default_config slides_deck))
               !! Path "slides")
  ∧ is_Some (fs (pdf_converter (app_init default_config slides_deck))
               !! slide_html (Path "slides") 1)
  ∧ ∃ n s',
      1 ≤ n ≤ 999
      ∧ run_app (find_html_files (app_env all_ok_env))
                (app_init default_config slides_deck)
        = (Done (map (slide_html (Path "slides")) (seq 1 n)), s')
      ∧ fs (pdf_converter s')
        = fs (pdf_converter (app_init default_config slides_deck))
      ∧ (∀ i, 1 ≤ i ≤ n →
           is_Some (fs (pdf_converter (app_init default_config slides_deck))
                      !! slide_html (Path "slides") i))
      ∧ (n < 999 →
         fs (pdf_converter (app_init default_config slides_deck))
           !! slide_html (Path "slides") (S n) = None).
Proof.
  assert (H1 : Config.slides_input_dir
                 (config_data (app_init default_config slides_deck))
               = JStr "slides") by (vm_compute; reflexivity).
  assert (H2 : is_Some (fs (pdf_converter (app_init default_config slides_deck))
                          !! Path "slides")) by (vm_compute; eauto).
  assert (H3 : is_Some (fs (pdf_converter (app_init default_config slides_deck))
                          !! slide_html (Path "slides") 1))
    by (vm_compute; eauto).
  split; [exact H1|]. split; [exact H2|]. split; [exact H3|].
  exact (numbered_slides_stop_at_the_first_gap (app_env all_ok_env)
           (app_init default_config slides_deck) "slides" H1 H2 H3).
Defined.

(** ** Rendering the deck *)

(** What [convert_to_pdf] has done when it gets to its [try]: the output
    directory is a str, and both directories are there. *)
Lemma convert_to_pdf_done AE h rest s r s' :
  run_app (convert_to_pdf AE (h :: rest)) s = (Done r, s') →
  ∃ od s1 s2,
    Config.output_dir (config_data s) = JStr od
    ∧ config_data s1 = config_data s
    ∧ (∀ q, q ≠ Path od → q ≠ temp_dir_of od →
         fs (pdf_converter s1) !! q = fs (pdf_converter s) !! q)
    ∧ pdf_converter s1 = set_fs (fs (pdf_converter s1)) (pdf_converter s)
    ∧ fs (pdf_converter s1) !! temp_dir_of od = Some Dir
    ∧ run_app (render_deck AE (h :: rest) h (Path od) (temp_dir_of od)) s1
      = (Done r, s2)
    ∧ run_app (cleanup_temp_files AE (temp_dir_of od)) s2 = (Done tt, s').
Proof.
  unfold convert_to_pdf. intros Hrun.
  apply app_bind_done in Hrun as (s0 & s0' & [= <- <-] & Hrun).
  apply app_bind_done in Hrun as (out & s0 & Hpath & Hrun).
  destruct (Config.output_dir (config_data s)) as [| | | |od| |] eqn:Hod;
    try discriminate.
  injection Hpath as <- <-.
  apply app_bind_done in Hrun as ([] & sa & Hmk1 & Hrun).
  apply app_bind_done in Hrun as ([] & sb & Hmk2 & Hrun).
  apply app_finally_done in Hrun as (sc & Hbody & Hfin).
  destruct (path_mkdir_spec AE (Path od) s)
    as (r1 & sa' & Hmk1' & Hc1 & _ & Hst1 & Hfs1 & _).
  rewrite Hmk1 in Hmk1'. injection Hmk1' as <- <-.
  destruct (path_mkdir_spec AE (truediv (Path od) "temp_pdfs") sa)
    as (r2 & sb' & Hmk2' & Hc2 & _ & Hst2 & Hfs2 & Hdir2 & _).
  rewrite Hmk2 in Hmk2'. injection Hmk2' as <- <-.
  exists od, sb, sc. split; [done|]. split; [congruence|].
  split; [intros q Hq1 Hq2; by rewrite Hfs2, Hfs1|].
  split; [rewrite Hst2, Hst1; by destruct (pdf_converter s)|].
  split; [by apply Hdir2|]. done.
Qed.

(** The single-document branch of the [try]. *)
Lemma render_deck_single AE hs h out temp s p s1 :
  json_truthy (Config.should_merge_pdfs (config_data s))
  && bool_decide (1 < length hs) = false →
  run_app (render_deck AE hs h out temp) s = (Done (Some p), s1) →
  (∃ ts, p = truediv out ("presentation_" +:+ ts +:+ ".pdf"))
  ∧ config_data s1 = config_data s
  ∧ run (convert_html_to_pdf (pdf_env AE) h p) (pdf_converter s)
    = (Ok true, pdf_converter s1).
Proof.
  intros Hcond. unfold render_deck, run_app, run. unfold_app. rewrite Hcond.
  destruct (convert_html_to_pdf _ _ _ _) as [[[]|e] st'] eqn:Hconv;
    simpl; intros [= <- <-]; simpl.
  split; [by eexists|]. done.
Qed.




Lemma convert_true_holds_browser E html pdf st st' :
  run (convert_html_to_pdf E html pdf) st = (Ok true, st') →
  is_Some (self_browser st').
Proof.
  exec.
  all: try (intros [=]; fail).
  all: intros [= <-]; simpl.
  all: by eexists.
Qed.

Lemma convert_true_session E html pdf st st' :
  session_inv E st →
  run (convert_html_to_pdf E html pdf) st = (Ok true, st') →
  ∃ br, self_browser st' = Some br ∧ browsers st' = {[br]}.
Proof.
  intros Hinv Hrun.
  destruct (convert_spec E html pdf st) as (b & st1 & Hrun' & _ & _ & _ & Hi).
  rewrite Hrun in Hrun'. injection Hrun' as <- <-.
  specialize (Hi Hinv). destruct Hi as (Hbs & _ & _).
  destruct (convert_true_holds_browser _ _ _ _ _ Hrun) as [br Hbr].
  exists br. split; [done|]. by rewrite Hbs, Hbr.
Qed.

(** The batch branch of the [try]. *)
Lemma render_deck_batch AE hs h out temp s r s1 :
  json_truthy (Config.should_merge_pdfs (config_data s))
  && bool_decide (1 < length hs) = true →
  run_app (render_deck AE hs h out temp) s = (Done r, s1) →
  ∃ ts files,
    run (convert_multiple_html_to_pdf (pdf_env AE) hs temp
           (Some (truediv out ("presentation_" +:+ ts +:+ ".pdf"))))
        (pdf_converter s)
    = (Ok files, pdf_converter s1)
    ∧ config_data s1 = config_data s
    ∧ (∀ p, r = Some p →
         p = truediv out ("presentation_" +:+ ts +:+ ".pdf")
         ∧ files ≠ [] ∧ is_Some (fs (pdf_converter s1) !! p)).
Proof.
  intros Hcond. unfold render_deck, run_app, run. unfold_app. rewrite Hcond.
  destruct (convert_multiple_html_to_pdf _ _ _ _ _) as [[files|e] st'] eqn:Hb;
    simpl; [|done].
  destruct (bool_decide (files = [])) eqn:Hnil; simpl.
  - intros [= <- <-]. eexists _, files. split; [done|]. split; [done|]. done.
  - apply bool_decide_eq_false in Hnil.
    destruct (fs st' !! _) as [n|] eqn:Hm; simpl; intros [= <- <-]; simpl.
    + eexists _, files. split; [done|]. split; [done|].
      intros p [= <-]. split; [done|]. split; [done|]. by eexists.
    + eexists _, files. split; [done|]. split; [done|]. done.
Qed.

(** X18: a deck run in batch mode ends with the browser closed; a run
    that renders a single document (merging switched off, or one file)
    and returns it leaves the browser of the shared converter running:
    nothing in the driver closes it. *)
Theorem browser_after_a_deck_run AE s h rest r s' :
  session_inv (pdf_env AE) (pdf_converter s) →
  run_app (convert_to_pdf AE (h :: rest)) s = (Done r, s') →
  if json_truthy (Config.should_merge_pdfs (config_data s))
     && bool_decide (1 < length (h :: rest))
  then self_browser (pdf_converter s') = None
       ∧ browsers (pdf_converter s') = ∅
  else r ≠ None →
       ∃ br, self_browser (pdf_converter s') = Some br
             ∧ browsers (pdf_converter s') = {[br]}.
Proof.
  intros Hinv Hrun.
  apply convert_to_pdf_done in Hrun
    as (od & s1 & s2 & Hod & Hcfg & _ & Hst1 & _ & Hbody & Hfin).
  assert (Hinv1 : session_inv (pdf_env AE) (pdf_converter s1)).
  { rewrite Hst1. exact Hinv. }
  destruct (cleanup_spec AE (temp_dir_of od) s2)
    as (s'' & Hfin' & _ & Hst' & _).
  rewrite Hfin in Hfin'. injection Hfin' as <-.
  rewrite <- Hcfg.
  destruct (json_truthy (Config.should_merge_pdfs (config_data s1))
            && bool_decide (1 < length (h :: rest))) eqn:Hcond;
    rewrite Hst'; simpl.
  - apply render_deck_batch in Hbody as (ts & files & Hbatch & _); [|done].
    destruct (batch_session (pdf_env AE) (h :: rest) (temp_dir_of od)
                (Some (truediv (Path od) ("presentation_" +:+ ts +:+ ".pdf")))
                (pdf_converter s1) Hinv1) as (r' & st' & Hbatch' & _ & Hend).
    rewrite Hbatch in Hbatch'. injection Hbatch' as <- <-.
    destruct Hend as (? & _ & ? & _). done.
  - intros Hr. destruct r as [p|]; [|done].
    apply render_deck_single in Hbody as (_ & _ & Hconv); [|done].
    by eapply convert_true_session.
Qed.

Lemma browser_after_a_deck_run_witness :
  session_inv all_ok_env (pdf_converter (app_init unmerged_config slides_deck))
  ∧ run_app (convert_to_pdf (app_env all_ok_env) deck_files)
            (app_init unmerged_config slides_deck)
    = (Done (Some "output/presentation_20240101_120000.pdf"),
       unmerged_run_state)
  ∧ ∃ br, self_browser (pdf_converter unmerged_run_state) = Some br
          ∧ browsers (pdf_converter unmerged_run_state) = {[br]}.
Proof.
  assert (H1 : session_inv all_ok_env
                 (pdf_converter (app_init unmerged_config slides_deck)))
    by (apply reachable_session_inv, reach_init).
  assert (H2 : run_app (convert_to_pdf (app_env all_ok_env) deck_files)
                       (app_init unmerged_config slides_deck)
               = (Done (Some "output/presentation_20240101_120000.pdf"),
                  unmerged_run_state))
    by (vm_compute; reflexivity).
  split; [exact H1|]. split; [exact H2|].
  pose proof (browser_after_a_deck_run (app_env all_ok_env)
                (app_init unmerged_config slides_deck) "slides/slide_1.html"
                ["slides/slide_2.html"; "slides/slide_3.html"] _ _ H1 H2) as H.
  assert (Hc : json_truthy (Config.should_merge_pdfs (config_data
                 (app_init unmerged_config slides_deck))) = false)
    by (vm_compute; reflexivity).
  rewrite Hc in H. apply H. discriminate.
Defined.

(** ** A run in which nothing fails *)

Lemma os_makedirs_ok E d st :
  (∀ t c, oracle E t c = true) →
  (∀ c, fs st !! d ≠ Some (File c)) →
  ∃ st', run (os_makedirs E d) st = (Ok tt, st').
Proof.
  intros Hor Hf. exec_with Hor.
  all: try by eexists.
  by destruct (Hf c).
Qed.

Lemma start_browser_ok E st :
  PLAYWRIGHT_AVAILABLE E = true →
  (∀ t c, oracle E t c = true) →
  ∃ st', run (start_browser E) st = (Ok tt, st').
Proof.
  intros Hav Hor. unfold_model. simpl. rewrite Hav. simpl. exec_with Hor.
  all: by eexists.
Qed.

Lemma render_ok E html pdf st :
  PLAYWRIGHT_AVAILABLE E = true →
  (∀ t c, oracle E t c = true) →
  is_Some (fs st !! html) →
  fs st !! pdf ≠ Some Dir →
  ∃ st', run (convert_html_to_pdf E html pdf) st = (Ok true, st').
Proof.
  intros Hav Hor [n Hsrc] Hdir.
  unfold_model. simpl. rewrite Hsrc, Hav. simpl. exec_with Hor.
  all: try done.
  all: by eexists.
Qed.

Lemma job_outcomes_all_ok E out htmls : ∀ i st,
  PLAYWRIGHT_AVAILABLE E = true →
  (∀ t c, oracle E t c = true) →
  Forall (λ h, is_Some (fs st !! h)) htmls →
  (∀ k, fs st !! slide_path out k ≠ Some Dir) →
  job_outcomes E out i htmls st = replicate (length htmls) true.
Proof.
  induction htmls as [|h rest IH]; intros i st Hav Hor Hall Hdir; [done|].
  apply Forall_cons in Hall as [Hh Hrest].
  destruct (render_ok E h (slide_path out i) st Hav Hor Hh (Hdir i))
    as [st' Hrun].
  destruct (convert_spec E h (slide_path out i) st)
    as (b & st'' & Hrun' & Hfs & Hfile & _).
  rewrite Hrun in Hrun'. injection Hrun' as <- <-.
  simpl. rewrite Hrun. f_equal. apply IH; [done|done| |].
  - eapply Forall_impl; [exact Hrest|]. intros h' Hh'. simpl in Hh'.
    destruct (decide (h' = slide_path out i)) as [->|Hne].
    + rewrite Hfile by done. by eexists.
    + by rewrite Hfs.
  - intros k. destruct (decide (slide_path out k = slide_path out i))
      as [->|Hne].
    + by rewrite Hfile.
    + by rewrite Hfs.
Qed.

Lemma select_all {A} (xs : list A) n :
  n = length xs → select (replicate n true) xs = xs.
Proof.
  intros ->. induction xs as [|x xs IH]; [done|]. simpl. by rewrite IH.
Qed.

Lemma slide_path_longer out k :
  String.length out < String.length (slide_path out k).
Proof.
  unfold slide_path, os_path_join.
  change (startswith_sep (pdf_filename k)) with false. cbv iota.
  unfold pdf_filename.
  destruct out; [|destruct (endswith_sep _)];
    rewrite !string_app_length; simpl; lia.
Qed.

Lemma slide_path_ne_dir out k : slide_path out k ≠ out.
Proof.
  intros H. pose proof (slide_path_longer out k) as Hl. rewrite H in Hl. lia.
Qed.

(** A batch in which nothing fails: every slide is rendered, the merged
    artifact holds all of them in order, and nothing else changes but the
    output directory and the per-slide files. *)
Lemma batch_all_ok E htmls out m st :
  PLAYWRIGHT_AVAILABLE E = true →
  PYPDF2_INSTALLED E = true →
  (∀ t c, oracle E t c = true) →
  htmls ≠ [] →
  Forall (λ h, is_Some (fs st !! h)) htmls →
  (∀ c, fs st !! out ≠ Some (File c)) →
  (∀ k, fs st !! slide_path out k ≠ Some Dir) →
  m ≠ EmptyString → m ≠ out →
  m ∉ slide_paths out 0 (length htmls) →
  fs st !! m ≠ Some Dir →
  ∃ st', run (convert_multiple_html_to_pdf E htmls out (Some m)) st
         = (Ok [m], st')
    ∧ fs st' !! m = Some (File (Pdf (concat (map (doc_of E) htmls))))
    ∧ fs st' !! out = Some Dir
    ∧ (∀ q, q ≠ m → q ≠ out → q ∉ slide_paths out 0 (length htmls) →
         fs st' !! q = fs st !! q).
Proof.
  intros Hav Hpy Hor Hne Hall Hout Hdir Hm Hmo Hms Hmd.
  destruct (os_makedirs_ok E out st Hor Hout) as [st1 Hmk].
  destruct (os_makedirs_spec E out st)
    as (r0 & st1' & Hmk' & _ & _ & _ & Hfs1 & _ & Hdir1 & _).
  rewrite Hmk in Hmk'. injection Hmk' as <- <-.
  specialize (Hdir1 eq_refl).
  destruct (start_browser_ok E st1 Hav Hor) as [st2 Hstart].
  destruct (start_browser_spec E st1) as (r1 & st2' & Hs & Hfs2 & _).
  rewrite Hstart in Hs. injection Hs as <- <-.
  assert (Hflags : job_outcomes E out 0 htmls st2
                   = replicate (length htmls) true).
  { apply job_outcomes_all_ok; [done|done| |].
    - eapply Forall_impl; [exact Hall|]. intros h Hh. simpl in Hh.
      rewrite Hfs2. destruct (decide (h = out)) as [->|Hho].
      + rewrite Hdir1. by eexists.
      + by rewrite Hfs1.
    - intros k. rewrite Hfs2, Hfs1 by apply slide_path_ne_dir. apply Hdir. }
  destruct (render_loop_spec E out htmls 0 [] st2)
    as (st3 & Hloop & Hlen & Hfs3 & _ & _ & Hok & _).
  simpl in Hloop. rewrite Hflags in Hloop, Hok.
  rewrite select_all in Hloop by (by rewrite slide_paths_length).
  destruct (pages_of_selected (fs st3) (doc_of E)
              (replicate (length htmls) true)
              (slide_paths out 0 (length htmls)) htmls) as [Hpages Hallp].
  { apply slide_paths_length. }
  { intros k p h Hf Hp Hh. apply slide_paths_lookup in Hp as ->.
    by apply (Hok k h). }
  rewrite !select_all in Hpages
    by (by rewrite ?slide_paths_length, ?length_map).
  rewrite select_all in Hallp by (by rewrite slide_paths_length).
  assert (Hdir3 : fs st3 !! m ≠ Some Dir).
  { rewrite Hfs3 by done. by rewrite Hfs2, Hfs1. }
  destruct (merge_ok E _ m st3 Hpy (λ t c _, Hor t c) Hallp Hdir3)
    as (st4 & Hmerge & _ & Hfs4 & _).
  destruct (close_browser_spec E st4)
    as (r & st5 & Hclose & Hfs5 & _ & _ & _ & _ & _ & Hok5).
  rewrite (Hok5 (λ t c _, Hor t c)) in Hclose.
  assert (Hpaths : slide_paths out 0 (length htmls) ≠ []).
  { intros Hnil. apply (f_equal length) in Hnil.
    rewrite slide_paths_length in Hnil. by destruct htmls. }
  assert (Hbody : run (batch_body E htmls out (Some m)) st1 = (Ok [m], st4)).
  { rewrite (batch_body_merge _ _ _ _ _ _ _ _ Hstart Hloop Hm Hpaths).
    by rewrite Hmerge. }
  exists st5. split.
  { rewrite (batch_unfold _ _ _ _ _ _ Hmk). by eapply finally_ok. }
  rewrite Hfs5, Hfs4. split; [by rewrite lookup_insert_eq, Hpages|].
  split.
  - rewrite lookup_insert_ne by done.
    rewrite Hfs3 by (intros Hin; unfold slide_paths in Hin;
                     apply list_elem_of_fmap in Hin as (k & Hk & _);
                     symmetry in Hk; by apply slide_path_ne_dir in Hk).
    by rewrite Hfs2.
  - intros q Hqm Hqo Hqs. rewrite lookup_insert_ne by done.
    rewrite Hfs3 by done. by rewrite Hfs2, Hfs1.
Qed.
(** X20: a deck run in which nothing fails.  With merging and cleanup
    switched on, at least two HTML files that all exist, every library
    installed, no call raising and nothing in the way of the directories
    and files the run creates, [convert_to_pdf] returns
    [<output>/presentation_<timestamp>.pdf]; that file holds the captured
    pages of every HTML file, in the order of the list, and the
    temporary directory with the per-slide documents is gone. *)
Theorem clean_run_merges_every_slide AE s hs od :
  PLAYWRIGHT_AVAILABLE (pdf_env AE) = true →
  PYPDF2_INSTALLED (pdf_env AE) = true →
  (∀ t c, oracle (pdf_env AE) t c = true) →
  (∀ t c, sys_oracle AE t c = true) →
  Config.output_dir (config_data s) = JStr od →
  json_truthy (Config.should_merge_pdfs (config_data s)) = true →
  json_truthy (Config.should_cleanup_temp_files (config_data s)) = true →
  1 < length hs →
  Forall (λ h, is_Some (fs (pdf_converter s) !! h)) hs →
  (∀ c, fs (pdf_converter s) !! Path od ≠ Some (File c)) →
  (∀ c, fs (pdf_converter s) !! temp_dir_of od ≠ Some (File c)) →
  (∀ k, fs (pdf_converter s) !! slide_path (temp_dir_of od) k ≠ Some Dir) →
  (∀ ts, fs (pdf_converter s) !! out_path_of od ts ≠ Some Dir) →
  ∃ ts s',
    run_app (convert_to_pdf AE hs) s = (Done (Some (out_path_of od ts)), s')
    ∧ fs (pdf_converter s') !! out_path_of od ts
      = Some (File (Pdf (concat (map (doc_of (pdf_env AE)) hs))))
    ∧ fs (pdf_converter s') !! temp_dir_of od = None
    ∧ (∀ q, under (temp_dir_of od) q = true →
         fs (pdf_converter s') !! q = None).
Proof.
  intros Hav Hpy Hor Hsys Hod Hmerge Hclean Hlen Hall Ho1 Ho2 Ho3 Ho4.
  destruct hs as [|h rest]; [simpl in Hlen; lia|].
  set (temp := temp_dir_of od) in *.
  (* the two directories *)
  destruct (path_mkdir_spec AE (Path od) s)
    as (r1 & s1 & Hmk1 & Hc1 & _ & Hst1 & Hfs1 & Hdir1 & Hok1).
  rewrite (Hok1 Hsys Ho1) in Hmk1. specialize (Hdir1 (Hok1 Hsys Ho1)).
  assert (Htemp_od : temp ≠ Path od).
  { unfold temp, temp_dir_of. rewrite temp_pdf_dir_eq.
    by apply below_is_not_the_directory. }
  destruct (path_mkdir_spec AE temp s1)
    as (r2 & s2 & Hmk2 & Hc2 & _ & Hst2 & Hfs2 & Hdir2 & Hok2).
  assert (Ho2' : ∀ c, fs (pdf_converter s1) !! temp ≠ Some (File c)).
  { intros c. rewrite Hfs1 by done. apply Ho2. }
  rewrite (Hok2 Hsys Ho2') in Hmk2. specialize (Hdir2 (Hok2 Hsys Ho2')).
  (* the batch *)
  set (ts := strftime_now AE (length (app_trace s2))).
  set (m := out_path_of od ts).
  destruct (out_not_under_temp (Path od) ts) as (Hu & Hmt & Hms & Hm).
  fold (out_path_of od ts) in Hu, Hmt, Hms, Hm. fold m in Hu, Hmt, Hms, Hm.
  fold (temp_dir_of od) in Hu, Hmt, Hms. fold temp in Hu, Hmt, Hms.
  assert (Hm_od : m ≠ Path od).
  { unfold m, out_path_of. destruct (out_path_eq (Path od) ts) as [y ->].
    change ("p" +:+ y)%string with (String (Ascii.ascii_of_nat 112) y).
    by apply below_is_not_the_directory. }
  assert (Hslide_od : ∀ k, slide_path temp k ≠ Path od).
  { intros k. unfold temp, temp_dir_of.
    rewrite slide_path_in_temp, temp_pdf_dir_eq, <- string_app_assoc.
    change ("temp_pdfs" +:+ "/" +:+ pdf_filename k)%string
      with (String (Ascii.ascii_of_nat 116)
                   ("emp_pdfs" +:+ "/" +:+ pdf_filename k))%string.
    by apply below_is_not_the_directory. }
  destruct (batch_all_ok (pdf_env AE) (h :: rest) temp m (pdf_converter s2))
    as (st3 & Hbatch & Hfile & Htdir & Hframe); try done.
  { eapply Forall_impl; [exact Hall|]. intros h' [n Hh']. simpl.
    destruct (decide (h' = temp)) as [->|Hne1]; [by eexists|].
    rewrite Hfs2 by done.
    destruct (decide (h' = Path od)) as [->|Hne2]; [by eexists|].
    rewrite Hfs1 by done. by eexists. }
  { intros c. by rewrite Hdir2. }
  { intros k. rewrite Hfs2 by apply slide_path_ne_dir.
    rewrite Hfs1 by done. apply Ho3. }
  { rewrite Hfs2, Hfs1 by done. apply Ho4. }
  (* the cleanup *)
  set (s3 := set_app_log (MergedPdfDone m :: app_log s2)
               (set_pdf_converter st3 s2)).
  destruct (cleanup_spec AE temp s3)
    as (s4 & Hfin & _ & _ & Hkeep & Hgone).
  destruct Hgone as [Hgone1 Hgone2]; [simpl; congruence|done|done|].
  exists ts, s4. split.
  - unfold convert_to_pdf.
    rewrite (app_bind_run _ _ s s s) by done.
    rewrite Hod. rewrite (app_bind_run _ _ s (Path od) s) by done.
    rewrite (app_bind_run _ _ _ _ _ Hmk1).
    fold (temp_dir_of od). fold temp.
    rewrite (app_bind_run _ _ _ _ _ Hmk2).
    eapply app_finally_run; [|exact Hfin].
    unfold render_deck, run_app. unfold_app.
    replace (config_data s2) with (config_data s) by congruence.
    rewrite Hmerge. rewrite bool_decide_eq_true_2 by done. simpl.
    fold ts. fold (out_path_of od ts). fold m.
    unfold run in Hbatch. rewrite Hbatch. simpl. rewrite Hfile. done.
  - split; [|done]. rewrite Hkeep by done. exact Hfile.
Qed.

Lemma clean_run_merges_every_slide_witness :
  PLAYWRIGHT_AVAILABLE (pdf_env (app_env all_ok_env)) = true
  ∧ PYPDF2_INSTALLED (pdf_env (app_env all_ok_env)) = true
  ∧ (∀ t c, oracle (pdf_env (app_env all_ok_env)) t c = true)
  ∧ (∀ t c, sys_oracle (app_env all_ok_env) t c = true)
  ∧ Config.output_dir (config_data (app_init default_config slides_deck))
    = JStr "output"
  ∧ json_truthy (Config.should_merge_pdfs
      (config_data (app_init default_config slides_deck))) = true
  ∧ json_truthy (Config.should_cleanup_temp_files
      (config_data (app_init default_config slides_deck))) = true
  ∧ 1 < length deck_files
  ∧ Forall (λ h, is_Some (fs (pdf_converter
                                (app_init default_config slides_deck)) !! h))
           deck_files
  ∧ (∀ c, fs (pdf_converter (app_init default_config slides_deck))
            !! Path "output" ≠ Some (File c))
  ∧ (∀ c, fs (pdf_converter (app_init default_config slides_deck))
            !! temp_dir_of "output" ≠ Some (File c))
  ∧ (∀ k, fs (pdf_converter (app_init default_config slides_deck))
            !! slide_path (temp_dir_of "output") k ≠ Some Dir)
  ∧ (∀ ts, fs (pdf_converter (app_init default_config slides_deck))
             !! out_path_of "output" ts ≠ Some Dir)
  ∧ ∃ ts s',
      run_app (convert_to_pdf (app_env all_ok_env) deck_files)
              (app_init default_config slides_deck)
      = (Done (Some (out_path_of "output" ts)), s')
      ∧ fs (pdf_converter s') !! out_path_of "output" ts
        = Some (File (Pdf (concat (map (doc_of (pdf_env (app_env all_ok_env)))
                                       deck_files))))
      ∧ fs (pdf_converter s') !! temp_dir_of "output" = None
      ∧ (∀ q, under (temp_dir_of "output") q = true →
           fs (pdf_converter s') !! q = None).
Proof.
  assert (Hdirs : ∀ q, fs (pdf_converter (app_init default_config slides_deck))
                         !! q = Some Dir → q = "slides"%string).
  { intros q. change (fs (pdf_converter (app_init default_config slides_deck)))
      with slides_deck.
    unfold slides_deck. cbn [list_to_map foldr curry fst snd].
    rewrite !lookup_insert_Some, lookup_empty. intuition congruence. }
  assert (H1 : PLAYWRIGHT_AVAILABLE (pdf_env (app_env all_ok_env)) = true)
    by reflexivity.
  assert (H2 : PYPDF2_INSTALLED (pdf_env (app_env all_ok_env)) = true)
    by reflexivity.
  assert (H3 : ∀ t c, oracle (pdf_env (app_env all_ok_env)) t c = true)
    by reflexivity.
  assert (H4 : ∀ t c, sys_oracle (app_env all_ok_env) t c = true)
    by reflexivity.
  assert (H5 : Config.output_dir
                 (config_data (app_init default_config slides_deck))
               = JStr "output") by (vm_compute; reflexivity).
  assert (H6 : json_truthy (Config.should_merge_pdfs
                 (config_data (app_init default_config slides_deck))) = true)
    by (vm_compute; reflexivity).
  assert (H7 : json_truthy (Config.should_cleanup_temp_files
                 (config_data (app_init default_config slides_deck))) = true)
    by (vm_compute; reflexivity).
  assert (H8 : 1 < length deck_files) by (simpl; lia).
  assert (H9 : Forall (λ h, is_Some (fs (pdf_converter
                 (app_init default_config slides_deck)) !! h)) deck_files).
  { unfold deck_files. repeat apply Forall_cons_2; [..|apply Forall_nil_2].
    all: vm_compute; eauto. }
  assert (H10 : ∀ c, fs (pdf_converter (app_init default_config slides_deck))
                       !! Path "output" ≠ Some (File c))
    by (intros c; vm_compute; discriminate).
  assert (H11 : ∀ c, fs (pdf_converter (app_init default_config slides_deck))
                       !! temp_dir_of "output" ≠ Some (File c))
    by (intros c; vm_compute; discriminate).
  assert (H12 : ∀ k, fs (pdf_converter (app_init default_config slides_deck))
                       !! slide_path (temp_dir_of "output") k ≠ Some Dir).
  { intros k Hk. apply Hdirs in Hk. unfold temp_dir_of in Hk.
    rewrite slide_path_in_temp in Hk.
    change (truediv (Path "output") "temp_pdfs")
      with "output/temp_pdfs"%string in Hk.
    rewrite string_app_cons in Hk. discriminate. }
  assert (H13 : ∀ ts, fs (pdf_converter (app_init default_config slides_deck))
                        !! out_path_of "output" ts ≠ Some Dir).
  { intros ts Hts. apply Hdirs in Hts. unfold out_path_of in Hts.
    destruct (out_path_eq (Path "output") ts) as [y Hy]. rewrite Hy in Hts.
    change (dir_prefix (Path "output")) with "output/"%string in Hts.
    rewrite string_app_cons in Hts. discriminate. }
  repeat (split; [assumption|]).
  exact (clean_run_merges_every_slide (app_env all_ok_env)
           (app_init default_config slides_deck) deck_files "output"
           H1 H2 H3 H4 H5 H6 H7 H8 H9 H10 H11 H12 H13).
Defined.

(** ** A run in which only the write of the merge fails *)

Lemma no_merge_call_is_no_write c :
  is_merge_call c = false → ∀ p, c ≠ CMergerWrite p.
Proof. by destruct c. Qed.

Lemma os_makedirs_willing E d st :
  (∀ t c, is_merge_call c = false → oracle E t c = true) →
  (∀ c, fs st !! d ≠ Some (File c)) →
  ∃ st', run (os_makedirs E d) st = (Ok tt, st').
Proof.
  intros Hor Hf. exec_with Hor.
  all: try by eexists.
  by destruct (Hf c).
Qed.

Lemma start_browser_willing E st :
  PLAYWRIGHT_AVAILABLE E = true →
  (∀ t c, is_merge_call c = false → oracle E t c = true) →
  ∃ st', run (start_browser E) st = (Ok tt, st').
Proof.
  intros Hav Hor. unfold_model. simpl. rewrite Hav. simpl. exec_with Hor.
  all: by eexists.
Qed.

Lemma render_willing E html pdf st :
  PLAYWRIGHT_AVAILABLE E = true →
  (∀ t c, is_merge_call c = false → oracle E t c = true) →
  is_Some (fs st !! html) →
  fs st !! pdf ≠ Some Dir →
  ∃ st', run (convert_html_to_pdf E html pdf) st = (Ok true, st').
Proof.
  intros Hav Hor [n Hsrc] Hdir.
  unfold_model. simpl. rewrite Hsrc, Hav. simpl. exec_with Hor.
  all: try done.
  all: by eexists.
Qed.

Lemma missing_source_run E html pdf st :
  fs st !! html = None →
  run (convert_html_to_pdf E html pdf) st
  = (Ok false, set_log (HtmlMissing html :: log st) st).
Proof. intros Hsrc. unfold_model. simpl. by rewrite Hsrc. Qed.

(** With the engine willing, a batch over a list in which some source
    exists renders at least one job. *)
Lemma some_job_renders E out htmls : ∀ i st,
  PLAYWRIGHT_AVAILABLE E = true →
  (∀ t c, is_merge_call c = false → oracle E t c = true) →
  Exists (λ h, is_Some (fs st !! h)) htmls →
  (∀ k, fs st !! slide_path out k ≠ Some Dir) →
  true ∈ job_outcomes E out i htmls st.
Proof.
  induction htmls as [|h rest IH]; intros i st Hav Hor Hex Hdir.
  { by apply Exists_nil in Hex. }
  destruct (fs st !! h) as [n|] eqn:Hh.
  - destruct (render_willing E h (slide_path out i) st Hav Hor) as [st' Hrun];
      [by eexists|done|].
    simpl. rewrite Hrun. apply list_elem_of_here.
  - apply Exists_cons in Hex as [[n Hn]|Hex]; [congruence|].
    simpl. rewrite (missing_source_run E h _ st Hh).
    apply list_elem_of_further. by apply IH.
Qed.

Lemma append_all_willing E files : ∀ merger st,
  (∀ t f, oracle E t (CMergerAppend f) = true) →
  Forall (λ f, ∃ ps, fs st !! f = Some (File (Pdf ps))) files →
  ∃ tr, run (append_all E files merger) st
        = (Ok (merger ++ pages_of_files (fs st) files), set_trace tr st).
Proof.
  induction files as [|f rest IH]; intros merger st Hor Hall; simpl.
  - exists (trace st). rewrite app_nil_r. by destruct st.
  - apply Forall_cons in Hall as [[ps Hf] Hall].
    unfold_model. simpl. rewrite Hf. simpl.
    rewrite Hor. simpl. rewrite Hf.
    destruct (IH (merger ++ ps) (set_trace (CMergerAppend f :: trace st) st))
      as [tr Hrun]; [done|done|].
    unfold run in Hrun; simpl in Hrun. rewrite Hrun, <- app_assoc. by exists tr.
Qed.

(** The merge when every call but [merger.write] returns and that one
    raises: the output path is left cut short and the failure is
    logged. *)
Lemma merge_write_fails E files out st :
  PYPDF2_INSTALLED E = true →
  (∀ t c, (∀ p, c ≠ CMergerWrite p) → oracle E t c = true) →
  (∀ t p, oracle E t (CMergerWrite p) = false) →
  Forall (λ f, ∃ ps, fs st !! f = Some (File (Pdf ps))) files →
  fs st !! out ≠ Some Dir →
  ∃ st', run (_merge_pdfs E files out) st = (Ok tt, st')
    ∧ fs st' = <[out := File Truncated]> (fs st)
    ∧ log st' = MergeFailed (EngineError (CMergerWrite out)) :: log st.
Proof.
  intros Hpy Hor Hw Hall Hdir.
  destruct (append_all_willing E files [] st) as [tr Hrun]; [|done|].
  { intros t f. by apply Hor. }
  unfold_model. simpl. rewrite Hpy. rewrite Hrun. simpl.
  rewrite (Hor _ (COpenWb out)) by done. simpl.
  destruct (fs st !! out) as [[|c]|] eqn:Ho; [done| |]; simpl.
  all: rewrite Hw; simpl.
  all: eexists; split; [reflexivity|]; simpl.
  all: by split.
Qed.

Lemma batch_write_fails E htmls out m st :
  PLAYWRIGHT_AVAILABLE E = true →
  PYPDF2_INSTALLED E = true →
  (∀ t c, (∀ p, c ≠ CMergerWrite p) → oracle E t c = true) →
  (∀ t p, oracle E t (CMergerWrite p) = false) →
  Exists (λ h, is_Some (fs st !! h)) htmls →
  (∀ c, fs st !! out ≠ Some (File c)) →
  (∀ k, fs st !! slide_path out k ≠ Some Dir) →
  m ≠ EmptyString → m ≠ out →
  m ∉ slide_paths out 0 (length htmls) →
  fs st !! m ≠ Some Dir →
  ∃ st', run (convert_multiple_html_to_pdf E htmls out (Some m)) st
         = (Ok [m], st')
    ∧ fs st' !! m = Some (File Truncated)
    ∧ head (log st') = Some (MergeFailed (EngineError (CMergerWrite m))).
Proof.
  intros Hav Hpy Hor Hw Hex Hout Hdir Hm Hmo Hms Hmd.
  assert (Hnm : ∀ t c, is_merge_call c = false → oracle E t c = true).
  { intros t c Hc. by apply Hor, no_merge_call_is_no_write. }
  destruct (os_makedirs_willing E out st Hnm Hout) as [st1 Hmk].
  destruct (os_makedirs_spec E out st)
    as (r0 & st1' & Hmk' & _ & _ & _ & Hfs1 & _ & Hdir1 & _).
  rewrite Hmk in Hmk'. injection Hmk' as <- <-.
  specialize (Hdir1 eq_refl).
  destruct (start_browser_willing E st1 Hav Hnm) as [st2 Hstart].
  destruct (start_browser_spec E st1) as (r1 & st2' & Hs & Hfs2 & _).
  rewrite Hstart in Hs. injection Hs as <- <-.
  assert (Hsome : true ∈ job_outcomes E out 0 htmls st2).
  { apply some_job_renders; [done|done| |].
    - eapply Exists_impl; [exact Hex|]. intros h Hh. simpl in Hh.
      rewrite Hfs2. destruct (decide (h = out)) as [->|Hho].
      + rewrite Hdir1. by eexists.
      + by rewrite Hfs1.
    - intros k. rewrite Hfs2, Hfs1 by apply slide_path_ne_dir. apply Hdir. }
  destruct (render_loop_spec E out htmls 0 [] st2)
    as (st3 & Hloop & Hlen & Hfs3 & _ & _ & Hok & _).
  simpl in Hloop.
  destruct (pages_of_selected (fs st3) (doc_of E)
              (job_outcomes E out 0 htmls st2)
              (slide_paths out 0 (length htmls)) htmls) as [_ Hallp].
  { apply slide_paths_length. }
  { intros k p h Hf Hp Hh. apply slide_paths_lookup in Hp as ->.
    by apply (Hok k h). }
  assert (Hdir3 : fs st3 !! m ≠ Some Dir).
  { rewrite Hfs3 by done. by rewrite Hfs2, Hfs1. }
  destruct (merge_write_fails E _ m st3 Hpy Hor Hw Hallp Hdir3)
    as (st4 & Hmerge & Hfs4 & Hlog4).
  destruct (close_browser_spec E st4)
    as (r & st5 & Hclose & Hfs5 & Hlog5 & _ & _ & _ & _ & Hok5).
  rewrite Hok5 in Hclose.
  2:{ intros t c Hc. apply Hnm. by destruct c. }
  assert (Hbody : run (batch_body E htmls out (Some m)) st1 = (Ok [m], st4)).
  { rewrite (batch_body_merge _ _ _ _ _ _ _ _ Hstart Hloop Hm).
    - by rewrite Hmerge.
    - apply select_nonempty; [done|]. by rewrite slide_paths_length. }
  exists st5. split.
  { rewrite (batch_unfold _ _ _ _ _ _ Hmk). by eapply finally_ok. }
  split.
  - by rewrite Hfs5, Hfs4, lookup_insert_eq.
  - by rewrite Hlog5, Hlog4.
Qed.

(** X19: in batch mode [convert_to_pdf] only checks that some slide
    rendered and that something is at the merged path.  So when the
    setup of the run goes through, some HTML file of the list exists,
    every call returns but [merger.write] and that one raises,
    [convert_to_pdf] returns the merged path all the same: the file there
    is the one the merge left cut short, and the last message of the
    converter is the failure of the merge. *)
Theorem truncated_merge_is_returned AE s hs od :
  PLAYWRIGHT_AVAILABLE (pdf_env AE) = true →
  PYPDF2_INSTALLED (pdf_env AE) = true →
  (∀ t c, (∀ p, c ≠ CMergerWrite p) → oracle (pdf_env AE) t c = true) →
  (∀ t p, oracle (pdf_env AE) t (CMergerWrite p) = false) →
  (∀ t c, sys_oracle AE t c = true) →
  Config.output_dir (config_data s) = JStr od →
  json_truthy (Config.should_merge_pdfs (config_data s)) = true →
  1 < length hs →
  Exists (λ h, is_Some (fs (pdf_converter s) !! h)) hs →
  (∀ c, fs (pdf_converter s) !! Path od ≠ Some (File c)) →
  (∀ c, fs (pdf_converter s) !! temp_dir_of od ≠ Some (File c)) →
  (∀ k, fs (pdf_converter s) !! slide_path (temp_dir_of od) k ≠ Some Dir) →
  (∀ ts, fs (pdf_converter s) !! out_path_of od ts ≠ Some Dir) →
  ∃ ts s',
    run_app (convert_to_pdf AE hs) s = (Done (Some (out_path_of od ts)), s')
    ∧ fs (pdf_converter s') !! out_path_of od ts = Some (File Truncated)
    ∧ head (log (pdf_converter s'))
      = Some (MergeFailed (EngineError (CMergerWrite (out_path_of od ts)))).
Proof.
  intros Hav Hpy Hor Hw Hsys Hod Hmerge Hlen Hex Ho1 Ho2 Ho3 Ho4.
  destruct hs as [|h rest]; [simpl in Hlen; lia|].
  set (temp := temp_dir_of od) in *.
  (* the two directories *)
  destruct (path_mkdir_spec AE (Path od) s)
    as (r1 & s1 & Hmk1 & Hc1 & _ & Hst1 & Hfs1 & Hdir1 & Hok1).
  rewrite (Hok1 Hsys Ho1) in Hmk1. specialize (Hdir1 (Hok1 Hsys Ho1)).
  assert (Htemp_od : temp ≠ Path od).
  { unfold temp, temp_dir_of. rewrite temp_pdf_dir_eq.
    by apply below_is_not_the_directory. }
  destruct (path_mkdir_spec AE temp s1)
    as (r2 & s2 & Hmk2 & Hc2 & _ & Hst2 & Hfs2 & Hdir2 & Hok2).
  assert (Ho2' : ∀ c, fs (pdf_converter s1) !! temp ≠ Some (File c)).
  { intros c. rewrite Hfs1 by done. apply Ho2. }
  rewrite (Hok2 Hsys Ho2') in Hmk2. specialize (Hdir2 (Hok2 Hsys Ho2')).
  (* the batch *)
  set (ts := strftime_now AE (length (app_trace s2))).
  set (m := out_path_of od ts).
  destruct (out_not_under_temp (Path od) ts) as (Hu & Hmt & Hms & Hm).
  fold (out_path_of od ts) in Hu, Hmt, Hms, Hm. fold m in Hu, Hmt, Hms, Hm.
  fold (temp_dir_of od) in Hu, Hmt, Hms. fold temp in Hu, Hmt, Hms.
  assert (Hm_od : m ≠ Path od).
  { unfold m, out_path_of. destruct (out_path_eq (Path od) ts) as [y ->].
    change ("p" +:+ y)%string with (String (Ascii.ascii_of_nat 112) y).
    by apply below_is_not_the_directory. }
  assert (Hslide_od : ∀ k, slide_path temp k ≠ Path od).
  { intros k. unfold temp, temp_dir_of.
    rewrite slide_path_in_temp, temp_pdf_dir_eq, <- string_app_assoc.
    change ("temp_pdfs" +:+ "/" +:+ pdf_filename k)%string
      with (String (Ascii.ascii_of_nat 116)
                   ("emp_pdfs" +:+ "/" +:+ pdf_filename k))%string.
    by apply below_is_not_the_directory. }
  destruct (batch_write_fails (pdf_env AE) (h :: rest) temp m
              (pdf_converter s2))
    as (st3 & Hbatch & Hfile & Hlog); try done.
  { eapply Exists_impl; [exact Hex|]. intros h' [n Hh']. simpl.
    destruct (decide (h' = temp)) as [->|Hne1]; [by eexists|].
    rewrite Hfs2 by done.
    destruct (decide (h' = Path od)) as [->|Hne2]; [by eexists|].
    rewrite Hfs1 by done. by eexists. }
  { intros c. by rewrite Hdir2. }
  { intros k. rewrite Hfs2 by apply slide_path_ne_dir.
    rewrite Hfs1 by done. apply Ho3. }
  { rewrite Hfs2, Hfs1 by done. apply Ho4. }
  (* the cleanup *)
  set (s3 := set_app_log (MergedPdfDone m :: app_log s2)
               (set_pdf_converter st3 s2)).
  destruct (cleanup_spec AE temp s3) as (s4 & Hfin & _ & Hst4 & Hkeep & _).
  exists ts, s4. split; [|split].
  - unfold convert_to_pdf.
    rewrite (app_bind_run _ _ s s s) by done.
    rewrite Hod. rewrite (app_bind_run _ _ s (Path od) s) by done.
    rewrite (app_bind_run _ _ _ _ _ Hmk1).
    fold (temp_dir_of od). fold temp.
    rewrite (app_bind_run _ _ _ _ _ Hmk2).
    eapply app_finally_run; [|exact Hfin].
    unfold render_deck, run_app. unfold_app.
    replace (config_data s2) with (config_data s) by congruence.
    rewrite Hmerge. rewrite bool_decide_eq_true_2 by done. simpl.
    fold ts. fold (out_path_of od ts). fold m.
    unfold run in Hbatch. rewrite Hbatch. simpl. rewrite Hfile. done.
  - rewrite Hkeep by done. exact Hfile.
  - rewrite Hst4. exact Hlog.
Qed.

Lemma truncated_merge_is_returned_witness :
  PLAYWRIGHT_AVAILABLE (pdf_env (app_env write_fails_env)) = true
  ∧ PYPDF2_INSTALLED (pdf_env (app_env write_fails_env)) = true
  ∧ (∀ t c, (∀ p, c ≠ CMergerWrite p) →
            oracle (pdf_env (app_env write_fails_env)) t c = true)
  ∧ (∀ t p, oracle (pdf_env (app_env write_fails_env)) t (CMergerWrite p)
            = false)
  ∧ (∀ t c, sys_oracle (app_env write_fails_env) t c = true)
  ∧ Config.output_dir (config_data (app_init default_config slides_deck))
    = JStr "output"
  ∧ json_truthy (Config.should_merge_pdfs
      (config_data (app_init default_config slides_deck))) = true
  ∧ 1 < length deck_files
  ∧ Exists (λ h, is_Some (fs (pdf_converter
                                (app_init default_config slides_deck)) !! h))
           deck_files
  ∧ (∀ c, fs (pdf_converter (app_init default_config slides_deck))
            !! Path "output" ≠ Some (File c))
  ∧ (∀ c, fs (pdf_converter (app_init default_config slides_deck))
            !! temp_dir_of "output" ≠ Some (File c))
  ∧ (∀ k, fs (pdf_converter (app_init default_config slides_deck))
            !! slide_path (temp_dir_of "output") k ≠ Some Dir)
  ∧ (∀ ts, fs (pdf_converter (app_init default_config slides_deck))
             !! out_path_of "output" ts ≠ Some Dir)
  ∧ ∃ ts s',
      run_app (convert_to_pdf (app_env write_fails_env) deck_files)
              (app_init default_config slides_deck)
      = (Done (Some (out_path_of "output" ts)), s')
      ∧ fs (pdf_converter s') !! out_path_of "output" ts
        = Some (File Truncated)
      ∧ head (log (pdf_converter s'))
        = Some (MergeFailed (EngineError
                  (CMergerWrite (out_path_of "output" ts)))).
Proof.
  assert (Hdirs : ∀ q, fs (pdf_converter (app_init default_config slides_deck))
                         !! q = Some Dir → q = "slides"%string).
  { intros q. change (fs (pdf_converter (app_init default_config slides_deck)))
      with slides_deck.
    unfold slides_deck. cbn [list_to_map foldr curry fst snd].
    rewrite !lookup_insert_Some, lookup_empty. intuition congruence. }
  assert (H1 : PLAYWRIGHT_AVAILABLE (pdf_env (app_env write_fails_env)) = true)
    by reflexivity.
  assert (H2 : PYPDF2_INSTALLED (pdf_env (app_env write_fails_env)) = true)
    by reflexivity.
  assert (H3 : ∀ t c, (∀ p, c ≠ CMergerWrite p) →
                 oracle (pdf_env (app_env write_fails_env)) t c = true).
  { intros t c Hc. destruct c; try reflexivity. by destruct (Hc path). }
  assert (H3' : ∀ t p, oracle (pdf_env (app_env write_fails_env)) t
                         (CMergerWrite p) = false) by reflexivity.
  assert (H4 : ∀ t c, sys_oracle (app_env write_fails_env) t c = true)
    by reflexivity.
  assert (H5 : Config.output_dir
                 (config_data (app_init default_config slides_deck))
               = JStr "output") by (vm_compute; reflexivity).
  assert (H6 : json_truthy (Config.should_merge_pdfs
                 (config_data (app_init default_config slides_deck))) = true)
    by (vm_compute; reflexivity).
  assert (H8 : 1 < length deck_files) by (simpl; lia).
  assert (H9 : Exists (λ h, is_Some (fs (pdf_converter
                 (app_init default_config slides_deck)) !! h)) deck_files).
  { unfold deck_files. apply Exists_cons_hd. vm_compute. eauto. }
  assert (H10 : ∀ c, fs (pdf_converter (app_init default_config slides_deck))
                       !! Path "output" ≠ Some (File c))
    by (intros c; vm_compute; discriminate).
  assert (H11 : ∀ c, fs (pdf_converter (app_init default_config slides_deck))
                       !! temp_dir_of "output" ≠ Some (File c))
    by (intros c; vm_compute; discriminate).
  assert (H12 : ∀ k, fs (pdf_converter (app_init default_config slides_deck))
                       !! slide_path (temp_dir_of "output") k ≠ Some Dir).
  { intros k Hk. apply Hdirs in Hk. unfold temp_dir_of in Hk.
    rewrite slide_path_in_temp in Hk.
    change (truediv (Path "output") "temp_pdfs")
      with "output/temp_pdfs"%string in Hk.
    rewrite string_app_cons in Hk. discriminate. }
  assert (H13 : ∀ ts, fs (pdf_converter (app_init default_config slides_deck))
                        !! out_path_of "output" ts ≠ Some Dir).
  { intros ts Hts. apply Hdirs in Hts. unfold out_path_of in Hts.
    destruct (out_path_eq (Path "output") ts) as [y Hy]. rewrite Hy in Hts.
    change (dir_prefix (Path "output")) with "output/"%string in Hts.
    rewrite string_app_cons in Hts. discriminate. }
  repeat (split; [assumption|]).
  exact (truncated_merge_is_returned (app_env write_fails_env)
           (app_init default_config slides_deck) deck_files "output"
           H1 H2 H3 H3' H4 H5 H6 H8 H9 H10 H11 H12 H13).
Defined.

(** ** What a deck run can raise *)

Lemma app_bind_failed {A B} (m : MApp A) (f : A → MApp B) s e s' :
  run_app (m ≫= f) s = (Failed e, s') →
  run_app m s = (Failed e, s')
  ∨ ∃ a s1, run_app m s = (Done a, s1) ∧ run_app (f a) s1 = (Failed e, s').
Proof.
  unfold run_app, mbind, MApp_bind.
  destruct (m s) as [[a|e0] s1] eqn:Hm; [|intros [= -> ->]; by left].
  intros H. right. by exists a, s1.
Qed.

Lemma path_mkdir_failed AE p s e s' :
  run_app (path_mkdir AE p) s = (Failed e, s') →
  e = MkdirFileExists ∨ e = SysError (CMkdir p).
Proof.
  unfold_app. simpl.
  destruct (sys_oracle AE (length (app_trace s)) (CMkdir p)); simpl.
  - destruct (fs (pdf_converter s) !! p) as [[|c]|]; simpl; intros [=]; auto.
  - intros [=]; auto.
Qed.

(** A batch raises only when its output directory cannot be made or when
    the teardown raises. *)
Lemma batch_raises E htmls out merged st e st' :
  run (convert_multiple_html_to_pdf E htmls out merged) st = (Raise e, st') →
  e = FileExistsError ∨ e = EngineError (CMakedirs out)
  ∨ ∃ c, e = EngineError c ∧ is_teardown_call c = true.
Proof.
  intros Hrun.
  destruct (os_makedirs_spec E out st)
    as (r0 & st1 & Hmk & _ & _ & _ & _ & _ & _ & Hraise).
  destruct r0 as [[]|e0].
  - rewrite (batch_unfold _ _ _ _ _ _ Hmk) in Hrun.
    destruct (batch_body_spec E htmls out merged st1)
      as (files & st2 & Hbody & _).
    destruct (close_browser_spec E st2)
      as (r & st3 & Hclose & _ & _ & _ & _ & _ & Hcr & _).
    revert Hrun. unfold run, try_finally in *. rewrite Hbody, Hclose.
    destruct r as [[]|e1]; intros [= <- <-].
    destruct (Hcr e1 eq_refl) as (c & -> & Hc & _). right. right. by exists c.
  - revert Hrun. unfold convert_multiple_html_to_pdf, run, mbind, M_bind.
    unfold run in Hmk. rewrite Hmk. intros [= <- <-].
    destruct (Hraise e0 eq_refl) as [_ [->| ->]]; auto.
Qed.

Lemma render_deck_failed AE hs h out temp s e s1 :
  run_app (render_deck AE hs h out temp) s = (Failed e, s1) →
  json_truthy (Config.should_merge_pdfs (config_data s))
  && bool_decide (1 < length hs) = true
  ∧ ∃ e', e = ConverterError e'
      ∧ (e' = FileExistsError ∨ e' = EngineError (CMakedirs temp)
         ∨ ∃ c, e' = EngineError c ∧ is_teardown_call c = true).
Proof.
  unfold render_deck, run_app. unfold_app.
  destruct (json_truthy (Config.should_merge_pdfs (config_data s))
            && bool_decide (1 < length hs)) eqn:Hcond.
  - destruct (convert_multiple_html_to_pdf _ _ _ _ _) as [[files|e0] st']
      eqn:Hb; simpl.
    + destruct (negb (bool_decide (files = [])) && _); simpl; intros [=].
    + intros [= <- <-]. split; [done|]. exists e0. split; [done|].
      by eapply batch_raises.
  - destruct (convert_spec (pdf_env AE) h
                (truediv out ("presentation_"
                   +:+ strftime_now AE (length (app_trace s)) +:+ ".pdf"))
                (pdf_converter s)) as (b & st' & Hconv & _).
    unfold run in Hconv. rewrite Hconv. destruct b; simpl; intros [=].
Qed.

(** X21: what [convert_to_pdf] can raise.  It raises when the configured
    output directory is no str, when one of its two directories cannot be
    made, and, in batch mode only, when the converter cannot make its
    output directory or its teardown raises.  A failed render, a failed
    merge and a failed cleanup never make it raise. *)
Theorem deck_run_raises_only_for_setup_or_teardown AE hs s e s' :
  run_app (convert_to_pdf AE hs) s = (Failed e, s') →
  e = PathTypeError
  ∨ e = MkdirFileExists
  ∨ (∃ p, e = SysError (CMkdir p))
  ∨ (json_truthy (Config.should_merge_pdfs (config_data s)) = true
     ∧ 1 < length hs
     ∧ ∃ e', e = ConverterError e'
         ∧ (e' = FileExistsError
            ∨ (∃ d, e' = EngineError (CMakedirs d))
            ∨ ∃ c, e' = EngineError c ∧ is_teardown_call c = true)).
Proof.
  destruct hs as [|h rest]; [by intros [=]|].
  unfold convert_to_pdf. intros Hrun.
  apply app_bind_failed in Hrun as [[=]|(s0 & s0' & [= <- <-] & Hrun)].
  apply app_bind_failed in Hrun as [Hpath|(out & s0 & Hpath & Hrun)].
  { left. revert Hpath. unfold Path_of.
    destruct (Config.output_dir _); by intros [=]. }
  assert (s0 = s) as ->.
  { revert Hpath. unfold Path_of.
    destruct (Config.output_dir _); by intros [=]. }
  apply app_bind_failed in Hrun as [Hmk|([] & s1 & Hmk1 & Hrun)].
  { apply path_mkdir_failed in Hmk as [->| ->]; eauto. }
  apply app_bind_failed in Hrun as [Hmk|([] & s2 & Hmk2 & Hrun)].
  { apply path_mkdir_failed in Hmk as [->| ->]; eauto 6. }
  destruct (path_mkdir_spec AE out s) as (r1 & s1' & Hmk1' & Hc1 & _).
  rewrite Hmk1 in Hmk1'. injection Hmk1' as <- <-.
  destruct (path_mkdir_spec AE (truediv out "temp_pdfs") s1)
    as (r2 & s2' & Hmk2' & Hc2 & _).
  rewrite Hmk2 in Hmk2'. injection Hmk2' as <- <-.
  revert Hrun. unfold run_app, app_try_finally.
  destruct (render_deck AE (h :: rest) h out (truediv out "temp_pdfs") s2)
    as [r s3] eqn:Hbody.
  destruct (cleanup_spec AE (truediv out "temp_pdfs") s3) as (s4 & Hfin & _).
  unfold run_app in Hfin. rewrite Hfin. intros [= -> <-].
  apply render_deck_failed in Hbody as (Hcond & e' & -> & He').
  rewrite Hc2, Hc1 in Hcond. apply andb_true_iff in Hcond as [Hm Hl].
  apply bool_decide_eq_true in Hl.
  right. right. right. split; [done|]. split; [done|].
  exists e'. split; [done|]. destruct He' as [->|[->|?]]; eauto.
Qed.

Lemma deck_run_raises_only_for_setup_or_teardown_witness :
  run_app (convert_to_pdf (app_env all_ok_env) deck_files)
          (app_init default_config output_is_a_file)
  = (Failed MkdirFileExists, blocked_run_state)
  ∧ (MkdirFileExists = PathTypeError
     ∨ MkdirFileExists = MkdirFileExists
     ∨ (∃ p, MkdirFileExists = SysError (CMkdir p))
     ∨ (json_truthy (Config.should_merge_pdfs
          (config_data (app_init default_config output_is_a_file))) = true
        ∧ 1 < length deck_files
        ∧ ∃ e', MkdirFileExists = ConverterError e'
            ∧ (e' = FileExistsError
               ∨ (∃ d, e' = EngineError (CMakedirs d))
               ∨ ∃ c, e' = EngineError c ∧ is_teardown_call c = true))).
Proof.
  assert (H : run_app (convert_to_pdf (app_env all_ok_env) deck_files)
                      (app_init default_config output_is_a_file)
              = (Failed MkdirFileExists, blocked_run_state))
    by (vm_compute; reflexivity).
  split; [exact H|].
  exact (deck_run_raises_only_for_setup_or_teardown (app_env all_ok_env)
           deck_files (app_init default_config output_is_a_file) _ _ H).
Defined.
